(** * search_engine_reverser: the adaptive query strategy and the result analyzer

    A shallow embedding of [search_reverser/adaptive.py],
    [search_reverser/analyzers.py], [search_reverser/collectors.py],
    [search_reverser/search_reverser.py] and [search_reverser/utils.py],
    with [analyze_search_behavior] of [test_search_reverser.py] and
    [_fuzzy_match] of [mock_search_server.py].

    Conventions of the embedding:
    - a Python [str] is a [string]; its characters are the code points
      U+0000..U+00FF, classified as Python classifies them;
    - a Python [float] is an exact rational of [Q] (no rounding); only
      statements that rounding cannot falsify are made about sums, means
      and running averages;
    - a response body is a list of well-formed result records: each has a
      string title, a numeric score if it has one, and a string under
      [matched] if it has one;
    - a [dict] whose iteration order the code relies on is an association
      list in insertion order, other dicts are [gmap]s, sets are [gset]s;
    - instance state is threaded through a state-and-exception monad, a
      raised exception leaves the mutations made before it in place;
    - the [random] module reads a tape of draws;
    - a run of the test suite threads the engineer, the answers of the
      endpoint and the readings of the clock through a second monad. *)

From Stdlib Require Import Ascii NArith QArith Qminmax Lqa.
From stdpp Require Import base option list strings gmap pretty.

Open Scope string_scope.

(** ** Python strings *)

Module PyStr.

Definition code (c : ascii) : N := N_of_ascii c.

Definition between (lo hi : N) (c : ascii) : bool :=
  ((lo <=? code c) && (code c <=? hi))%N.

Definition is_code (n : N) (c : ascii) : bool := (code c =? n)%N.

(** [c.isspace()] *)
Definition isspace (c : ascii) : bool :=
  between 9 13 c || between 28 32 c || is_code 133 c || is_code 160 c.

(** [c.isalnum()] *)
Definition isalnum (c : ascii) : bool :=
  between 48 57 c || between 65 90 c || between 97 122 c
  || is_code 170 c || is_code 178 c || is_code 179 c || is_code 181 c
  || between 185 186 c || between 188 190 c
  || between 192 214 c || between 216 246 c || between 248 255 c.

(** One character of [s.lower()] *)
Definition lower_char (c : ascii) : ascii :=
  if between 65 90 c || (between 192 222 c && negb (is_code 215 c))
  then ascii_of_N (code c + 32)
  else c.

(** [s.lower()] *)
Fixpoint lower (s : string) : string :=
  match s with
  | EmptyString => EmptyString
  | String c s' => String (lower_char c) (lower s')
  end.

Definition is_empty (s : string) : bool :=
  match s with EmptyString => true | _ => false end.

(** [s.split()]: the maximal runs of non-whitespace characters, in order.
    [cur] is the run being read. *)
Fixpoint split_from (cur : string) (s : string) : list string :=
  match s with
  | EmptyString => if is_empty cur then [] else [cur]
  | String c s' =>
      if isspace c
      then (if is_empty cur then split_from EmptyString s'
            else cur :: split_from EmptyString s')
      else split_from (cur +:+ String c EmptyString) s'
  end.

Definition split (s : string) : list string := split_from EmptyString s.

(** [any(p(c) for c in s)] *)
Fixpoint any_char (p : ascii -> bool) (s : string) : bool :=
  match s with
  | EmptyString => false
  | String c s' => p c || any_char p s'
  end.

Fixpoint all_char (p : ascii -> bool) (s : string) : bool :=
  match s with
  | EmptyString => true
  | String c s' => p c && all_char p s'
  end.

(** [s.isalnum()]: every character is alphanumeric and there is at least one *)
Definition str_isalnum (s : string) : bool :=
  negb (is_empty s) && all_char isalnum s.

(** [s.startswith(p)] *)
Definition startswith (s p : string) : bool := String.prefix p s.

(** [needle in hay] *)
Fixpoint contains (needle hay : string) : bool :=
  String.prefix needle hay
  || match hay with
     | EmptyString => false
     | String _ hay' => contains needle hay'
     end.

(** The one-character string made of a double quote *)
Definition dquote : string := String (ascii_of_N 34) EmptyString.

End PyStr.

(** ** Query classification ([adaptive.py]) *)

(** The [categories] dict of [_categorize_query], in insertion order. *)
Definition categories : list (string * (string -> bool)) :=
  [ ("exact", fun q => (2 <? length (PyStr.split q))%nat);
    ("partial", fun q => (length (PyStr.split q) =? 1)%nat);
    ("fuzzy", fun q =>
       PyStr.any_char (fun c => negb (PyStr.isalnum c) && negb (PyStr.isspace c)) q);
    ("compound", fun q =>
       PyStr.contains " AND " q || PyStr.contains " OR " q) ].

Fixpoint first_category (cs : list (string * (string -> bool))) (query : string)
  : string :=
  match cs with
  | [] => "general"
  | (category, check) :: cs' =>
      if check query then category else first_category cs' query
  end.

Definition _categorize_query (query : string) : string :=
  first_category categories query.

(** [_identify_query_pattern] *)
Definition _identify_query_pattern (query : string) : string :=
  let query := PyStr.lower query in
  if PyStr.contains PyStr.dquote query then "phrase"
  else if PyStr.contains " and " query then "compound"
  else if PyStr.contains " or " query then "broad"
  else if PyStr.startswith query "advanced " then "specific"
  else "simple".

(** ** Numbers *)

Definition Qltb (a b : Q) : bool := negb (Qle_bool b a).

(** [min(a, b)] and [max(a, b)]: the first argument unless the second is
    strictly smaller (larger). *)
Definition py_min (a b : Q) : Q := if Qltb b a then b else a.
Definition py_max (a b : Q) : Q := if Qltb a b then b else a.

(** ** Dicts that keep their insertion order *)

Section Dict.
Context {V : Type}.

Fixpoint dict_get (k : string) (d : list (string * V)) : option V :=
  match d with
  | [] => None
  | (k', v) :: d' => if decide (k' = k) then Some v else dict_get k d'
  end.

(** [d[k] = v]: in place when [k] is a key, at the end otherwise *)
Fixpoint dict_set (k : string) (v : V) (d : list (string * V))
  : list (string * V) :=
  match d with
  | [] => [(k, v)]
  | (k', v') :: d' =>
      if decide (k' = k) then (k, v) :: d' else (k', v') :: dict_set k v d'
  end.

Definition keys (d : list (string * V)) : list string := d.*1.

End Dict.

(** ** The static catalog ([AdaptiveQueryStrategy.__init__]) *)

Definition domains : list (string * list string) :=
  [ ("general_academic",
      ["education"; "learning"; "study"; "course"; "tutorial"; "guide"; "introduction"]);
    ("science",
      ["research"; "experiment"; "theory"; "analysis"; "methodology"; "scientific"]);
    ("mathematics",
      ["math"; "calculus"; "algebra"; "statistics"; "probability"; "equations"]);
    ("general_tech",
      ["technology"; "digital"; "computer"; "software"; "hardware"; "system"; "platform"]);
    ("programming",
      ["coding"; "development"; "software"; "algorithm"; "debugging"; "implementation"]);
    ("languages",
      ["python"; "javascript"; "java"; "cpp"; "rust"; "golang"; "ruby"; "php"]);
    ("web_dev",
      ["frontend"; "backend"; "fullstack"; "web"; "html"; "css"; "api"; "rest"]);
    ("data_science",
      ["analytics"; "machine learning"; "data mining"; "big data"; "visualization"; "prediction"]);
    ("business",
      ["management"; "strategy"; "planning"; "organization"; "leadership"; "innovation"]);
    ("marketing",
      ["advertising"; "branding"; "marketing"; "social media"; "content"; "seo"]);
    ("finance",
      ["investment"; "trading"; "economics"; "financial"; "accounting"; "market"]);
    ("design",
      ["design"; "creative"; "art"; "visual"; "graphic"; "typography"; "layout"]);
    ("media",
      ["video"; "audio"; "multimedia"; "animation"; "production"; "editing"]);
    ("writing",
      ["content"; "documentation"; "technical writing"; "blogging"; "copywriting"]);
    ("engineering",
      ["mechanical"; "electrical"; "civil"; "chemical"; "industrial"; "engineering"]);
    ("healthcare",
      ["medical"; "health"; "clinical"; "patient"; "diagnosis"; "treatment"]);
    ("manufacturing",
      ["production"; "assembly"; "quality"; "automation"; "industrial"; "process"]) ].

(** ** Search results and the strategy's state *)

(** One well-formed result record of the endpoint. [title] is read with
    [result["title"]], [score] and [matched] with [result.get]. A record
    without a title, or with a title that is no string, is outside this
    type: on such a record [analyze_response] raises at the title. *)
Record Result := {
  title : string;
  score : option Q;
  matched : option string
}.

Record Rate := { n_success : nat; n_total : nat }.

Record LearnedPatterns := {
  effective_terms : gset string;
  ineffective_terms : gset string;
  optimal_query_length : Q;
  best_performing_categories : list string;
  successful_domains : gset string;
  successful_patterns : list string
}.

Inductive Phase := domain_exploration | pattern_exploration | optimization.

Record Strategy := {
  query_success_rates : gmap string Rate;
  learned_patterns : LearnedPatterns;
  current_phase : Phase;
  exploration_rounds : nat;
  max_exploration_rounds : nat;
  domain_weights : list (string * Q)
}.

(** The state after [__init__] *)
Definition init : Strategy := {|
  query_success_rates := ∅;
  learned_patterns := {|
    effective_terms := ∅;
    ineffective_terms := ∅;
    optimal_query_length := 0;
    best_performing_categories := [];
    successful_domains := ∅;
    successful_patterns := []
  |};
  current_phase := domain_exploration;
  exploration_rounds := 0;
  max_exploration_rounds := 3;
  domain_weights := (fun domain => (domain, 1.0%Q)) <$> keys domains
|}.

(** Field updates *)
Definition with_rates (f : gmap string Rate -> gmap string Rate) (s : Strategy)
  : Strategy :=
  {| query_success_rates := f (query_success_rates s);
     learned_patterns := learned_patterns s;
     current_phase := current_phase s;
     exploration_rounds := exploration_rounds s;
     max_exploration_rounds := max_exploration_rounds s;
     domain_weights := domain_weights s |}.

Definition with_learned (f : LearnedPatterns -> LearnedPatterns) (s : Strategy)
  : Strategy :=
  {| query_success_rates := query_success_rates s;
     learned_patterns := f (learned_patterns s);
     current_phase := current_phase s;
     exploration_rounds := exploration_rounds s;
     max_exploration_rounds := max_exploration_rounds s;
     domain_weights := domain_weights s |}.

Definition with_phase (p : Phase) (s : Strategy) : Strategy :=
  {| query_success_rates := query_success_rates s;
     learned_patterns := learned_patterns s;
     current_phase := p;
     exploration_rounds := exploration_rounds s;
     max_exploration_rounds := max_exploration_rounds s;
     domain_weights := domain_weights s |}.

Definition with_rounds (f : nat -> nat) (s : Strategy) : Strategy :=
  {| query_success_rates := query_success_rates s;
     learned_patterns := learned_patterns s;
     current_phase := current_phase s;
     exploration_rounds := f (exploration_rounds s);
     max_exploration_rounds := max_exploration_rounds s;
     domain_weights := domain_weights s |}.

Definition with_weights (f : list (string * Q) -> list (string * Q)) (s : Strategy)
  : Strategy :=
  {| query_success_rates := query_success_rates s;
     learned_patterns := learned_patterns s;
     current_phase := current_phase s;
     exploration_rounds := exploration_rounds s;
     max_exploration_rounds := max_exploration_rounds s;
     domain_weights := f (domain_weights s) |}.

Definition with_effective (f : gset string -> gset string) (l : LearnedPatterns)
  : LearnedPatterns :=
  {| effective_terms := f (effective_terms l);
     ineffective_terms := ineffective_terms l;
     optimal_query_length := optimal_query_length l;
     best_performing_categories := best_performing_categories l;
     successful_domains := successful_domains l;
     successful_patterns := successful_patterns l |}.

Definition with_ineffective (f : gset string -> gset string) (l : LearnedPatterns)
  : LearnedPatterns :=
  {| effective_terms := effective_terms l;
     ineffective_terms := f (ineffective_terms l);
     optimal_query_length := optimal_query_length l;
     best_performing_categories := best_performing_categories l;
     successful_domains := successful_domains l;
     successful_patterns := successful_patterns l |}.

Definition with_length (f : Q -> Q) (l : LearnedPatterns) : LearnedPatterns :=
  {| effective_terms := effective_terms l;
     ineffective_terms := ineffective_terms l;
     optimal_query_length := f (optimal_query_length l);
     best_performing_categories := best_performing_categories l;
     successful_domains := successful_domains l;
     successful_patterns := successful_patterns l |}.

Definition with_categories (f : list string -> list string) (l : LearnedPatterns)
  : LearnedPatterns :=
  {| effective_terms := effective_terms l;
     ineffective_terms := ineffective_terms l;
     optimal_query_length := optimal_query_length l;
     best_performing_categories := f (best_performing_categories l);
     successful_domains := successful_domains l;
     successful_patterns := successful_patterns l |}.

Definition with_successful_domains (f : gset string -> gset string)
  (l : LearnedPatterns) : LearnedPatterns :=
  {| effective_terms := effective_terms l;
     ineffective_terms := ineffective_terms l;
     optimal_query_length := optimal_query_length l;
     best_performing_categories := best_performing_categories l;
     successful_domains := f (successful_domains l);
     successful_patterns := successful_patterns l |}.

Definition with_successful_patterns (f : list string -> list string)
  (l : LearnedPatterns) : LearnedPatterns :=
  {| effective_terms := effective_terms l;
     ineffective_terms := ineffective_terms l;
     optimal_query_length := optimal_query_length l;
     best_performing_categories := best_performing_categories l;
     successful_domains := successful_domains l;
     successful_patterns := f (successful_patterns l) |}.

(** ** The state-and-exception monad *)

(** What the interpreter sees: the strategy instance and the state of the
    [random] module, a tape of draws and the position of the next one. *)
Record World := {
  self : Strategy;
  tape : nat -> N;
  cursor : nat
}.

Inductive exn :=
| KeyError (key : string)
| IndexError
| ValueError.

(** A call returns, raises, or is still in a loop when its fuel is spent. *)
Inductive outcome (A : Type) :=
| Ok (a : A)
| Raise (e : exn)
| OutOfFuel.
Arguments Ok {A} a.
Arguments Raise {A} e.
Arguments OutOfFuel {A}.

Definition M (A : Type) : Type := World -> outcome A * World.

#[global] Instance M_ret : MRet M := fun A a w => (Ok a, w).

#[global] Instance M_bind : MBind M := fun A B f m w =>
  match m w with
  | (Ok a, w') => f a w'
  | (Raise e, w') => (Raise e, w')
  | (OutOfFuel, w') => (OutOfFuel, w')
  end.

(** The world with the instance replaced *)
Definition put (s : Strategy) (w : World) : World :=
  {| self := s; tape := tape w; cursor := cursor w |}.

Definition get : M Strategy := fun w => (Ok (self w), w).

Definition modify (f : Strategy -> Strategy) : M unit := fun w =>
  (Ok tt, put (f (self w)) w).

Definition raise {A : Type} (e : exn) : M A := fun w => (Raise e, w).

Definition out_of_fuel {A : Type} : M A := fun w => (OutOfFuel, w).

Definition draw : M N := fun w =>
  (Ok (tape w (cursor w)),
   {| self := self w; tape := tape w; cursor := S (cursor w) |}).

(** [d[k]] *)
Definition getitem {V : Type} (d : list (string * V)) (k : string) : M V :=
  match dict_get k d with
  | Some v => mret v
  | None => raise (KeyError k)
  end.

(** [for x in l: acc = body(acc, x)] *)
Fixpoint for_fold {A S : Type} (l : list A) (acc : S) (body : S -> A -> M S)
  : M S :=
  match l with
  | [] => mret acc
  | x :: l' => acc' ← body acc x; for_fold l' acc' body
  end.

(** ** The [random] module *)

(** [random.random()]: a multiple of 2^-53 in [0, 1) *)
Definition random_random : M Q :=
  n ← draw;
  mret (Z.of_N (n mod 2 ^ 53) # 2 ^ 53).

(** [random.choice(seq)] *)
Definition random_choice {A : Type} (seq : list A) : M A :=
  match seq with
  | [] => raise IndexError
  | x :: _ => n ← draw; mret (nth (N.to_nat n mod length seq) seq x)
  end.

Fixpoint remove_at {A : Type} (i : nat) (l : list A) : list A :=
  match l, i with
  | [], _ => []
  | _ :: l', O => l'
  | x :: l', S i' => x :: remove_at i' l'
  end.

(** [random.sample(population, k)]: [k] elements at distinct positions *)
Fixpoint random_sample {A : Type} (population : list A) (k : nat) : M (list A) :=
  match k with
  | O => mret []
  | S k' =>
      match population with
      | [] => raise ValueError
      | x :: _ =>
          n ← draw;
          let i := (N.to_nat n mod length population)%nat in
          rest ← random_sample (remove_at i population) k';
          mret (nth i population x :: rest)
      end
  end.

(** ** The result analyzer ([analyzers.py]) *)

Record RankingFactors := {
  date_influenced : bool;
  popularity_signals : bool;
  text_relevance : Q
}.

Record Tokenization := {
  splits_on_space : bool;
  removes_stopwords : bool;
  uses_stemming : bool
}.

Record Characteristics := {
  ranking_factors : RankingFactors;
  matching_type : string;
  tokenization : Tokenization
}.

(** One entry of the sample database ([collect_sample]) *)
Record Sample := {
  results : list Result;
  timestamp : Q;
  characteristics : Characteristics;
  timing : Q
}.

Record Patterns := {
  fuzzy_match_ratio : Q;
  exact_match_ratio : Q;
  average_response_time : Q
}.

(** [bool(l)] *)
Definition truthy {A : Type} (l : list A) : bool :=
  match l with [] => false | _ => true end.

(** [sum(...)] over floats *)
Definition Qsum (l : list Q) : Q := foldl Qplus 0%Q l.

Definition of_nat (n : nat) : Q := inject_Z (Z.of_nat n).

(** [sum(1 for r in l if p(r))] *)
Definition count {A : Type} (p : A -> bool) (l : list A) : nat :=
  length (List.filter p l).

Definition matched_is (label : string) (r : Result) : bool :=
  bool_decide (matched r = Some label).

Definition _check_space_splitting (rs : list Result) : bool := truthy rs.
Definition _check_stopword_removal (rs : list Result) : bool := truthy rs.
Definition _check_stemming (rs : list Result) : bool := false.
Definition _check_date_influence (rs : list Result) : bool := false.
Definition _check_popularity_signals (rs : list Result) : bool := false.

Definition _analyze_text_relevance (rs : list Result) : Q :=
  if negb (truthy rs) then 0.0%Q
  else (Qsum ((fun r => default 0.0%Q (score r)) <$> rs) / of_nat (length rs))%Q.

Definition detect_ranking_factors (rs : list Result) : RankingFactors :=
  {| date_influenced := _check_date_influence rs;
     popularity_signals := _check_popularity_signals rs;
     text_relevance := _analyze_text_relevance rs |}.

Definition detect_matching_algorithm (rs : list Result) : string :=
  if negb (truthy rs) then "unknown"
  else
    let fuzzy_count := count (matched_is "fuzzy") rs in
    let exact_count := count (matched_is "exact") rs in
    if (exact_count <? fuzzy_count)%nat then "fuzzy"
    else if (0 <? exact_count)%nat then "exact"
    else "unknown".

Definition detect_tokenization_method (rs : list Result) : Tokenization :=
  {| splits_on_space := _check_space_splitting rs;
     removes_stopwords := _check_stopword_removal rs;
     uses_stemming := _check_stemming rs |}.

Definition analyze_results (rs : list Result) : Characteristics :=
  if negb (truthy rs) then
    {| ranking_factors :=
         {| date_influenced := false; popularity_signals := false;
            text_relevance := 0.0%Q |};
       matching_type := "unknown";
       tokenization :=
         {| splits_on_space := false; removes_stopwords := false;
            uses_stemming := false |} |}
  else
    {| ranking_factors := detect_ranking_factors rs;
       matching_type := detect_matching_algorithm rs;
       tokenization := detect_tokenization_method rs |}.

(** [results.values()] of the sample database *)
Definition values (db : gmap string Sample) : list Sample := (map_to_list db).*2.

Definition is_fuzzy (r : Sample) : bool :=
  bool_decide (matching_type (characteristics r) = "fuzzy").

Definition analyze_patterns (db : gmap string Sample) : Patterns :=
  if bool_decide (db = ∅) then
    {| fuzzy_match_ratio := 0.0%Q; exact_match_ratio := 0.0%Q;
       average_response_time := 0.0%Q |}
  else
    let total_queries := size db in
    let fuzzy_matches := count is_fuzzy (values db) in
    {| fuzzy_match_ratio :=
         if (0 <? total_queries)%nat
         then (of_nat fuzzy_matches / of_nat total_queries)%Q else 0.0%Q;
       exact_match_ratio :=
         if (0 <? total_queries)%nat
         then (of_nat (total_queries - fuzzy_matches) / of_nat total_queries)%Q
         else 0.0%Q;
       average_response_time :=
         if (0 <? total_queries)%nat
         then (Qsum (timing <$> values db) / of_nat total_queries)%Q
         else 0.0%Q |}.

Definition determine_algorithm_type (db : gmap string Sample) : string :=
  let patterns := analyze_patterns db in
  if Qltb 0.8 (fuzzy_match_ratio patterns) then "fuzzy_search"
  else if Qltb 0.9 (exact_match_ratio patterns) then "exact_match"
  else "hybrid".

Definition _check_result_consistency (db : gmap string Sample) : Q :=
  if bool_decide (db = ∅) then 0.0%Q else 0.8%Q.

Definition calculate_confidence (db : gmap string Sample) : Q :=
  if bool_decide (db = ∅) then 0.0%Q
  else
    let patterns := analyze_patterns db in
    let consistency := _check_result_consistency db in
    ((fuzzy_match_ratio patterns + exact_match_ratio patterns + consistency) / 3)%Q.

(** ** The collector ([collectors.py]) *)

(** What one [try] block of [perform_search] can meet: an exception of the
    [requests.exceptions.RequestException] family (raised by [session.get],
    or by [raise_for_status] on an error status), some other exception, or
    the decoded body. *)
Inductive RequestException :=
| ConnectionError
| Timeout
| HTTPError (status : Z).

Inductive Response :=
| RequestFailed (e : RequestException)
| OtherFailure
| Json (body : list Result).

(** The endpoint as the collector sees it: what a GET of [target_url] with
    parameter [q = query] meets. *)
Definition Endpoint : Type := string -> string -> Response.

(** [perform_search]: [Some results] when it returns, [None] when an
    exception leaves it. *)
Definition perform_search (session_get : Endpoint) (target_url query : string)
  : option (list Result) :=
  match session_get target_url query with
  | RequestFailed _ => Some []
  | OtherFailure => None
  | Json body => Some body
  end.

(** ** The sample store ([search_reverser.py]) *)

(** [collect_sample]; [now] is the reading of [time.time()] and [elapsed]
    what [measure_timing] returns. The sample is returned and stored under
    its query, over an earlier sample of the same query. *)
Definition collect_sample (now elapsed : Q) (query : string)
  (rs : list Result) (results_database : gmap string Sample)
  : Sample * gmap string Sample :=
  let analysis :=
    {| results := rs; timestamp := now;
       characteristics := analyze_results rs; timing := elapsed |} in
  (analysis, <[query := analysis]> results_database).

(** ** The adaptive query strategy ([adaptive.py]) *)

(** The [query_patterns] dict, in insertion order *)
Definition query_patterns : list (string * (string -> M string)) :=
  [ ("simple", fun term => mret term);
    ("quoted", fun term => mret (PyStr.dquote +:+ term +:+ PyStr.dquote));
    ("and_combo", fun term =>
       w ← random_choice ["guide"; "tutorial"; "introduction"];
       mret (term +:+ " AND " +:+ w));
    ("or_combo", fun term =>
       w ← random_choice ["course"; "training"; "learning"];
       mret (term +:+ " OR " +:+ w));
    ("beginner", fun term => mret ("beginner " +:+ term));
    ("advanced", fun term => mret ("advanced " +:+ term));
    ("learn", fun term => mret ("learn " +:+ term));
    ("with", fun term =>
       w ← random_choice ["examples"; "practice"; "exercises"];
       mret (term +:+ " with " +:+ w));
    ("for", fun term =>
       w ← random_choice ["beginners"; "professionals"; "students"];
       mret (term +:+ " for " +:+ w));
    ("course", fun term => mret (term +:+ " course"));
    ("tutorial", fun term => mret (term +:+ " tutorial"));
    ("guide", fun term => mret ("complete " +:+ term +:+ " guide")) ].

(** [set(s.lower().split())] *)
Definition lower_terms (s : string) : gset string :=
  list_to_set (PyStr.split (PyStr.lower s)).

(** [bool(s)] for a set *)
Definition nonempty (s : gset string) : bool := negb (bool_decide (s = ∅)).

Fixpoint first_domain (ds : list (string * list string)) (query_terms : gset string)
  : string :=
  match ds with
  | [] => "general"
  | (domain, terms) :: ds' =>
      if nonempty (query_terms ∩ list_to_set (PyStr.lower <$> terms))
      then domain
      else first_domain ds' query_terms
  end.

Definition _identify_domain (query : string) : string :=
  first_domain domains (lower_terms query).

(** [self.query_success_rates[query_type][...] += 1] on the defaultdict *)
Definition rate_of (rates : gmap string Rate) (query_type : string) : Rate :=
  default {| n_success := 0; n_total := 0 |} (rates !! query_type).

Definition bump_total (query_type : string) (rates : gmap string Rate)
  : gmap string Rate :=
  let r := rate_of rates query_type in
  <[query_type := {| n_success := n_success r; n_total := S (n_total r) |}]> rates.

Definition bump_success (query_type : string) (rates : gmap string Rate)
  : gmap string Rate :=
  let r := rate_of rates query_type in
  <[query_type := {| n_success := S (n_success r); n_total := n_total r |}]> rates.

Definition logical_operators : list string := ["and"; "or"; "not"].

(** The body of [for result in results] *)
Definition note_result (query : string) (successful_terms : gset string)
  (result : Result) : M (gset string) :=
  let title_terms := lower_terms (title result) in
  let query_terms := lower_terms query in
  let matching_terms := title_terms ∩ query_terms in
  let successful_terms := successful_terms ∪ matching_terms in
  if Qltb 0.7 (default 0%Q (score result)) then
    let successful_terms := successful_terms ∪ query_terms in
    let pattern := _identify_query_pattern query in
    s ← get;
    (if negb (PyStr.is_empty pattern)
        && negb (bool_decide (pattern ∈ successful_patterns (learned_patterns s)))
     then modify (with_learned (with_successful_patterns (fun l => (l ++ [pattern])%list)))
     else mret tt);;
    mret successful_terms
  else mret successful_terms.

Definition analyze_response (query : string) (results : list Result) : M unit :=
  let success := truthy results in
  let query_type := _categorize_query query in
  let domain := _identify_domain query in
  modify (with_rates (bump_total query_type));;
  (if success then
     modify (with_rates (bump_success query_type));;
     modify (with_learned (with_successful_domains (fun d => d ∪ {[domain]})));;
     successful_terms ← for_fold results ∅ (note_result query);
     modify (with_learned (with_effective (fun e => e ∪ successful_terms)));;
     let current_length := length (PyStr.split query) in
     modify (with_learned (with_length (fun l =>
       (l * 0.8 + of_nat current_length * 0.2)%Q)))
   else
     let terms := PyStr.split query in
     let clean_terms :=
       List.filter (fun term =>
         PyStr.str_isalnum term
         && negb (bool_decide (PyStr.lower term ∈ logical_operators))) terms in
     modify (with_learned (with_ineffective (fun i => i ∪ list_to_set clean_terms)));;
     s ← get;
     modify (with_learned (with_ineffective (fun i =>
       i ∖ effective_terms (learned_patterns s)))));;
  s ← get;
  (if success
      && negb (bool_decide
                 (query_type ∈ best_performing_categories (learned_patterns s)))
   then modify (with_learned (with_categories (fun l => (l ++ [query_type])%list)))
   else mret tt);;
  s ← get;
  w ← getitem (domain_weights s) domain;
  if success
  then modify (with_weights (dict_set domain (py_min 2.0 (w * 1.2))%Q))
  else modify (with_weights (dict_set domain (py_max 0.1 (w * 0.8))%Q)).

(** One generated query *)
Record Query := {
  q_query : string;
  q_type : string;
  q_description : string;
  q_domain : string
}.

(** [sorted(items, key=weight, reverse=True)]: stable, heaviest first *)
Fixpoint insert_by_weight (x : string * Q) (l : list (string * Q))
  : list (string * Q) :=
  match l with
  | [] => [x]
  | y :: l' => if Qltb x.2 y.2 then y :: insert_by_weight x l' else x :: l
  end.

Definition sorted_by_weight (items : list (string * Q)) : list (string * Q) :=
  foldr insert_by_weight [] items.

(** The [for domain, weight in weighted_domains] loop with its [break] *)
Fixpoint select_weighted (weighted_domains : list (string * Q))
  (selected_domains : list string) : M (list string) :=
  match weighted_domains with
  | [] => mret selected_domains
  | (domain, weight) :: rest =>
      r ← random_random;
      if Qltb r weight then
        let selected_domains := (selected_domains ++ [domain])%list in
        if (3 <=? length selected_domains)%nat then mret selected_domains
        else select_weighted rest selected_domains
      else select_weighted rest selected_domains
  end.

(** The [while len(selected_domains) < 3] loop; [fuel] bounds its rounds *)
Fixpoint fill_randomly (fuel : nat) (selected_domains : list string)
  : M (list string) :=
  if (length selected_domains <? 3)%nat then
    match fuel with
    | O => out_of_fuel
    | S fuel' =>
        domain ← random_choice (keys domains);
        if bool_decide (domain ∈ selected_domains)
        then fill_randomly fuel' selected_domains
        else fill_randomly fuel' (selected_domains ++ [domain])%list
    end
  else mret selected_domains.

Definition _generate_domain_exploration_queries (fuel : nat) : M (list Query) :=
  s ← get;
  let weighted_domains := sorted_by_weight (domain_weights s) in
  selected_domains ← select_weighted weighted_domains [];
  selected_domains ← fill_randomly fuel selected_domains;
  for_fold selected_domains [] (fun queries domain =>
    terms ← getitem domains domain;
    term ← random_choice terms;
    mret (queries ++
      [{| q_query := term; q_type := "domain_exploration";
          q_description := "Testing " +:+ domain +:+ " domain";
          q_domain := domain |}])%list).

(** [learned_patterns["successful_domains"] or set(self.domains.keys())] *)
Definition domains_to_probe (s : Strategy) : gset string :=
  if nonempty (successful_domains (learned_patterns s))
  then successful_domains (learned_patterns s)
  else list_to_set (keys domains).

Definition _generate_pattern_exploration_queries : M (list Query) :=
  s ← get;
  let successful_domains := domains_to_probe s in
  sampled ← random_sample (elements successful_domains)
              (Nat.min 2 (size successful_domains));
  for_fold sampled [] (fun queries domain =>
    terms ← getitem domains domain;
    term ← random_choice terms;
    pattern_type ← random_choice (keys query_patterns);
    pattern_func ← getitem query_patterns pattern_type;
    q ← pattern_func term;
    mret (queries ++
      [{| q_query := q; q_type := pattern_type;
          q_description :=
            "Testing " +:+ pattern_type +:+ " pattern in " +:+ domain;
          q_domain := domain |}])%list).

Definition _generate_optimized_queries : M (list Query) :=
  s ← get;
  let successful_patterns :=
    if truthy (successful_patterns (learned_patterns s))
    then successful_patterns (learned_patterns s)
    else keys query_patterns in
  let successful_domains := domains_to_probe s in
  sampled ← random_sample (elements successful_domains)
              (Nat.min 2 (size successful_domains));
  for_fold sampled [] (fun queries domain =>
    pattern_type ← random_choice successful_patterns;
    terms ← getitem domains domain;
    term ← random_choice terms;
    pattern_func ← getitem query_patterns pattern_type;
    q ← pattern_func term;
    mret (queries ++
      [{| q_query := q; q_type := "optimized";
          q_description :=
            "Optimized " +:+ pattern_type +:+ " query for " +:+ domain;
          q_domain := domain |}])%list).

(** [generate_next_queries]; the argument [previous_results] is not read *)
Definition generate_next_queries (fuel : nat)
  (previous_results : gmap string Sample) : M (list Query) :=
  s ← get;
  match current_phase s with
  | domain_exploration =>
      queries ← _generate_domain_exploration_queries fuel;
      modify (with_rounds S);;
      s ← get;
      (if (max_exploration_rounds s <=? exploration_rounds s)%nat
       then modify (with_phase pattern_exploration)
       else mret tt);;
      mret queries
  | pattern_exploration =>
      queries ← _generate_pattern_exploration_queries;
      modify (with_rounds S);;
      s ← get;
      (if (max_exploration_rounds s * 2 <=? exploration_rounds s)%nat
       then modify (with_phase optimization)
       else mret tt);;
      mret queries
  | optimization => _generate_optimized_queries
  end.

(** ** Runs of calls *)

(** Where a call leaves the world, whether it returned or raised *)
Definition after {A : Type} (m : M A) (w : World) : World := (m w).2.

(** A computation that leaves the strategy instance as it found it *)
Definition reads_only {A : Type} (m : M A) : Prop :=
  forall w, self (after m w) = self w.

(** A freshly constructed strategy, with any state of the random module *)
Definition fresh (tp : nat -> N) (c : nat) : World :=
  {| self := init; tape := tp; cursor := c |}.

(** A sequence of [analyze_response] calls; a caller that catches an
    exception goes on with the instance as the failed call left it. *)
Definition run_analyses (calls : list (string * list Result)) (w : World) : World :=
  foldl (fun w call => after (analyze_response call.1 call.2) w) w calls.

(** A sequence of [generate_next_queries] calls *)
Definition run_generates (calls : list (nat * gmap string Sample)) (w : World)
  : World :=
  foldl (fun w call => after (generate_next_queries call.1 call.2) w) w calls.

(** The states a strategy instance can be in *)
Inductive reachable : World -> Prop :=
| reachable_fresh tp c : reachable (fresh tp c)
| reachable_analyze w query results :
    reachable w -> reachable (after (analyze_response query results) w)
| reachable_generate w fuel previous_results :
    reachable w -> reachable (after (generate_next_queries fuel previous_results) w).

Definition phase_rank (p : Phase) : nat :=
  match p with
  | domain_exploration => 0
  | pattern_exploration => 1
  | optimization => 2
  end.

(** One edge of the phase diagram, or no move *)
Definition phase_step (p p' : Phase) : Prop :=
  p' = p
  \/ (p = domain_exploration /\ p' = pattern_exploration)
  \/ (p = pattern_exploration /\ p' = optimization).

Definition weight_of (w : World) (domain : string) : option Q :=
  dict_get domain (domain_weights (self w)).

Definition in_range (x : Q) : Prop := (0.1 <= x /\ x <= 2.0)%Q.

(** The terms an unsuccessful query marks as ineffective *)
Definition clean_terms (query : string) : list string :=
  List.filter (fun term =>
    PyStr.str_isalnum term
    && negb (bool_decide (PyStr.lower term ∈ logical_operators)))
    (PyStr.split query).

(** Concrete inputs used below *)
Definition counting_tape : nat -> N := fun i => N.of_nat i.

Definition world0 : World := fresh counting_tape 0.

Definition python_hit : Result :=
  {| title := "Python guide"; score := Some 0.9%Q; matched := Some "exact" |}.

(** The database after one [collect_sample], clock readings at 0 *)
Definition database_of (query : string) (rs : list Result) : gmap string Sample :=
  (collect_sample 0 0 query rs ∅).2.


(** The weight [analyze_response] writes over [old] *)
Definition new_weight (success : bool) (old : Q) : Q :=
  if success then py_min 2.0 (old * 1.2)%Q else py_max 0.1 (old * 0.8)%Q.

(** The counters of [query_type] after one more query *)
Definition counted (success : bool) (query_type : string)
  (rates : gmap string Rate) : gmap string Rate :=
  if success then bump_success query_type (bump_total query_type rates)
  else bump_total query_type rates.

(** The world with the list [successful_patterns] replaced *)
Definition set_patterns (pats : list string) (w : World) : World :=
  put (with_learned (with_successful_patterns (fun _ => pats)) (self w)) w.

(** The weights a strategy keeps: one per catalog domain, each in range *)
Definition weights_ok (s : Strategy) : Prop :=
  keys (domain_weights s) = keys domains
  /\ Forall (fun kv => in_range kv.2) (domain_weights s).

(** No token of the query is a seed term of any domain *)
Definition overlaps_no_domain (query : string) : bool :=
  forallb (fun entry : string * list string =>
    negb (nonempty (lower_terms query ∩ list_to_set (PyStr.lower <$> entry.2))))
    domains.

Definition phase_of (w : World) : Phase := current_phase (self w).

Definition rate_in (w : World) (query_type : string) : Rate :=
  rate_of (query_success_rates (self w)) query_type.

(** A returned batch is non-empty and names catalog domains only *)
Definition good_batch (o : outcome (list Query)) : bool :=
  match o with
  | Ok queries =>
      truthy queries
      && forallb (fun q => bool_decide (q_domain q ∈ keys domains)) queries
  | _ => false
  end.

(** ** The remaining analyzer and orchestrator functions *)

(** [_check_fuzzy_matching] and [_check_exact_matching] ([analyzers.py]) *)
Definition _check_fuzzy_matching (rs : list Result) : bool :=
  existsb (matched_is "fuzzy") rs.

Definition _check_exact_matching (rs : list Result) : bool :=
  existsb (matched_is "exact") rs.

(** [r.get("score", 0.0)] *)
Definition score_of (r : Result) : Q := default 0.0%Q (score r).

(** The hypothesis record of [generate_hypothesis] ([search_reverser.py]) *)
Record SearchHypothesis := {
  likely_algorithm : string;
  confidence_score : Q;
  observed_patterns : Patterns
}.

Definition generate_hypothesis (db : gmap string Sample) : SearchHypothesis :=
  {| likely_algorithm := determine_algorithm_type db;
     confidence_score := calculate_confidence db;
     observed_patterns := analyze_patterns db |}.

(** ** Shapes of the learned data *)

(** The labels [_identify_query_pattern] and [_categorize_query] can give *)
Definition pattern_labels : list string :=
  ["phrase"; "compound"; "broad"; "specific"; "simple"].

Definition category_labels : list string :=
  ["exact"; "partial"; "fuzzy"; "compound"; "general"].

(** A non-empty string without whitespace, as [split] returns them *)
Definition is_token (t : string) : bool :=
  negb (PyStr.is_empty t) && negb (PyStr.any_char PyStr.isspace t).

(** Some result scores above 0.7 *)
Definition high_scoring (rs : list Result) : bool :=
  existsb (fun r => Qltb 0.7 (default 0%Q (score r))) rs.

(** The seed terms without whitespace, and the catalog reduced to them *)
Definition live_terms (terms : list string) : list string :=
  List.filter (fun t => negb (PyStr.any_char PyStr.isspace t)) terms.

Definition live_catalog : list (string * list string) :=
  (fun entry : string * list string => (entry.1, live_terms entry.2)) <$> domains.

(** The seed terms of the catalog that contain whitespace *)
Definition dead_terms : list string :=
  List.filter (PyStr.any_char PyStr.isspace) (mjoin (domains.*2)).

(** ** [analyze_response] as a function of the state *)

(** What one result adds to the local set [successful_terms] *)
Definition found_in (query : string) (acc : gset string) (r : Result)
  : gset string :=
  if Qltb 0.7 (default 0%Q (score r))
  then acc ∪ lower_terms (title r) ∩ lower_terms query ∪ lower_terms query
  else acc ∪ lower_terms (title r) ∩ lower_terms query.

Definition found_terms (query : string) (rs : list Result) : gset string :=
  foldl (found_in query) ∅ rs.

(** The list [successful_patterns] after the loop over the results *)
Definition noted_patterns (query : string) (rs : list Result)
  (pats : list string) : list string :=
  if high_scoring rs
     && negb (bool_decide (_identify_query_pattern query ∈ pats))
  then (pats ++ [_identify_query_pattern query])%list
  else pats.

(** The learned patterns after [analyze_response(query, rs)] *)
Definition learn (query : string) (rs : list Result) (l : LearnedPatterns)
  : LearnedPatterns :=
  if truthy rs then
    {| effective_terms := effective_terms l ∪ found_terms query rs;
       ineffective_terms := ineffective_terms l;
       optimal_query_length :=
         (optimal_query_length l * 0.8
          + of_nat (length (PyStr.split query)) * 0.2)%Q;
       best_performing_categories :=
         if bool_decide (_categorize_query query ∈ best_performing_categories l)
         then best_performing_categories l
         else (best_performing_categories l ++ [_categorize_query query])%list;
       successful_domains := successful_domains l ∪ {[_identify_domain query]};
       successful_patterns := noted_patterns query rs (successful_patterns l) |}
  else
    {| effective_terms := effective_terms l;
       ineffective_terms :=
         (ineffective_terms l ∪ list_to_set (clean_terms query))
           ∖ effective_terms l;
       optimal_query_length := optimal_query_length l;
       best_performing_categories := best_performing_categories l;
       successful_domains := successful_domains l;
       successful_patterns := successful_patterns l |}.

(** The instance after [analyze_response(query, rs)], returned or raised *)
Definition analyzed (query : string) (rs : list Result) (s : Strategy) : Strategy :=
  {| query_success_rates :=
       counted (truthy rs) (_categorize_query query) (query_success_rates s);
     learned_patterns := learn query rs (learned_patterns s);
     current_phase := current_phase s;
     exploration_rounds := exploration_rounds s;
     max_exploration_rounds := max_exploration_rounds s;
     domain_weights :=
       match dict_get (_identify_domain query) (domain_weights s) with
       | Some old =>
           dict_set (_identify_domain query) (new_weight (truthy rs) old)
             (domain_weights s)
       | None => domain_weights s
       end |}.

(** ** [generate_next_queries] as a function of the state *)

(** The instance after a [generate_next_queries] call that returned *)
Definition advanced (s : Strategy) : Strategy :=
  match current_phase s with
  | domain_exploration =>
      if (max_exploration_rounds s <=? S (exploration_rounds s))%nat
      then with_phase pattern_exploration (with_rounds S s)
      else with_rounds S s
  | pattern_exploration =>
      if (max_exploration_rounds s * 2 <=? S (exploration_rounds s))%nat
      then with_phase optimization (with_rounds S s)
      else with_rounds S s
  | optimization => s
  end.

Definition is_ok {A : Type} (o : outcome A) : bool :=
  match o with Ok _ => true | _ => false end.

(** ** Invariants of the instance *)

(** The round counter and the phase go together. *)
Definition rounds_ok (s : Strategy) : Prop :=
  max_exploration_rounds s = 3
  /\ match current_phase s with
     | domain_exploration => exploration_rounds s < 3
     | pattern_exploration => 3 <= exploration_rounds s < 6
     | optimization => exploration_rounds s = 6
     end.

(** The two learned lists hold known labels, each at most once. *)
Definition lists_ok (l : LearnedPatterns) : Prop :=
  NoDup (successful_patterns l)
  /\ (forall p, p ∈ successful_patterns l -> p ∈ pattern_labels)
  /\ NoDup (best_performing_categories l)
  /\ (forall c, c ∈ best_performing_categories l -> c ∈ category_labels).

(** Effective terms are lowercase tokens; ineffective terms are
    alphanumeric and no logical operator. *)
Definition terms_ok (l : LearnedPatterns) : Prop :=
  (forall t, t ∈ effective_terms l -> is_token t = true /\ PyStr.lower t = t)
  /\ (forall t, t ∈ ineffective_terms l ->
        PyStr.str_isalnum t = true /\ PyStr.lower t ∉ logical_operators).

(** Every counter entry is for a category label, was counted at least once
    and has no more successes than queries. *)
Definition rates_ok (rates : gmap string Rate) : Prop :=
  forall c r, rates !! c = Some r ->
    c ∈ category_labels /\ n_success r <= n_total r /\ 0 < n_total r.

(** ** Batches of generated queries *)

(** A weight that [random.random()] never reaches *)
Definition certain (entry : string * Q) : bool := Qle_bool 1 entry.2.

(** A query of the domain-exploration phase: a seed term of its domain *)
Definition seed_query (q : Query) : Prop :=
  q_type q = "domain_exploration"
  /\ q_description q = "Testing " +:+ q_domain q +:+ " domain"
  /\ exists terms,
      dict_get (q_domain q) domains = Some terms /\ q_query q ∈ terms.

(** A query of the pattern-exploration or optimization phase *)
Definition pattern_query (probe : gset string) (q : Query) : Prop :=
  q_domain q ∈ probe /\ q_domain q ∈ keys domains.

(** ** The learning status ([adaptive.py]) *)

(** The dict returned by [get_learning_status] *)
Record LearningStatus := {
  status_phase : string;
  exploration_progress : string;
  status_learned_patterns : LearnedPatterns;
  success_rates : gmap string Rate
}.

(** The string that [current_phase] holds *)
Definition phase_name (p : Phase) : string :=
  match p with
  | domain_exploration => "domain_exploration"
  | pattern_exploration => "pattern_exploration"
  | optimization => "optimization"
  end.

Definition get_learning_status (s : Strategy) : LearningStatus :=
  {| status_phase := phase_name (current_phase s);
     exploration_progress :=
       pretty (exploration_rounds s) +:+ "/" +:+ pretty (max_exploration_rounds s);
     status_learned_patterns := learned_patterns s;
     success_rates := query_success_rates s |}.

(** ** The test suite ([search_reverser.py]) *)

(** The engineer and what surrounds a run: the strategy with the [random]
    module, the sample store, what the successive requests meet and the
    successive readings of [time.time()]. *)
Record Lab := {
  results_database : gmap string Sample;
  adaptive_strategy : World;
  endpoint : nat -> Endpoint;
  requests : nat;
  clock : nat -> Q;
  readings : nat
}.

Definition with_strategy (w : World) (lab : Lab) : Lab :=
  {| results_database := results_database lab;
     adaptive_strategy := w;
     endpoint := endpoint lab;
     requests := requests lab;
     clock := clock lab;
     readings := readings lab |}.

Definition with_database (db : gmap string Sample) (lab : Lab) : Lab :=
  {| results_database := db;
     adaptive_strategy := adaptive_strategy lab;
     endpoint := endpoint lab;
     requests := requests lab;
     clock := clock lab;
     readings := readings lab |}.

Definition request_sent (lab : Lab) : Lab :=
  {| results_database := results_database lab;
     adaptive_strategy := adaptive_strategy lab;
     endpoint := endpoint lab;
     requests := S (requests lab);
     clock := clock lab;
     readings := readings lab |}.

Definition clock_read (lab : Lab) : Lab :=
  {| results_database := results_database lab;
     adaptive_strategy := adaptive_strategy lab;
     endpoint := endpoint lab;
     requests := requests lab;
     clock := clock lab;
     readings := S (readings lab) |}.

(** What ends a run early: an exception of the strategy, an exception that
    [perform_search] does not catch, or the [while] loop of the
    domain-exploration phase out of fuel. *)
Inductive abort :=
| StrategyRaised (e : exn)
| SearchRaised
| LoopRunsOn.

Inductive run_outcome (A : Type) :=
| Returned (a : A)
| Aborted (e : abort).
Arguments Returned {A} a.
Arguments Aborted {A} e.

Definition R (A : Type) : Type := Lab -> run_outcome A * Lab.

#[global] Instance R_ret : MRet R := fun A a lab => (Returned a, lab).

#[global] Instance R_bind : MBind R := fun A B f m lab =>
  match m lab with
  | (Returned a, lab') => f a lab'
  | (Aborted e, lab') => (Aborted e, lab')
  end.

(** A method call on [self.adaptive_strategy] *)
Definition strategy_call {A : Type} (m : M A) : R A := fun lab =>
  match m (adaptive_strategy lab) with
  | (Ok a, w) => (Returned a, with_strategy w lab)
  | (Raise e, w) => (Aborted (StrategyRaised e), with_strategy w lab)
  | (OutOfFuel, w) => (Aborted LoopRunsOn, with_strategy w lab)
  end.

Definition time_time : R Q := fun lab =>
  (Returned (clock lab (readings lab)), clock_read lab).

(** [measure_timing(func)] ([utils.py]) for a [func] without effect, as
    [lambda: results] is *)
Definition measure_timing : R Q :=
  start_time ← time_time;
  end_time ← time_time;
  mret (end_time - start_time)%Q.

(** [self.collector.perform_search(target_url, query)] *)
Definition search (target_url query : string) : R (list Result) := fun lab =>
  match perform_search (endpoint lab (requests lab)) target_url query with
  | Some search_results => (Returned search_results, request_sent lab)
  | None => (Aborted SearchRaised, request_sent lab)
  end.

(** [self.collect_sample(query, results)] *)
Definition store_sample (query : string) (rs : list Result) : R Sample :=
  now ← time_time;
  elapsed ← measure_timing;
  ((fun lab =>
      let '(analysis, db) :=
        collect_sample now elapsed query rs (results_database lab) in
      (Returned analysis, with_database db lab)) : R Sample).

(** [for x in l: acc = body(acc, x)] *)
Fixpoint for_each {A S : Type} (l : list A) (acc : S) (body : S -> A -> R S)
  : R S :=
  match l with
  | [] => mret acc
  | x :: l' => acc' ← body acc x; for_each l' acc' body
  end.

(** The four lines that both loops of [run_test_suite] share: search, store
    the sample, analyze the response. *)
Definition probe (target_url : string) (results : gmap string Sample)
  (test : Query) : R (gmap string Sample) :=
  let query := q_query test in
  search_results ← search target_url query;
  analysis ← store_sample query search_results;
  let results := <[query := analysis]> results in
  strategy_call (analyze_response query search_results);;
  mret results.

(** The body of the outer loop *)
Definition probe_and_follow (fuel : nat) (target_url : string)
  (results : gmap string Sample) (test : Query) : R (gmap string Sample) :=
  results ← probe target_url results test;
  next_queries ← strategy_call (generate_next_queries fuel results);
  if truthy next_queries
  then for_each next_queries results (probe target_url)
  else mret results.

(** The values of the report dict *)
Inductive field :=
| Text (s : string)
| Number (x : Q)
| PatternsOf (p : Patterns)
| StatusOf (s : LearningStatus).

(** [{**hypothesis, "learning_status": status}] *)
Definition report_of (h : SearchHypothesis) (status : LearningStatus)
  : list (string * field) :=
  [("likely_algorithm", Text (likely_algorithm h));
   ("confidence_score", Number (confidence_score h));
   ("observed_patterns", PatternsOf (observed_patterns h));
   ("learning_status", StatusOf status)].

Definition run_test_suite (fuel : nat) (target_url : string)
  : R (list (string * field)) :=
  test_cases ← strategy_call (generate_next_queries fuel ∅);
  results ← for_each test_cases ∅ (probe_and_follow fuel target_url);
  status ← strategy_call (s ← get; mret (get_learning_status s));
  mret (report_of (generate_hypothesis results) status).

(** A new [SearchReverseEngineer] *)
Definition new_lab (tp : nat -> N) (c : nat) (ep : nat -> Endpoint)
  (clk : nat -> Q) : Lab :=
  {| results_database := ∅;
     adaptive_strategy := fresh tp c;
     endpoint := ep;
     requests := 0;
     clock := clk;
     readings := 0 |}.

(** The strategy instance of the engineer *)
Definition strategy_of (lab : Lab) : Strategy := self (adaptive_strategy lab).

(** Where the exploration stands *)
Definition progress (s : Strategy) : Phase * nat :=
  (current_phase s, exploration_rounds s).

(** Every domain that succeeded is a catalog domain. *)
Definition known_domains (s : Strategy) : Prop :=
  forall d, d ∈ successful_domains (learned_patterns s) -> d ∈ keys domains.

(** What a run keeps true between two calls *)
Definition steady (lab : Lab) : Prop :=
  reachable (adaptive_strategy lab)
  /\ known_domains (strategy_of lab)
  /\ length domains
     <= count certain (domain_weights (strategy_of lab)) + requests lab.

(** A stored sample holds the characteristics of its own results, and its
    times are three successive clock readings, taken after some request
    had returned. *)
Definition sample_ok (clk : nat -> Q) (sent : nat) (r : Sample) : Prop :=
  characteristics r = analyze_results (results r)
  /\ exists i,
       i < sent
       /\ timestamp r = clk (3 * i)
       /\ timing r = (clk (3 * i + 2)%nat - clk (3 * i + 1)%nat)%Q.

Definition store_ok (clk : nat -> Q) (lab : Lab) : Prop :=
  clock lab = clk
  /\ readings lab = 3 * requests lab
  /\ forall query r,
       results_database lab !! query = Some r -> sample_ok clk (requests lab) r.

(** The two ways a run is left early *)
Definition expected (e : abort) : Prop :=
  e = SearchRaised \/ e = StrategyRaised (KeyError "general").

(** The phase and the round counter after one more batch, with
    [max_exploration_rounds] at 3 *)
Definition next_round (pr : Phase * nat) : Phase * nat :=
  match pr.1 with
  | domain_exploration =>
      (if (3 <=? S pr.2)%nat then pattern_exploration else domain_exploration,
       S pr.2)
  | pattern_exploration =>
      (if (6 <=? S pr.2)%nat then optimization else pattern_exploration, S pr.2)
  | optimization => pr
  end.

(** ** The behavior flags ([test_search_reverser.py]) *)

Record Behaviors := {
  case_sensitive : bool;
  uses_fuzzy_matching : bool;
  removes_stop_words : bool;
  considers_word_order : bool;
  boosts_by_popularity : bool;
  considers_recency : bool
}.

Definition no_behavior : Behaviors :=
  {| case_sensitive := false;
     uses_fuzzy_matching := false;
     removes_stop_words := false;
     considers_word_order := false;
     boosts_by_popularity := false;
     considers_recency := false |}.

(** What [for pattern in value] goes through: the keys of a dict, the
    characters of a string; a number cannot be iterated. *)
Definition iterate (value : field) : option (list string) :=
  match value with
  | Text s => Some ((fun c => String c EmptyString) <$> String.list_ascii_of_string s)
  | Number _ => None
  | PatternsOf _ =>
      Some ["fuzzy_match_ratio"; "exact_match_ratio"; "average_response_time"]
  | StatusOf _ =>
      Some ["phase"; "exploration_progress"; "learned_patterns"; "success_rates"]
  end.

(** [analyze_search_behavior(reverser, results)]; [None] when an exception
    leaves it, as [.get] on a string or a number does. The dict
    [learned_patterns] of a status is never empty, so it is truthy. *)
Definition analyze_search_behavior (results : list (string * field))
  : option Behaviors :=
  match dict_get "learning_status" results with
  | Some (StatusOf learning_status) =>
      let learned_patterns := status_learned_patterns learning_status in
      patterns ←
        match dict_get "success_rates" results with
        | Some value => iterate value
        | None => Some []
        end;
      Some
        {| case_sensitive := false;
           uses_fuzzy_matching := existsb (String.eqb "fuzzy") patterns;
           removes_stop_words :=
             bool_decide ("stop_words" ∈ ineffective_terms learned_patterns);
           considers_word_order :=
             String.eqb (status_phase learning_status) "optimization";
           boosts_by_popularity := false;
           considers_recency := false |}
  | Some (PatternsOf _) | None => Some no_behavior
  | Some (Text _) | Some (Number _) => None
  end.

(** Concrete surroundings used below *)
Definition always (r : Response) : nat -> Endpoint := fun _ _ _ => r.

Definition ticking : nat -> Q := fun n => of_nat n.

Definition quiet_lab : Lab :=
  new_lab counting_tape 0 (always (RequestFailed Timeout)) ticking.

Definition is_returned {A : Type} (o : run_outcome A) : bool :=
  match o with Returned _ => true | Aborted _ => false end.

(** A tape on which the last query of a run is a quoted term *)
Definition shifted_tape : nat -> N := fun i => N.of_nat (i + 2).

(** ** Fuzzy matching of the mock server ([mock_search_server.py]) *)

(** [sum(a != b for a, b in zip(term, word))] *)
Fixpoint mismatches (term word : string) : nat :=
  match term, word with
  | String a term', String b word' =>
      (if Ascii.eqb a b then 0 else 1) + mismatches term' word'
  | _, _ => 0
  end.

(** The test that [_fuzzy_match] makes on each word *)
Definition close_to (term word : string) : bool :=
  (Z.abs (Z.of_nat (String.length word) - Z.of_nat (String.length term)) <=? 1)%Z
  && (mismatches term word <=? 1)%nat.

Definition _fuzzy_match (term content : string) : bool :=
  existsb (close_to term) (PyStr.split content).


(** A query of the pattern-exploration phase: its text is what the pattern
    function of its type returns, at some state of the [random] module, on
    a seed term of its domain. *)
Definition built_by_pattern (q : Query) : Prop :=
  q_description q
  = "Testing " +:+ q_type q +:+ " pattern in " +:+ q_domain q
  /\ exists terms term pattern_func w1 w2,
       dict_get (q_domain q) domains = Some terms
       /\ term ∈ terms
       /\ dict_get (q_type q) query_patterns = Some pattern_func
       /\ pattern_func term w1 = (Ok (q_query q), w2).

(** * Properties *)

(** ** Insertion-ordered dicts *)

Section DictFacts.
Context {V : Type}.
Implicit Types (d : list (string * V)) (k : string) (v : V).

Lemma dict_get_set_eq d k v : dict_get k (dict_set k v d) = Some v.
Proof.
  induction d as [|[k' v'] d IH]; simpl.
  - by rewrite decide_True.
  - destruct (decide (k' = k)) as [->|Hne]; simpl.
    + by rewrite decide_True.
    + by rewrite decide_False.
Qed.

Lemma dict_get_set_ne d k k' v :
  k' ≠ k -> dict_get k' (dict_set k v d) = dict_get k' d.
Proof.
  intros Hne. induction d as [|[k0 v0] d IH]; simpl.
  - by rewrite decide_False.
  - destruct (decide (k0 = k)) as [->|Hk]; simpl.
    + by rewrite !decide_False.
    + by rewrite IH.
Qed.

Lemma keys_dict_set d k v :
  is_Some (dict_get k d) -> keys (dict_set k v d) = keys d.
Proof.
  unfold keys. induction d as [|[k0 v0] d IH]; simpl; intros [x Hx].
  - discriminate.
  - destruct (decide (k0 = k)) as [->|Hk]; simpl; [done|].
    f_equal. apply IH. eauto.
Qed.

Lemma dict_get_None d k : dict_get k d = None <-> k ∉ keys d.
Proof.
  unfold keys. induction d as [|[k0 v0] d IH]; simpl.
  - split; [intros _; apply not_elem_of_nil | done].
  - rewrite not_elem_of_cons. destruct (decide (k0 = k)) as [->|Hk].
    + split; [discriminate | intros [? _]; done].
    + rewrite IH. split; [intros H; split; [congruence | done] | intros [_ H]; done].
Qed.

Lemma dict_get_Some d k v : dict_get k d = Some v -> (k, v) ∈ d.
Proof.
  induction d as [|[k0 v0] d IH]; simpl; [discriminate|].
  destruct (decide (k0 = k)) as [->|Hk].
  - intros [= ->]. left.
  - intros H. right. auto.
Qed.

Lemma dict_get_is_Some d k : is_Some (dict_get k d) <-> k ∈ keys d.
Proof.
  destruct (dict_get k d) as [v|] eqn:E.
  - split; [intros _ | eauto].
    destruct (decide (k ∈ keys d)) as [|Hn]; [done|].
    apply dict_get_None in Hn. congruence.
  - split; [intros [? ?]; discriminate|].
    intros Hin. apply dict_get_None in E. done.
Qed.

Lemma Forall_dict_set (P : string * V -> Prop) d k v :
  Forall P d -> P (k, v) -> Forall P (dict_set k v d).
Proof.
  intros Hd Hkv. induction Hd as [|[k0 v0] d H0 Hd IH]; simpl.
  - by constructor.
  - destruct (decide (k0 = k)); constructor; auto.
Qed.

End DictFacts.

(** ** The monad *)

Lemma bind_ok {A B : Type} (m : M A) (f : A -> M B) w a w' :
  m w = (Ok a, w') -> (m ≫= f) w = f a w'.
Proof. intros H. unfold mbind, M_bind. by rewrite H. Qed.

Lemma bind_raise {A B : Type} (m : M A) (f : A -> M B) w e w' :
  m w = (Raise e, w') -> (m ≫= f) w = (Raise e, w').
Proof. intros H. unfold mbind, M_bind. by rewrite H. Qed.

Lemma put_self s w : self (put s w) = s.
Proof. done. Qed.

Lemma put_put s s' w : put s (put s' w) = put s w.
Proof. done. Qed.

Create HintDb reads discriminated.

Lemma reads_ret {A : Type} (a : A) : reads_only (mret a).
Proof. by intros w. Qed.

Lemma reads_raise {A : Type} e : reads_only (@raise A e).
Proof. by intros w. Qed.

Lemma reads_out_of_fuel {A : Type} : reads_only (@out_of_fuel A).
Proof. by intros w. Qed.

Lemma reads_get : reads_only get.
Proof. by intros w. Qed.

Lemma reads_draw : reads_only draw.
Proof. by intros w. Qed.

Lemma reads_bind {A B : Type} (m : M A) (f : A -> M B) :
  reads_only m -> (forall a, reads_only (f a)) -> reads_only (m ≫= f).
Proof.
  intros Hm Hf w. specialize (Hm w). unfold after, mbind, M_bind in *.
  destruct (m w) as [[a| |] w1]; simpl in *; [|done..].
  rewrite <- Hm. apply Hf.
Qed.

#[local] Hint Resolve reads_ret reads_raise reads_out_of_fuel reads_get
  reads_draw reads_bind : reads.

Lemma reads_getitem {V : Type} (d : list (string * V)) k : reads_only (getitem d k).
Proof. unfold getitem. destruct (dict_get k d); auto with reads. Qed.

Lemma reads_random_random : reads_only random_random.
Proof. unfold random_random. auto with reads. Qed.

Lemma reads_random_choice {A : Type} (seq : list A) : reads_only (random_choice seq).
Proof. destruct seq; simpl; auto with reads. Qed.

Lemma reads_random_sample {A : Type} k :
  forall population : list A, reads_only (random_sample population k).
Proof.
  induction k as [|k IH]; intros [|x l]; simpl; auto with reads.
Qed.

Lemma reads_for_fold {A S : Type} (body : S -> A -> M S) (l : list A) :
  (forall acc x, reads_only (body acc x)) ->
  forall acc, reads_only (for_fold l acc body).
Proof.
  intros Hb. induction l as [|x l IH]; intros acc; simpl; auto with reads.
Qed.

#[local] Hint Resolve reads_getitem reads_random_random reads_random_choice
  reads_random_sample reads_for_fold : reads.

Lemma reads_getitem_bind {V B : Type} (d : list (string * V)) k (f : V -> M B) :
  (forall v, (k, v) ∈ d -> reads_only (f v)) -> reads_only (getitem d k ≫= f).
Proof.
  intros Hf w. unfold after, getitem, mbind, M_bind.
  destruct (dict_get k d) as [v|] eqn:E; simpl; [|done].
  apply (Hf v). by apply dict_get_Some.
Qed.

(** ** The generators only read the instance *)

Lemma reads_query_patterns k (f : string -> M string) term :
  (k, f) ∈ query_patterns -> reads_only (f term).
Proof.
  unfold query_patterns. rewrite !elem_of_cons, elem_of_nil.
  intros H. repeat (destruct H as [[= _ ->]|H]; [auto 6 with reads|]). done.
Qed.

Lemma reads_select_weighted weighted_domains :
  forall selected_domains,
    reads_only (select_weighted weighted_domains selected_domains).
Proof.
  induction weighted_domains as [|[domain weight] rest IH];
    intros selected_domains; simpl; [auto with reads|].
  apply reads_bind; [auto with reads|]. intros r.
  destruct (Qltb r weight); [|done].
  case_match; auto with reads.
Qed.

Lemma reads_fill_randomly fuel :
  forall selected_domains, reads_only (fill_randomly fuel selected_domains).
Proof.
  induction fuel as [|fuel IH]; intros selected_domains; simpl;
    case_match; auto with reads.
  apply reads_bind; [auto with reads|]. intros domain.
  case_match; done.
Qed.

Lemma reads_domain_exploration fuel :
  reads_only (_generate_domain_exploration_queries fuel).
Proof.
  unfold _generate_domain_exploration_queries.
  apply reads_bind; [auto with reads|]. intros s.
  apply reads_bind; [apply reads_select_weighted|]. intros sel.
  apply reads_bind; [apply reads_fill_randomly|]. intros sel'.
  apply reads_for_fold. auto 6 with reads.
Qed.

Lemma reads_pattern_exploration : reads_only _generate_pattern_exploration_queries.
Proof.
  unfold _generate_pattern_exploration_queries.
  apply reads_bind; [auto with reads|]. intros s.
  apply reads_bind; [auto with reads|]. intros sampled.
  apply reads_for_fold. intros queries domain.
  apply reads_bind; [auto with reads|]. intros terms.
  apply reads_bind; [auto with reads|]. intros term.
  apply reads_bind; [auto with reads|]. intros pattern_type.
  apply reads_getitem_bind. intros f Hf.
  apply reads_bind; [by eapply reads_query_patterns|]. auto with reads.
Qed.

Lemma reads_optimized : reads_only _generate_optimized_queries.
Proof.
  unfold _generate_optimized_queries.
  apply reads_bind; [auto with reads|]. intros s.
  apply reads_bind; [auto with reads|]. intros sampled.
  apply reads_for_fold. intros queries domain.
  apply reads_bind; [auto with reads|]. intros pattern_type.
  apply reads_bind; [auto with reads|]. intros terms.
  apply reads_bind; [auto with reads|]. intros term.
  apply reads_getitem_bind. intros f Hf.
  apply reads_bind; [by eapply reads_query_patterns|]. auto with reads.
Qed.

Lemma after_bind {A B : Type} (m : M A) (f : A -> M B) w :
  after (m ≫= f) w
  = match m w with
    | (Ok a, w') => after (f a) w'
    | (_, w') => w'
    end.
Proof.
  unfold after, mbind, M_bind. by destruct (m w) as [[a| |] w'].
Qed.

(** What [generate_next_queries] can change: the round counter and, along
    one edge of the diagram, the phase. *)
Lemma generate_next_queries_self fuel previous_results w :
  let s := self w in
  let s' := self (after (generate_next_queries fuel previous_results) w) in
  query_success_rates s' = query_success_rates s
  /\ learned_patterns s' = learned_patterns s
  /\ max_exploration_rounds s' = max_exploration_rounds s
  /\ domain_weights s' = domain_weights s
  /\ phase_step (current_phase s) (current_phase s').
Proof.
  intros s s'. subst s s'. unfold generate_next_queries.
  rewrite after_bind. cbn [get].
  destruct (current_phase (self w)) eqn:Hp.
  - rewrite after_bind.
    pose proof (reads_domain_exploration fuel w) as Hr. unfold after in Hr.
    destruct (_generate_domain_exploration_queries fuel w) as [[qs| |] w1];
      simpl in Hr; rewrite <- ?Hr; rewrite <- Hr in Hp;
      try (rewrite ?Hp; repeat split; by left).
    rewrite after_bind. cbn [modify]. rewrite after_bind. cbn [get put self].
    case_match; rewrite after_bind; simpl; rewrite ?Hp;
      repeat split; unfold phase_step; auto.
  - rewrite after_bind.
    pose proof (reads_pattern_exploration w) as Hr. unfold after in Hr.
    destruct (_generate_pattern_exploration_queries w) as [[qs| |] w1];
      simpl in Hr; rewrite <- ?Hr; rewrite <- Hr in Hp;
      try (rewrite ?Hp; repeat split; by left).
    rewrite after_bind. cbn [modify]. rewrite after_bind. cbn [get put self].
    case_match; rewrite after_bind; simpl; rewrite ?Hp;
      repeat split; unfold phase_step; auto.
  - rewrite (reads_optimized w), Hp. repeat split; by left.
Qed.

(** ** What one [analyze_response] call does *)

Lemma set_patterns_id w :
  set_patterns (successful_patterns (learned_patterns (self w))) w = w.
Proof. by destruct w as [[? [] ? ? ? ?] ? ?]. Qed.

Lemma set_patterns_twice pats pats' w :
  set_patterns pats (set_patterns pats' w) = set_patterns pats w.
Proof. done. Qed.

Lemma note_result_run query acc result w :
  exists acc' pats,
    note_result query acc result w = (Ok acc', set_patterns pats w).
Proof.
  unfold note_result. destruct (Qltb _ _).
  - unfold mbind, M_bind, get, modify, mret, M_ret.
    destruct (negb (PyStr.is_empty _) && _); simpl; do 2 eexists.
    + reflexivity.
    + by rewrite set_patterns_id.
  - do 2 eexists. unfold mret, M_ret. by rewrite set_patterns_id.
Qed.

Lemma for_fold_note_result query results :
  forall acc w, exists acc' pats,
    for_fold results acc (note_result query) w = (Ok acc', set_patterns pats w).
Proof.
  induction results as [|result results IH]; intros acc w; simpl.
  - exists acc, (successful_patterns (learned_patterns (self w))).
    unfold mret, M_ret. by rewrite set_patterns_id.
  - destruct (note_result_run query acc result w) as (acc1 & pats1 & E1).
    destruct (IH acc1 (set_patterns pats1 w)) as (acc2 & pats2 & E2).
    exists acc2, pats2. erewrite bind_ok by exact E1.
    by rewrite E2, set_patterns_twice.
Qed.

(** The call mutates the counters and the learned patterns, leaving the
    instance in a state [s1], and then reads and writes the weight of the
    identified domain: a missing weight raises [KeyError] with [s1] in
    place. *)
Lemma analyze_response_run query results w :
  let s := self w in
  let domain := _identify_domain query in
  exists s1,
    query_success_rates s1
      = counted (truthy results) (_categorize_query query) (query_success_rates s)
    /\ domain_weights s1 = domain_weights s
    /\ current_phase s1 = current_phase s
    /\ exploration_rounds s1 = exploration_rounds s
    /\ max_exploration_rounds s1 = max_exploration_rounds s
    /\ successful_domains (learned_patterns s1)
       = (if truthy results
          then successful_domains (learned_patterns s) ∪ {[domain]}
          else successful_domains (learned_patterns s))
    /\ (results = [] ->
        effective_terms (learned_patterns s1) = effective_terms (learned_patterns s)
        /\ ineffective_terms (learned_patterns s1)
           = (ineffective_terms (learned_patterns s) ∪ list_to_set (clean_terms query))
               ∖ effective_terms (learned_patterns s))
    /\ analyze_response query results w
       = match dict_get domain (domain_weights s) with
         | Some old =>
             (Ok tt,
              put (with_weights
                     (dict_set domain (new_weight (truthy results) old)) s1) w)
         | None => (Raise (KeyError domain), put s1 w)
         end.
Proof.
  intros s domain. subst s domain. unfold analyze_response.
  destruct results as [|result results'].
  - cbn [truthy andb]. eexists.
    unfold mbind, M_bind, modify, get, mret, M_ret, getitem. cbn [put self].
    cbn [with_learned with_rates domain_weights].
    split_and!; cycle -1.
    + destruct (dict_get _ _); reflexivity.
    + done.
    + done.
    + done.
    + done.
    + done.
    + done.
    + intros _. split; reflexivity.
  - set (results := result :: results').
    change (truthy results) with true. cbn [andb]. cbv iota.
    unfold mbind, M_bind, modify. cbn [put self].
    match goal with
    | |- context [for_fold ?l ?a ?b ?w0] =>
        destruct (for_fold_note_result query l a w0) as (terms & pats & E)
    end.
    rewrite E. unfold get, set_patterns, mret, M_ret, getitem. cbn [put self].
    match goal with
    | |- context [if ?c then _ else (fun w => (Ok tt, w))] => destruct c
    end.
    all: eexists; split_and!; cycle -1.
    all: try (cbn [put self with_learned with_rates domain_weights];
              destruct (dict_get _ _); reflexivity).
    all: done.
Qed.

(** ** Arithmetic of the weights *)

Lemma Qltb_true a b : Qltb a b = true <-> (a < b)%Q.
Proof.
  unfold Qltb. rewrite negb_true_iff, <- not_true_iff_false, Qle_bool_iff.
  split; [apply Qnot_le_lt | apply Qlt_not_le].
Qed.

Lemma Qltb_false a b : Qltb a b = false <-> (b <= a)%Q.
Proof. unfold Qltb. by rewrite negb_false_iff, Qle_bool_iff. Qed.

Lemma py_min_cases a b :
  ((b < a)%Q /\ py_min a b = b) \/ ((a <= b)%Q /\ py_min a b = a).
Proof.
  unfold py_min. destruct (Qltb b a) eqn:E.
  - left. by apply Qltb_true in E.
  - right. by apply Qltb_false in E.
Qed.

Lemma py_max_cases a b :
  ((a < b)%Q /\ py_max a b = b) \/ ((b <= a)%Q /\ py_max a b = a).
Proof.
  unfold py_max. destruct (Qltb a b) eqn:E.
  - left. by apply Qltb_true in E.
  - right. by apply Qltb_false in E.
Qed.

Lemma new_weight_in_range success old :
  in_range old -> in_range (new_weight success old).
Proof.
  unfold in_range, new_weight. intros [Hlo Hhi]. destruct success.
  - destruct (py_min_cases 2.0 (old * 1.2)) as [[H ->]|[H ->]]; split; lra.
  - destruct (py_max_cases 0.1 (old * 0.8)) as [[H ->]|[H ->]]; split; lra.
Qed.


(** ** The domain weights *)

Lemma analyze_response_weights query results w :
  domain_weights (self (after (analyze_response query results) w))
  = match dict_get (_identify_domain query) (domain_weights (self w)) with
    | Some old =>
        dict_set (_identify_domain query) (new_weight (truthy results) old)
          (domain_weights (self w))
    | None => domain_weights (self w)
    end.
Proof.
  destruct (analyze_response_run query results w)
    as (s1 & _ & Hw & _ & _ & _ & _ & _ & E).
  unfold after. rewrite E.
  destruct (dict_get _ _); simpl; by rewrite Hw.
Qed.

Lemma init_weights_ok : weights_ok init.
Proof.
  split; [reflexivity|]. unfold init, in_range; simpl.
  repeat constructor; simpl; lra.
Qed.

Lemma analyze_response_weights_ok query results w :
  weights_ok (self w) -> weights_ok (self (after (analyze_response query results) w)).
Proof.
  intros [Hk Hr]. unfold weights_ok. rewrite analyze_response_weights.
  destruct (dict_get _ _) as [old|] eqn:E; [|done]. split.
  - rewrite keys_dict_set; eauto.
  - apply Forall_dict_set; [done|]. simpl. apply new_weight_in_range.
    apply dict_get_Some in E. rewrite Forall_forall in Hr. apply (Hr _ E).
Qed.

Lemma generate_next_queries_weights_ok fuel previous_results w :
  weights_ok (self w) ->
  weights_ok (self (after (generate_next_queries fuel previous_results) w)).
Proof.
  destruct (generate_next_queries_self fuel previous_results w)
    as (_ & _ & _ & Hw & _).
  unfold weights_ok. by rewrite Hw.
Qed.

Lemma reachable_weights_ok w : reachable w -> weights_ok (self w).
Proof.
  induction 1.
  - apply init_weights_ok.
  - by apply analyze_response_weights_ok.
  - by apply generate_next_queries_weights_ok.
Qed.

Lemma run_analyses_weights_ok calls :
  forall w, weights_ok (self w) -> weights_ok (self (run_analyses calls w)).
Proof.
  induction calls as [|call calls IH]; intros w Hw; [done|].
  apply IH. by apply analyze_response_weights_ok.
Qed.

Lemma run_analyses_reachable calls :
  forall w, reachable w -> reachable (run_analyses calls w).
Proof.
  induction calls as [|call calls IH]; intros w Hw; [done|].
  apply IH. by constructor.
Qed.

(** The weight update of [analyze_response] on the domains that have a
    weight (C2 on those domains).  A call [analyze_response(query, results)]
    whose identified domain has a weight [old] returns and leaves that domain
    with the weight
    [min(2.0, old * 1.2)] when [results] is non-empty and
    [max(0.1, old * 0.8)] when it is empty; every other domain keeps the
    weight it had. *)
Theorem analyze_response_updates_weight query results w domain old :
  _identify_domain query = domain ->
  weight_of w domain = Some old ->
  exists w',
    analyze_response query results w = (Ok tt, w')
    /\ (results <> [] -> weight_of w' domain = Some (py_min 2.0 (old * 1.2))%Q)
    /\ (results = [] -> weight_of w' domain = Some (py_max 0.1 (old * 0.8))%Q)
    /\ (forall other, other <> domain -> weight_of w' other = weight_of w other).
Proof.
  unfold weight_of. intros <- Hold.
  destruct (analyze_response_run query results w)
    as (s1 & _ & Hw & _ & _ & _ & _ & _ & E).
  rewrite Hold in E. eexists. split; [exact E|].
  cbn [put self with_weights domain_weights]. rewrite Hw. split_and!.
  - intros Hne. rewrite dict_get_set_eq. by destruct results.
  - intros ->. by rewrite dict_get_set_eq.
  - intros other Hne. by rewrite dict_get_set_ne.
Qed.

Lemma analyze_response_updates_weight_witness :
  _identify_domain "python" = "languages"
  /\ weight_of world0 "languages" = Some 1.0%Q
  /\ exists w',
      analyze_response "python" [python_hit] world0 = (Ok tt, w')
      /\ ([python_hit] <> [] ->
          weight_of w' "languages" = Some (py_min 2.0 (1.0 * 1.2))%Q)
      /\ ([python_hit] = [] ->
          weight_of w' "languages" = Some (py_max 0.1 (1.0 * 0.8))%Q)
      /\ (forall other, other <> "languages" ->
          weight_of w' other = weight_of world0 other).
Proof.
  split; [reflexivity|]. split; [reflexivity|].
  apply (analyze_response_updates_weight "python" [python_hit] world0
           "languages" 1.0%Q); reflexivity.
Defined.

(** C2 does not hold for every call.  [_identify_domain] answers
    ["general"] for a query that overlaps no domain, as the seed term
    "data mining" of the catalog; [domain_weights] has an entry for each
    catalog domain and none for ["general"], so the call raises
    [KeyError("general")] at the weight update instead of writing the
    weight [min(2.0, old * 1.2)]: there is no weight before the call and
    none after it. *)
Theorem general_query_updates_no_weight :
  let w' := after (analyze_response "data mining" [python_hit]) world0 in
  _identify_domain "data mining" = "general"
  /\ (analyze_response "data mining" [python_hit] world0).1
     = Raise (KeyError "general")
  /\ ~ (exists old,
         weight_of world0 "general" = Some old
         /\ weight_of w' "general" = Some (py_min 2.0 (old * 1.2))%Q).
Proof.
  cbv zeta. split; [vm_compute; reflexivity|].
  split; [vm_compute; reflexivity|].
  intros (old & Hold & _). vm_compute in Hold. discriminate Hold.
Qed.

(** C4.  From a freshly constructed strategy, after any finite sequence of
    [analyze_response] calls the weights are still those of the catalog
    domains, and each of them lies in [0.1, 2.0]. *)
Theorem weights_stay_in_range (calls : list (string * list Result)) tp c :
  let w := run_analyses calls (fresh tp c) in
  keys (domain_weights (self w)) = keys domains
  /\ Forall (fun kv => (0.1 <= kv.2 /\ kv.2 <= 2.0)%Q) (domain_weights (self w)).
Proof.
  apply (run_analyses_weights_ok calls (fresh tp c)). apply init_weights_ok.
Qed.

(** ** The phase *)

Lemma phase_step_rank p p' : phase_step p p' -> phase_rank p <= phase_rank p'.
Proof. intros [->|[[-> ->]|[-> ->]]]; simpl; lia. Qed.

Lemma generate_next_queries_phase fuel previous_results w :
  phase_step (phase_of w)
    (phase_of (after (generate_next_queries fuel previous_results) w)).
Proof. apply generate_next_queries_self. Qed.

Lemma run_generates_rank calls :
  forall w, phase_rank (phase_of w) <= phase_rank (phase_of (run_generates calls w)).
Proof.
  induction calls as [|call calls IH]; intros w; simpl; [done|].
  etrans; [|apply IH].
  apply phase_step_rank, generate_next_queries_phase.
Qed.

Lemma rank_optimization p : 2 <= phase_rank p -> p = optimization.
Proof. destruct p; simpl; [lia..|done]. Qed.

(** C5.  Along any sequence of [generate_next_queries] calls, from any
    state and so from [domain_exploration], each call leaves the phase
    where it is or moves it one edge along
    [domain_exploration -> pattern_exploration -> optimization]; the phase
    never goes back, and once it is [optimization] it stays so. *)
Theorem phase_forward_only
  (before later : list (nat * gmap string Sample)) fuel previous_results w :
  let w1 := run_generates before w in
  let w2 := run_generates later w1 in
  phase_step (phase_of w1)
    (phase_of (after (generate_next_queries fuel previous_results) w1))
  /\ phase_rank (phase_of w1) <= phase_rank (phase_of w2)
  /\ (phase_of w1 = optimization -> phase_of w2 = optimization).
Proof.
  intros w1 w2. split_and!.
  - apply generate_next_queries_phase.
  - apply run_generates_rank.
  - intros H. apply rank_optimization.
    pose proof (run_generates_rank later w1) as Hle.
    fold w2 in Hle. rewrite H in Hle. exact Hle.
Qed.

Lemma phase_forward_only_witness :
  let calls := replicate 6 (5, ∅ : gmap string Sample) in
  let w1 := run_generates calls world0 in
  let w2 := run_generates calls w1 in
  phase_of w1 = optimization
  /\ phase_step (phase_of w1) (phase_of (after (generate_next_queries 5 ∅) w1))
  /\ phase_rank (phase_of w1) <= phase_rank (phase_of w2)
  /\ (phase_of w1 = optimization -> phase_of w2 = optimization).
Proof.
  split; [vm_compute; reflexivity|].
  apply (phase_forward_only (replicate 6 (5, ∅)) (replicate 6 (5, ∅)) 5 ∅ world0).
Defined.

(** The phases a fresh strategy goes through on its first seven calls *)
Example phases_of_a_fresh_strategy :
  (fun n => phase_of (run_generates (replicate n (5, ∅)) world0)) <$> seq 0 8
  = [domain_exploration; domain_exploration; domain_exploration;
     pattern_exploration; pattern_exploration; pattern_exploration;
     optimization; optimization].
Proof. vm_compute. reflexivity. Qed.

(** ** Domain identification *)

Lemma first_domain_cases ds query_terms :
  (forallb (fun entry : string * list string =>
      negb (nonempty (query_terms ∩ list_to_set (PyStr.lower <$> entry.2)))) ds
   = true
   /\ first_domain ds query_terms = "general")
  \/ (forallb (fun entry : string * list string =>
        negb (nonempty (query_terms ∩ list_to_set (PyStr.lower <$> entry.2)))) ds
      = false
      /\ first_domain ds query_terms ∈ keys ds).
Proof.
  unfold keys. induction ds as [|[domain terms] ds IH]; simpl.
  - by left.
  - destruct (nonempty _); simpl.
    + right. split; [done|]. left.
    + destruct IH as [[H1 H2]|[H1 H2]]; [by left|].
      right. split; [done|]. by right.
Qed.

Lemma general_not_in_catalog : "general" ∉ keys domains.
Proof. apply (bool_decide_unpack _). vm_compute. exact I. Qed.

Lemma identify_domain_general query :
  overlaps_no_domain query = true -> _identify_domain query = "general".
Proof.
  unfold overlaps_no_domain, _identify_domain. intros H.
  destruct (first_domain_cases domains (lower_terms query)) as [[_ ?]|[H' _]];
    [done | congruence].
Qed.

Lemma identify_domain_catalog query :
  overlaps_no_domain query = false <-> _identify_domain query ∈ keys domains.
Proof.
  unfold overlaps_no_domain, _identify_domain.
  destruct (first_domain_cases domains (lower_terms query)) as [[H1 H2]|[H1 H2]].
  - rewrite H1, H2. split; [done|]. intros H.
    by apply general_not_in_catalog in H.
  - by rewrite H1.
Qed.

(** ** The success counters *)

Lemma rate_of_bump_total rates query_type :
  rate_of (bump_total query_type rates) query_type
  = {| n_success := n_success (rate_of rates query_type);
       n_total := S (n_total (rate_of rates query_type)) |}.
Proof. unfold bump_total. unfold rate_of at 1. by rewrite lookup_insert_eq. Qed.

Lemma rate_of_bump_success rates query_type :
  rate_of (bump_success query_type rates) query_type
  = {| n_success := S (n_success (rate_of rates query_type));
       n_total := n_total (rate_of rates query_type) |}.
Proof. unfold bump_success. unfold rate_of at 1. by rewrite lookup_insert_eq. Qed.

Lemma rate_of_counted success rates query_type :
  let r := rate_of rates query_type in
  rate_of (counted success query_type rates) query_type
  = {| n_success := if success then S (n_success r) else n_success r;
       n_total := S (n_total r) |}.
Proof.
  unfold counted. destruct success; simpl.
  - by rewrite rate_of_bump_success, rate_of_bump_total.
  - by rewrite rate_of_bump_total.
Qed.

(** C3.  In every reachable state: a query whose lowercased tokens overlap
    no domain's seed terms is identified as ["general"], and
    [analyze_response] on it raises [KeyError("general")] at the weight
    update, after the counters have been written and with the weights
    untouched; a call that returns was made on a query that overlaps some
    catalog domain. *)
Theorem unmatched_query_raises_KeyError w query results :
  reachable w ->
  (overlaps_no_domain query = true ->
   _identify_domain query = "general"
   /\ exists w',
       analyze_response query results w = (Raise (KeyError "general"), w')
       /\ n_total (rate_in w' (_categorize_query query))
          = S (n_total (rate_in w (_categorize_query query)))
       /\ domain_weights (self w') = domain_weights (self w))
  /\ (forall w',
       analyze_response query results w = (Ok tt, w') ->
       overlaps_no_domain query = false
       /\ _identify_domain query ∈ keys domains).
Proof.
  intros Hreach. apply reachable_weights_ok in Hreach as [Hkeys _].
  destruct (analyze_response_run query results w)
    as (s1 & Hrates & Hw & _ & _ & _ & _ & _ & E).
  cbv zeta in *. split.
  - intros Hno. pose proof (identify_domain_general _ Hno) as Hgen.
    split; [done|]. rewrite Hgen in E.
    assert (dict_get "general" (domain_weights (self w)) = None) as Hnone.
    { apply dict_get_None. rewrite Hkeys. apply general_not_in_catalog. }
    rewrite Hnone in E. eexists. split; [exact E|]. split; [|done].
    unfold rate_in. cbn [put self]. rewrite Hrates.
    by rewrite rate_of_counted.
  - intros w' Hok. rewrite Hok in E.
    destruct (dict_get _ _) as [old|] eqn:Hget; [|discriminate].
    assert (_identify_domain query ∈ keys domains) as Hin.
    { rewrite <- Hkeys. apply dict_get_is_Some. eauto. }
    split; [|done]. by apply identify_domain_catalog.
Qed.

Lemma unmatched_query_raises_KeyError_witness :
  reachable world0
  /\ (overlaps_no_domain "data mining" = true
      /\ _identify_domain "data mining" = "general"
      /\ exists w',
          analyze_response "data mining" [] world0
          = (Raise (KeyError "general"), w')
          /\ n_total (rate_in w' (_categorize_query "data mining"))
             = S (n_total (rate_in world0 (_categorize_query "data mining")))
          /\ domain_weights (self w') = domain_weights (self world0))
  /\ (exists w',
        analyze_response "python" [] world0 = (Ok tt, w')
        /\ overlaps_no_domain "python" = false
        /\ _identify_domain "python" ∈ keys domains).
Proof.
  split; [apply reachable_fresh|]. split.
  - split; [vm_compute; reflexivity|].
    apply (unmatched_query_raises_KeyError world0 "data mining" []).
    + apply reachable_fresh.
    + vm_compute; reflexivity.
  - exists (after (analyze_response "python" []) world0).
    split; [vm_compute; reflexivity|].
    apply (proj2 (unmatched_query_raises_KeyError world0 "python" []
                    (reachable_fresh counting_tape 0))
             (after (analyze_response "python" []) world0)).
    vm_compute; reflexivity.
Defined.

(** ** Effective and ineffective terms *)

(** Right after an unsuccessful query the two sets are disjoint. *)
Lemma disjoint_after_failure query w :
  let s' := self (after (analyze_response query []) w) in
  effective_terms (learned_patterns s') ∩ ineffective_terms (learned_patterns s')
  = ∅.
Proof.
  destruct (analyze_response_run query [] w)
    as (s1 & _ & _ & _ & _ & _ & _ & Hterms & E).
  destruct (Hterms eq_refl) as [He Hi]. unfold after. cbv zeta. rewrite E.
  destruct (dict_get _ _); cbn [snd put self with_weights learned_patterns];
    rewrite He, Hi; apply set_eq; intros x;
    rewrite elem_of_intersection, elem_of_difference, elem_of_empty; tauto.
Qed.

(** C6.  The two sets are not kept disjoint: a term recorded as ineffective
    by an empty response stays in [ineffective_terms] when a later
    successful response puts it in [effective_terms]. *)
Theorem effective_and_ineffective_overlap :
  let calls := [("python", []); ("python", [python_hit])] in
  let w := run_analyses calls world0 in
  reachable w
  /\ (analyze_response "python" [] world0).1 = Ok tt
  /\ (analyze_response "python" [python_hit]
        (after (analyze_response "python" []) world0)).1 = Ok tt
  /\ "python" ∈ effective_terms (learned_patterns (self w))
  /\ "python" ∈ ineffective_terms (learned_patterns (self w)).
Proof.
  intros calls w. split; [apply run_analyses_reachable, reachable_fresh|].
  split; [vm_compute; reflexivity|]. split; [vm_compute; reflexivity|].
  split; apply (bool_decide_unpack _); vm_compute; exact I.
Qed.

(** ** Query generation *)

Lemma random_choice_run {A : Type} (seq : list A) w :
  seq <> [] ->
  exists x w', random_choice seq w = (Ok x, w') /\ x ∈ seq /\ self w' = self w.
Proof.
  destruct seq as [|x0 seq]; [done|]. intros _. unfold random_choice.
  unfold mbind, M_bind, draw, mret, M_ret. do 2 eexists. split; [reflexivity|].
  split; [|done]. apply list_elem_of_In, nth_In.
  apply Nat.mod_upper_bound. simpl. lia.
Qed.

Lemma remove_at_length {A : Type} (l : list A) :
  forall i, i < length l -> length (remove_at i l) = pred (length l).
Proof.
  induction l as [|x l IH]; intros i Hi; simpl in *; [lia|].
  destruct i as [|i]; [done|]. simpl. rewrite IH by lia. lia.
Qed.

Lemma elem_of_remove_at {A : Type} (x : A) (l : list A) :
  forall i, x ∈ remove_at i l -> x ∈ l.
Proof.
  induction l as [|y l IH]; intros [|i]; simpl; try done.
  - by right.
  - rewrite !elem_of_cons. intros [->|H]; [by left|]. right. by apply (IH i).
Qed.

Lemma random_sample_run {A : Type} k :
  forall (population : list A) w,
    k <= length population ->
    exists xs w',
      random_sample population k w = (Ok xs, w')
      /\ length xs = k /\ (forall x, x ∈ xs -> x ∈ population)
      /\ self w' = self w.
Proof.
  induction k as [|k IH]; intros population w Hk; simpl.
  - exists [], w. split_and!; [done..| |done]. intros x Hx.
    by apply elem_of_nil in Hx.
  - destruct population as [|x l]; [simpl in Hk; lia|].
    unfold mbind, M_bind, draw. cbn [fst snd].
    set (i := N.to_nat _ mod _).
    set (w1 := {| self := self w; tape := tape w; cursor := S (cursor w) |}).
    assert (i < length (x :: l)) as Hi.
    { apply Nat.mod_upper_bound. simpl. lia. }
    destruct (IH (remove_at i (x :: l)) w1)
      as (xs & w' & E & Hlen & Hsub & Hself).
    { rewrite remove_at_length by done. simpl in *. lia. }
    rewrite E. do 2 eexists. split; [reflexivity|].
    split_and!; [simpl; by rewrite Hlen| |done].
    intros y. rewrite elem_of_cons. intros [->|Hy].
    + by apply list_elem_of_In, nth_In.
    + eapply elem_of_remove_at. by apply Hsub.
Qed.

Lemma catalog_terms_nonempty domain terms :
  dict_get domain domains = Some terms -> terms <> [].
Proof.
  intros H. apply dict_get_Some in H.
  assert (Forall (fun entry : string * list string => entry.2 <> []) domains)
    as Hall.
  { unfold domains. repeat (constructor; [done|]). constructor. }
  rewrite Forall_forall in Hall. apply (Hall _ H).
Qed.

Lemma domains_to_probe_nonempty s : domains_to_probe s ≠ ∅.
Proof.
  unfold domains_to_probe, nonempty.
  destruct (bool_decide _) eqn:E; simpl.
  - apply (bool_decide_unpack _). vm_compute. exact I.
  - by apply bool_decide_eq_false in E.
Qed.

(** Whatever the random module draws: when every learned pattern label is
    foreign to [query_patterns], the first round of the loop of
    [_generate_optimized_queries] raises [KeyError], on the label it drew
    or, before that, on a domain that is not in the catalog. *)
Lemma optimized_queries_raise w :
  let pats := successful_patterns (learned_patterns (self w)) in
  pats <> [] ->
  (forall p, p ∈ pats -> dict_get p query_patterns = None) ->
  exists k w',
    _generate_optimized_queries w = (Raise (KeyError k), w')
    /\ (k ∈ pats
        \/ (k ∈ domains_to_probe (self w) /\ dict_get k domains = None)).
Proof.
  intros pats Hne Hbad. unfold _generate_optimized_queries.
  unfold mbind at 1, M_bind at 1. cbn [get].
  assert (truthy pats = true) as Ht by (by destruct pats).
  fold pats. rewrite Ht.
  set (D := domains_to_probe (self w)).
  assert (size D <> 0) as Hsize.
  { apply size_non_empty_iff. intros Heq. apply leibniz_equiv in Heq.
    by apply (domains_to_probe_nonempty (self w)). }
  destruct (random_sample_run (Nat.min 2 (size D)) (elements D) w)
    as (xs & w1 & E & Hlen & Hsub & Hself).
  { assert (length (elements D) = size D) as Hel by reflexivity. lia. }
  erewrite bind_ok by exact E.
  destruct xs as [|domain xs]; [cbn [length] in Hlen; lia|]. cbn [for_fold].
  destruct (random_choice_run pats w1 Hne) as (p & w2 & E2 & Hp & Hself2).
  unfold mbind at 1, M_bind at 1. unfold mbind at 1, M_bind at 1.
  rewrite E2. unfold mbind at 1, M_bind at 1. unfold getitem at 1.
  destruct (dict_get domain domains) as [terms|] eqn:Ed.
  - unfold mret at 1, M_ret at 1.
    destruct (random_choice_run terms w2 (catalog_terms_nonempty _ _ Ed))
      as (term & w3 & E3 & _ & _).
    unfold mbind at 1, M_bind at 1. rewrite E3.
    unfold mbind at 1, M_bind at 1. unfold getitem. rewrite (Hbad p Hp).
    unfold raise. do 2 eexists. split; [reflexivity|]. by left.
  - unfold raise. do 2 eexists. split; [reflexivity|]. right.
    split; [|done]. apply elem_of_elements, Hsub. left.
Qed.

Lemma run_generates_reachable calls :
  forall w, reachable w -> reachable (run_generates calls w).
Proof.
  induction calls as [|call calls IH]; intros w Hw; [done|].
  apply IH. by constructor.
Qed.

(** In the optimization phase, with ["compound"] the only learned pattern
    label, the call raises on that label. *)
Lemma compound_label_raises w fuel previous_results :
  phase_of w = optimization ->
  successful_patterns (learned_patterns (self w)) = ["compound"] ->
  domains_to_probe (self w) = {["general_academic"]} ->
  exists w',
    generate_next_queries fuel previous_results w
    = (Raise (KeyError "compound"), w').
Proof.
  unfold phase_of. intros Hphase Hpats HD.
  destruct (optimized_queries_raise w) as (k & w' & E & Hk).
  - by rewrite Hpats.
  - rewrite Hpats. intros p Hp. apply list_elem_of_singleton in Hp as ->.
    reflexivity.
  - exists w'. unfold generate_next_queries.
    unfold mbind at 1, M_bind at 1. cbn [get].
    rewrite Hphase, E. f_equal. f_equal. f_equal.
    rewrite Hpats, HD in Hk. destruct Hk as [Hk|[Hk Hnone]].
    + by apply list_elem_of_singleton in Hk.
    + apply elem_of_singleton in Hk as ->. discriminate.
Qed.

(** With nothing learned yet the fallbacks apply: the first eight calls on
    a fresh strategy return good batches. *)
Example fresh_strategy_batches :
  forallb (fun n =>
    good_batch (generate_next_queries 5 ∅
                  (run_generates (replicate n (5, ∅)) world0)).1) (seq 0 8)
  = true.
Proof. vm_compute. reflexivity. Qed.

(** C1.  [generate_next_queries] does not always return: a successful
    high-scoring query with [" and "] in it records the pattern label
    ["compound"], which is not a key of [query_patterns]; in the
    optimization phase the lookup of that label raises [KeyError], whatever
    the fuel and whatever the random module draws from then on. *)
Theorem optimized_generation_raises_KeyError
  (fuel : nat) (previous_results : gmap string Sample) (tp : nat -> N) (c : nat) :
  let w2 :=
    run_generates (replicate 6 (5, ∅))
      (after (analyze_response "python AND guide" [python_hit]) world0) in
  let w := {| self := self w2; tape := tp; cursor := c |} in
  reachable w2
  /\ (analyze_response "python AND guide" [python_hit] world0).1 = Ok tt
  /\ phase_of w = optimization
  /\ successful_patterns (learned_patterns (self w)) = ["compound"]
  /\ exists w',
      generate_next_queries fuel previous_results w
      = (Raise (KeyError "compound"), w').
Proof.
  intros w2 w.
  assert (phase_of w = optimization) as Hphase by (vm_compute; reflexivity).
  assert (successful_patterns (learned_patterns (self w)) = ["compound"])
    as Hpats by (vm_compute; reflexivity).
  assert (domains_to_probe (self w) = {["general_academic"]}) as HD.
  { apply (bool_decide_unpack _). vm_compute. exact I. }
  split.
  { apply run_generates_reachable. constructor. apply reachable_fresh. }
  split; [vm_compute; reflexivity|].
  split; [exact Hphase|]. split; [exact Hpats|].
  exact (compound_label_raises w fuel previous_results Hphase Hpats HD).
Qed.

(** ** Query categories *)

(** C7 as stated does not hold: the first two rules of [_categorize_query]
    count terms, so a one-term query is never ["fuzzy"] and a three-term
    query is never ["compound"]. *)
Lemma stated_categories_fail :
  ~ (_categorize_query "one two three" = "exact"
     /\ _categorize_query "solo" = "partial"
     /\ _categorize_query "weird!!" = "fuzzy"
     /\ _categorize_query "a AND b" = "compound"
     /\ _categorize_query EmptyString = "general").
Proof. intros (_ & _ & H & _). vm_compute in H. discriminate. Qed.

(** C7, amended.  [_categorize_query] returns ["exact"] for
    ["one two three"], ["partial"] for ["solo"], ["partial"] for
    ["weird!!"], ["exact"] for ["a AND b"] and ["general"] for the empty
    string. *)
Theorem categorize_examples :
  _categorize_query "one two three" = "exact"
  /\ _categorize_query "solo" = "partial"
  /\ _categorize_query "weird!!" = "partial"
  /\ _categorize_query "a AND b" = "exact"
  /\ _categorize_query EmptyString = "general".
Proof. repeat split; reflexivity. Qed.

(** The rules ["fuzzy"] and ["compound"] fire on two-term queries only. *)
Example categorize_two_terms :
  _categorize_query "weird!! x" = "fuzzy"
  /\ _categorize_query "a AND " = "compound".
Proof. split; reflexivity. Qed.

(** ** The confidence score *)

Lemma values_length (db : gmap string Sample) : length (values db) = size db.
Proof. unfold values. by rewrite length_fmap, length_map_to_list. Qed.

Lemma count_le {A : Type} (p : A -> bool) l : count p l <= length l.
Proof. apply List.filter_length_le. Qed.

Lemma count_negb {A : Type} (p : A -> bool) l :
  count (fun x => negb (p x)) l = length l - count p l.
Proof. unfold count. pose proof (List.filter_length p l). lia. Qed.

Lemma of_nat_sub n m : m <= n -> (of_nat (n - m) == of_nat n - of_nat m)%Q.
Proof.
  intros H. unfold of_nat. rewrite Nat2Z.inj_sub by done.
  unfold Z.sub. by rewrite inject_Z_plus, inject_Z_opp.
Qed.

Lemma of_nat_pos n : 0 < n -> (0 < of_nat n)%Q.
Proof.
  intros H. unfold of_nat. change 0%Q with (inject_Z 0).
  rewrite <- Zlt_Qlt. lia.
Qed.

Lemma of_nat_nonneg n : (0 <= of_nat n)%Q.
Proof.
  unfold of_nat. change 0%Q with (inject_Z 0). rewrite <- Zle_Qle. lia.
Qed.

Lemma size_nonempty (db : gmap string Sample) : db ≠ ∅ -> 0 < size db.
Proof. intros H. apply map_size_non_empty_iff in H. lia. Qed.

Lemma analyze_patterns_nonempty db :
  db ≠ ∅ ->
  let fuzzy_matches := count is_fuzzy (values db) in
  fuzzy_match_ratio (analyze_patterns db)
  = (of_nat fuzzy_matches / of_nat (size db))%Q
  /\ exact_match_ratio (analyze_patterns db)
     = (of_nat (size db - fuzzy_matches) / of_nat (size db))%Q.
Proof.
  intros Hne. unfold analyze_patterns.
  rewrite bool_decide_eq_false_2 by done.
  pose proof (size_nonempty db Hne) as Hpos.
  apply Nat.ltb_lt in Hpos. cbn [fuzzy_match_ratio exact_match_ratio].
  by rewrite Hpos.
Qed.

Lemma ratios_add_up db :
  db ≠ ∅ ->
  (fuzzy_match_ratio (analyze_patterns db)
   + exact_match_ratio (analyze_patterns db) == 1)%Q.
Proof.
  intros Hne. destruct (analyze_patterns_nonempty db Hne) as [-> ->].
  pose proof (count_le is_fuzzy (values db)) as Hle.
  rewrite values_length in Hle. rewrite (of_nat_sub _ _ Hle).
  pose proof (of_nat_pos _ (size_nonempty db Hne)) as Hpos.
  field. intros H. rewrite H in Hpos. by apply Qlt_irrefl in Hpos.
Qed.

Lemma calculate_confidence_nonempty db :
  db ≠ ∅ ->
  calculate_confidence db
  = ((fuzzy_match_ratio (analyze_patterns db)
      + exact_match_ratio (analyze_patterns db) + 0.8) / 3)%Q.
Proof.
  intros Hne. unfold calculate_confidence, _check_result_consistency.
  by rewrite bool_decide_eq_false_2.
Qed.

Lemma calculate_confidence_value db :
  db ≠ ∅ -> (calculate_confidence db == 0.6)%Q.
Proof.
  intros Hne. rewrite (calculate_confidence_nonempty db Hne).
  rewrite (ratios_add_up db Hne). reflexivity.
Qed.

(** C8.  [calculate_confidence] returns 0.0 for the empty database; for a
    non-empty one it returns
    [(fuzzy_match_ratio + exact_match_ratio + 0.8) / 3], a value of
    [0, 1]. *)
Theorem calculate_confidence_mean db :
  calculate_confidence ∅ = 0.0%Q
  /\ (db ≠ ∅ ->
      calculate_confidence db
      = ((fuzzy_match_ratio (analyze_patterns db)
          + exact_match_ratio (analyze_patterns db) + 0.8) / 3)%Q
      /\ (0 <= calculate_confidence db)%Q
      /\ (calculate_confidence db <= 1)%Q).
Proof.
  split; [reflexivity|]. intros Hne.
  split; [by apply calculate_confidence_nonempty|].
  rewrite (calculate_confidence_value db Hne). split; lra.
Qed.

Lemma calculate_confidence_mean_witness :
  let db := database_of "python" [python_hit] in
  db ≠ ∅
  /\ calculate_confidence db
     = ((fuzzy_match_ratio (analyze_patterns db)
         + exact_match_ratio (analyze_patterns db) + 0.8) / 3)%Q
  /\ (0 <= calculate_confidence db)%Q
  /\ (calculate_confidence db <= 1)%Q.
Proof.
  intros db.
  assert (db ≠ ∅) as Hne by apply insert_non_empty.
  split; [exact Hne|].
  apply (proj2 (calculate_confidence_mean db) Hne).
Defined.

(** C10.  For a non-empty database the two ratios add up to 1, every
    sample that is not ["fuzzy"] (so also an ["unknown"] one) being
    counted in [exact_match_ratio], and [calculate_confidence] is 0.6. *)
Theorem ratios_sum_to_one db :
  db ≠ ∅ ->
  (fuzzy_match_ratio (analyze_patterns db)
   + exact_match_ratio (analyze_patterns db) == 1)%Q
  /\ (exact_match_ratio (analyze_patterns db)
      == of_nat (count (fun r => negb (is_fuzzy r)) (values db))
         / of_nat (size db))%Q
  /\ (calculate_confidence db == 0.6)%Q.
Proof.
  intros Hne. split; [by apply ratios_add_up|].
  split; [|by apply calculate_confidence_value].
  destruct (analyze_patterns_nonempty db Hne) as [_ ->].
  by rewrite count_negb, values_length.
Qed.

Lemma ratios_sum_to_one_witness :
  let db := database_of "data mining" [] in
  db ≠ ∅
  /\ matching_type <$> (characteristics <$> db !! "data mining") = Some "unknown"
  /\ (exact_match_ratio (analyze_patterns db) == 1)%Q
  /\ (fuzzy_match_ratio (analyze_patterns db)
      + exact_match_ratio (analyze_patterns db) == 1)%Q
  /\ (exact_match_ratio (analyze_patterns db)
      == of_nat (count (fun r => negb (is_fuzzy r)) (values db))
         / of_nat (size db))%Q
  /\ (calculate_confidence db == 0.6)%Q.
Proof.
  intros db.
  assert (db ≠ ∅) as Hne by apply insert_non_empty.
  split; [exact Hne|]. split; [reflexivity|].
  split; [vm_compute; reflexivity|].
  apply (ratios_sum_to_one db Hne).
Defined.

(** ** A failed request *)



(** * Further properties of the analyzer *)

Lemma count_existsb {A : Type} (p : A -> bool) l :
  existsb p l = true <-> 0 < count p l.
Proof.
  unfold count. induction l as [|x l IH]; simpl.
  - split; [discriminate | lia].
  - destruct (p x); simpl; [split; [lia | done] | exact IH].
Qed.

(** X1.  [detect_matching_algorithm] compares the number of results
    labelled ["fuzzy"] with the number labelled ["exact"]: it answers
    ["fuzzy"] exactly when the fuzzy ones are more, ["exact"] exactly when
    they are not more and there is an exact one (a tie goes to ["exact"]),
    and ["unknown"] exactly when no result carries either label, as for the
    empty list. *)
Theorem detect_matching_algorithm_cases (rs : list Result) :
  let fuzzy_count := count (matched_is "fuzzy") rs in
  let exact_count := count (matched_is "exact") rs in
  (detect_matching_algorithm rs = "fuzzy" <-> exact_count < fuzzy_count)
  /\ (detect_matching_algorithm rs = "exact"
      <-> fuzzy_count <= exact_count /\ 0 < exact_count)
  /\ (detect_matching_algorithm rs = "unknown"
      <-> fuzzy_count = 0 /\ exact_count = 0).
Proof.
  intros fuzzy_count exact_count. unfold detect_matching_algorithm.
  destruct rs as [|r rs'].
  - subst fuzzy_count exact_count. cbn. intuition (discriminate || lia).
  - set (rs := r :: rs') in *. change (truthy rs) with true. cbn [negb].
    fold fuzzy_count exact_count.
    destruct (exact_count <? fuzzy_count)%nat eqn:E1.
    + apply Nat.ltb_lt in E1. intuition (discriminate || lia).
    + apply Nat.ltb_ge in E1.
      destruct (0 <? exact_count)%nat eqn:E2.
      * apply Nat.ltb_lt in E2. intuition (discriminate || lia).
      * apply Nat.ltb_ge in E2. intuition (discriminate || lia).
Qed.

(** X2.  The label agrees with the two membership checks: ["fuzzy"] is
    answered only when [_check_fuzzy_matching] holds, ["exact"] only when
    [_check_exact_matching] holds, and ["unknown"] exactly when both
    fail. *)
Theorem detect_matching_algorithm_checks (rs : list Result) :
  (detect_matching_algorithm rs = "fuzzy" -> _check_fuzzy_matching rs = true)
  /\ (detect_matching_algorithm rs = "exact" -> _check_exact_matching rs = true)
  /\ (detect_matching_algorithm rs = "unknown"
      <-> _check_fuzzy_matching rs = false /\ _check_exact_matching rs = false).
Proof.
  destruct (detect_matching_algorithm_cases rs) as (Hf & He & Hu).
  unfold _check_fuzzy_matching, _check_exact_matching.
  pose proof (count_existsb (matched_is "fuzzy") rs) as Cf.
  pose proof (count_existsb (matched_is "exact") rs) as Ce.
  split_and!.
  - intros H. apply Cf. apply Hf in H. lia.
  - intros H. apply Ce. apply He in H. lia.
  - rewrite Hu. split.
    + intros [H1 H2]. split; apply not_true_is_false; intros H.
      * apply Cf in H. lia.
      * apply Ce in H. lia.
    + intros [H1 H2]. split.
      * destruct (count (matched_is "fuzzy") rs) eqn:E; [done|].
        assert (existsb (matched_is "fuzzy") rs = true) by (apply Cf; lia).
        congruence.
      * destruct (count (matched_is "exact") rs) eqn:E; [done|].
        assert (existsb (matched_is "exact") rs = true) by (apply Ce; lia).
        congruence.
Qed.

Lemma detect_matching_algorithm_checks_witness :
  let rs := [python_hit] in
  detect_matching_algorithm rs = "exact"
  /\ _check_exact_matching rs = true
  /\ detect_matching_algorithm [] = "unknown"
  /\ (_check_fuzzy_matching [] = false /\ _check_exact_matching [] = false).
Proof.
  intros rs. split; [reflexivity|]. split.
  - apply (proj1 (proj2 (detect_matching_algorithm_checks rs))). reflexivity.
  - split; [reflexivity|].
    apply (proj1 (proj2 (proj2 (detect_matching_algorithm_checks [])))).
    reflexivity.
Defined.

Lemma of_nat_S n : (of_nat (S n) == of_nat n + 1)%Q.
Proof.
  unfold of_nat. rewrite Nat2Z.inj_succ. unfold Z.succ.
  by rewrite inject_Z_plus.
Qed.

Lemma foldl_Qplus_bounds lo hi (l : list Q) :
  Forall (fun x => lo <= x /\ x <= hi)%Q l ->
  forall a,
    (a + of_nat (length l) * lo <= foldl Qplus a l
     /\ foldl Qplus a l <= a + of_nat (length l) * hi)%Q.
Proof.
  induction 1 as [|x l [Hlo Hhi] _ IH]; intros a.
  - cbn [foldl length]. change (of_nat 0) with 0%Q. split; lra.
  - cbn [foldl length]. destruct (IH (a + x)%Q) as [IH1 IH2].
    rewrite of_nat_S. split; lra.
Qed.

Lemma Qmean_bounds lo hi (l : list Q) :
  l <> [] ->
  Forall (fun x => lo <= x /\ x <= hi)%Q l ->
  (lo <= Qsum l / of_nat (length l) /\ Qsum l / of_nat (length l) <= hi)%Q.
Proof.
  intros Hne Hall.
  assert (0 < of_nat (length l))%Q as Hpos.
  { apply of_nat_pos. destruct l; [done | simpl; lia]. }
  destruct (foldl_Qplus_bounds lo hi l Hall 0%Q) as [H1 H2].
  fold (Qsum l) in H1, H2. split.
  - apply Qle_shift_div_l; [done | lra].
  - apply Qle_shift_div_r; [done | lra].
Qed.

Lemma foldl_Qplus_nonneg (l : list Q) :
  Forall (fun x => 0 <= x)%Q l -> forall a, (a <= foldl Qplus a l)%Q.
Proof.
  induction 1 as [|x l Hx _ IH]; intros a; cbn [foldl]; [lra|].
  specialize (IH (a + x)%Q). lra.
Qed.

(** X3.  [_analyze_text_relevance] is 0.0 for the empty list.  A missing
    score counting as 0.0, it is not negative when no score is negative,
    and it is 0 when every score is 0, as for results that carry no
    score. *)
Theorem text_relevance_sign (rs : list Result) :
  _analyze_text_relevance [] = 0.0%Q
  /\ (Forall (fun r => 0 <= score_of r)%Q rs ->
      (0 <= _analyze_text_relevance rs)%Q)
  /\ (Forall (fun r => score_of r == 0)%Q rs ->
      (_analyze_text_relevance rs == 0)%Q).
Proof.
  split; [reflexivity|]. unfold _analyze_text_relevance.
  destruct rs as [|r rs']; [split; intros _; cbn; lra|].
  set (rs := r :: rs') in *. change (truthy rs) with true. cbn [negb].
  assert (0 < of_nat (length rs))%Q as Hpos.
  { apply of_nat_pos. simpl. lia. }
  split.
  - intros Hall. apply Qle_shift_div_l; [done|].
    pose proof (foldl_Qplus_nonneg ((fun r => default 0.0%Q (score r)) <$> rs))
      as Hsum.
    unfold Qsum. specialize (Hsum (proj2 (Forall_fmap _ _ _) Hall) 0%Q). lra.
  - intros Hall.
    rewrite <- (length_fmap (fun r => default 0.0%Q (score r)) rs).
    destruct (Qmean_bounds 0 0 ((fun r => default 0.0%Q (score r)) <$> rs))
      as [H1 H2].
    + done.
    + apply Forall_fmap. eapply Forall_impl; [exact Hall|].
      intros x Hx. unfold score_of in Hx. cbn. lra.
    + lra.
Qed.

Lemma text_relevance_sign_witness :
  let scored := [python_hit] in
  let bare := [{| title := "Rust"; score := None; matched := None |}] in
  Forall (fun r => 0 <= score_of r)%Q scored
  /\ Forall (fun r => score_of r == 0)%Q bare
  /\ (0 <= _analyze_text_relevance scored)%Q
  /\ (_analyze_text_relevance bare == 0)%Q.
Proof.
  intros scored bare.
  assert (Forall (fun r => 0 <= score_of r)%Q scored) as H1.
  { repeat constructor. vm_compute. discriminate. }
  assert (Forall (fun r => score_of r == 0)%Q bare) as H2.
  { repeat constructor. }
  split; [exact H1|]. split; [exact H2|]. split.
  - exact (proj1 (proj2 (text_relevance_sign scored)) H1).
  - exact (proj2 (proj2 (text_relevance_sign bare)) H2).
Defined.

Lemma Qratio_unit a b : a <= b -> 0 < b ->
  (0 <= of_nat a / of_nat b /\ of_nat a / of_nat b <= 1)%Q.
Proof.
  intros Hab Hb. pose proof (of_nat_pos b Hb) as Hpos. split.
  - apply Qle_shift_div_l; [done|]. pose proof (of_nat_nonneg a). lra.
  - apply Qle_shift_div_r; [done|].
    assert (of_nat a <= of_nat b)%Q; [|lra].
    unfold of_nat. rewrite <- Zle_Qle. lia.
Qed.

(** X4.  Whatever the database, both ratios returned by [analyze_patterns]
    lie in [0, 1]. *)
Theorem analyze_patterns_bounds (db : gmap string Sample) :
  (0 <= fuzzy_match_ratio (analyze_patterns db)
   /\ fuzzy_match_ratio (analyze_patterns db) <= 1)%Q
  /\ (0 <= exact_match_ratio (analyze_patterns db)
      /\ exact_match_ratio (analyze_patterns db) <= 1)%Q.
Proof.
  destruct (decide (db = ∅)) as [->|Hne].
  - split; vm_compute; split; discriminate.
  - destruct (analyze_patterns_nonempty db Hne) as [Hf He].
    pose proof (size_nonempty db Hne) as Hpos.
    pose proof (count_le is_fuzzy (values db)) as Hle.
    rewrite values_length in Hle. cbv zeta in Hf, He.
    rewrite Hf, He. split; [by apply Qratio_unit|].
    apply Qratio_unit; [lia | done].
Qed.

Lemma Qlt_ratio (c : Q) a b :
  0 < b -> (c < of_nat a / of_nat b)%Q <-> (c * of_nat b < of_nat a)%Q.
Proof.
  intros Hb. pose proof (of_nat_pos b Hb) as Hpos. split.
  - intros H. apply (Qmult_lt_r _ _ (of_nat b) Hpos) in H.
    assert (of_nat a / of_nat b * of_nat b == of_nat a)%Q as E.
    { field. intros E0. rewrite E0 in Hpos. by apply Qlt_irrefl in Hpos. }
    by rewrite E in H.
  - intros H. by apply Qlt_shift_div_l.
Qed.

Lemma fuzzy_threshold a b : (0.8 * of_nat b < of_nat a)%Q <-> 4 * b < 5 * a.
Proof. unfold Qlt, of_nat. simpl. lia. Qed.

Lemma exact_threshold a b : (0.9 * of_nat b < of_nat a)%Q <-> 9 * b < 10 * a.
Proof. unfold Qlt, of_nat. simpl. lia. Qed.

(** X5.  [determine_algorithm_type] in whole numbers, for a database of
    [n] samples of which [f] are ["fuzzy"]: it answers ["fuzzy_search"]
    exactly when [5 f > 4 n], ["exact_match"] exactly when [10 f < n], and
    ["hybrid"] otherwise, the empty database included. *)
Theorem determine_algorithm_type_thresholds (db : gmap string Sample) :
  let n := size db in
  let f := count is_fuzzy (values db) in
  (determine_algorithm_type db = "fuzzy_search" <-> 4 * n < 5 * f)
  /\ (determine_algorithm_type db = "exact_match" <-> 10 * f < n)
  /\ (determine_algorithm_type db = "hybrid" <-> 5 * f <= 4 * n /\ n <= 10 * f).
Proof.
  intros n f. unfold determine_algorithm_type.
  pose proof (count_le is_fuzzy (values db)) as Hle.
  rewrite values_length in Hle. fold n f in Hle.
  destruct (decide (db = ∅)) as [->|Hne].
  - assert (n = 0) as Hn by apply map_size_empty.
    change (Qltb 0.8 (fuzzy_match_ratio (analyze_patterns ∅))) with false.
    change (Qltb 0.9 (exact_match_ratio (analyze_patterns ∅))) with false.
    cbv iota. intuition (discriminate || lia).
  - destruct (analyze_patterns_nonempty db Hne) as [Hf He].
    pose proof (size_nonempty db Hne) as Hpos.
    cbv zeta in Hf, He. fold n f in Hf, He, Hpos. rewrite Hf, He.
    destruct (Qltb 0.8 _) eqn:E1.
    + apply Qltb_true, Qlt_ratio, fuzzy_threshold in E1; [|done].
      intuition (discriminate || lia).
    + assert (~ 4 * n < 5 * f) as N1.
      { intros H. apply fuzzy_threshold, (Qlt_ratio 0.8 f n Hpos), Qltb_true in H.
        congruence. }
      destruct (Qltb 0.9 _) eqn:E2.
      * apply Qltb_true, Qlt_ratio, exact_threshold in E2; [|done].
        intuition (discriminate || lia).
      * assert (~ 9 * n < 10 * (n - f)) as N2.
        { intros H.
          apply exact_threshold, (Qlt_ratio 0.9 (n - f) n Hpos), Qltb_true in H.
          congruence. }
        intuition (discriminate || lia).
Qed.

(** X6.  A database in which no sample is ["fuzzy"], for instance one
    whose every request failed or came back empty, is reported as
    ["exact_match"], with a confidence of 0.6. *)
Theorem no_fuzzy_sample_is_exact_match (db : gmap string Sample) :
  db ≠ ∅ ->
  Forall (fun r => matching_type (characteristics r) <> "fuzzy") (values db) ->
  likely_algorithm (generate_hypothesis db) = "exact_match"
  /\ (confidence_score (generate_hypothesis db) == 0.6)%Q.
Proof.
  intros Hne Hall. cbn [generate_hypothesis likely_algorithm confidence_score].
  split; [|by apply calculate_confidence_value].
  apply determine_algorithm_type_thresholds.
  assert (count is_fuzzy (values db) = 0) as ->.
  { unfold count. induction Hall as [|r l Hr _ IH]; [done|]. simpl.
    unfold is_fuzzy at 1. by rewrite bool_decide_eq_false_2. }
  pose proof (size_nonempty db Hne). lia.
Qed.

Lemma no_fuzzy_sample_is_exact_match_witness :
  let db := database_of "data mining" [] in
  db ≠ ∅
  /\ Forall (fun r => matching_type (characteristics r) <> "fuzzy") (values db)
  /\ likely_algorithm (generate_hypothesis db) = "exact_match"
  /\ (confidence_score (generate_hypothesis db) == 0.6)%Q.
Proof.
  intros db.
  assert (db ≠ ∅) as Hne by apply insert_non_empty.
  assert (Forall (fun r => matching_type (characteristics r) <> "fuzzy")
            (values db)) as Hall.
  { vm_compute. repeat constructor; discriminate. }
  split; [exact Hne|]. split; [exact Hall|].
  apply (no_fuzzy_sample_is_exact_match db Hne Hall).
Defined.

(** * Further properties of the strings *)

Lemma lower_char_isspace c : PyStr.isspace (PyStr.lower_char c) = PyStr.isspace c.
Proof. destruct c as [[] [] [] [] [] [] [] []]; reflexivity. Qed.

Lemma lower_char_idem c :
  PyStr.lower_char (PyStr.lower_char c) = PyStr.lower_char c.
Proof. destruct c as [[] [] [] [] [] [] [] []]; reflexivity. Qed.

Lemma lower_idem s : PyStr.lower (PyStr.lower s) = PyStr.lower s.
Proof. induction s as [|c s IH]; simpl; [done|]. by rewrite lower_char_idem, IH. Qed.

Lemma lower_app a b : PyStr.lower (a +:+ b) = PyStr.lower a +:+ PyStr.lower b.
Proof. induction a as [|c a IH]; simpl; [done|]. by rewrite IH. Qed.

Lemma is_empty_lower s : PyStr.is_empty (PyStr.lower s) = PyStr.is_empty s.
Proof. by destruct s. Qed.

Lemma any_char_app p a b :
  PyStr.any_char p (a +:+ b) = PyStr.any_char p a || PyStr.any_char p b.
Proof.
  induction a as [|c a IH]; simpl; [done|]. by rewrite IH, orb_assoc.
Qed.

Lemma all_char_app p a b :
  PyStr.all_char p (a +:+ b) = PyStr.all_char p a && PyStr.all_char p b.
Proof.
  induction a as [|c a IH]; simpl; [done|]. by rewrite IH, andb_assoc.
Qed.

Lemma any_space_lower s :
  PyStr.any_char PyStr.isspace (PyStr.lower s) = PyStr.any_char PyStr.isspace s.
Proof.
  induction s as [|c s IH]; simpl; [done|]. by rewrite lower_char_isspace, IH.
Qed.

Lemma split_from_lower s :
  forall cur,
    PyStr.split_from (PyStr.lower cur) (PyStr.lower s)
    = PyStr.lower <$> PyStr.split_from cur s.
Proof.
  induction s as [|c s IH]; intros cur; simpl.
  - rewrite is_empty_lower. by destruct (PyStr.is_empty cur).
  - rewrite lower_char_isspace, is_empty_lower.
    destruct (PyStr.isspace c).
    + destruct (PyStr.is_empty cur); simpl.
      * apply (IH EmptyString).
      * f_equal. apply (IH EmptyString).
    + rewrite <- IH, lower_app. done.
Qed.

Lemma split_lower s : PyStr.split (PyStr.lower s) = PyStr.lower <$> PyStr.split s.
Proof. apply (split_from_lower s EmptyString). Qed.

Lemma split_from_tokens s :
  forall cur,
    PyStr.any_char PyStr.isspace cur = false ->
    Forall (fun t => is_token t = true) (PyStr.split_from cur s).
Proof.
  unfold is_token. induction s as [|c s IH]; intros cur Hcur; simpl.
  - destruct (PyStr.is_empty cur) eqn:E; [constructor|].
    repeat constructor. by rewrite E, Hcur.
  - destruct (PyStr.isspace c) eqn:Ec.
    + destruct (PyStr.is_empty cur) eqn:E.
      * by apply IH.
      * constructor; [by rewrite E, Hcur | by apply IH].
    + apply IH. rewrite any_char_app. simpl. by rewrite Hcur, Ec.
Qed.

Lemma split_tokens s : Forall (fun t => is_token t = true) (PyStr.split s).
Proof. by apply split_from_tokens. Qed.

Lemma split_from_nil s :
  forall cur,
    PyStr.split_from cur s = [] <->
    cur = EmptyString /\ PyStr.all_char PyStr.isspace s = true.
Proof.
  induction s as [|c s IH]; intros cur; simpl.
  - destruct cur; simpl; [done|]. split; [discriminate | intros [? _]; done].
  - destruct (PyStr.isspace c); simpl.
    + destruct cur; simpl.
      * rewrite IH. tauto.
      * split; [discriminate | intros [? _]; done].
    + rewrite IH. split; [|intros [_ ?]; done].
      intros [H _]. by destruct cur.
Qed.

Lemma lower_terms_tokens query t :
  t ∈ lower_terms query -> is_token t = true /\ PyStr.lower t = t.
Proof.
  unfold lower_terms. rewrite elem_of_list_to_set, split_lower.
  intros (t0 & -> & Hin)%list_elem_of_fmap.
  pose proof (split_tokens query) as Hall. rewrite Forall_forall in Hall.
  specialize (Hall t0 Hin). unfold is_token in *.
  rewrite is_empty_lower, any_space_lower, lower_idem. done.
Qed.

Lemma prefix_all_char p needle :
  forall hay,
    String.prefix needle hay = true ->
    PyStr.all_char p hay = true -> PyStr.all_char p needle = true.
Proof.
  induction needle as [|a needle IH]; intros [|b hay]; simpl; try done.
  destruct (ascii_dec a b) as [->|]; [|done].
  intros Hpre [Hb Hhay]%andb_prop. rewrite Hb. simpl. by apply (IH hay).
Qed.

Lemma contains_all_char p needle hay :
  PyStr.contains needle hay = true ->
  PyStr.all_char p hay = true -> PyStr.all_char p needle = true.
Proof.
  induction hay as [|b hay IH]; simpl.
  - rewrite orb_false_r. intros Hpre _. by destruct needle.
  - intros [Hpre|Hin]%orb_prop [Hb Hhay]%andb_prop.
    + apply (prefix_all_char p needle (String b hay) Hpre). simpl.
      by rewrite Hb, Hhay.
    + by apply IH.
Qed.

Lemma all_space_not_special q :
  PyStr.all_char PyStr.isspace q = true ->
  PyStr.any_char (fun c => negb (PyStr.isalnum c) && negb (PyStr.isspace c)) q
  = false.
Proof.
  induction q as [|c q IH]; simpl; [done|].
  intros [Hc Hq]%andb_prop. rewrite Hc, (IH Hq). simpl. by rewrite andb_false_r.
Qed.

(** X7.  [_categorize_query] by the number of whitespace-separated terms:
    it answers ["exact"] exactly for more than two terms and ["partial"]
    exactly for one term, so ["fuzzy"] and ["compound"] are answered for
    two-term queries only; a query without terms is ["general"].  The
    answer is always one of the five category labels. *)
Theorem categorize_by_term_count (query : string) :
  let n := length (PyStr.split query) in
  (_categorize_query query = "exact" <-> 2 < n)
  /\ (_categorize_query query = "partial" <-> n = 1)
  /\ (_categorize_query query = "fuzzy" \/ _categorize_query query = "compound"
      -> n = 2)
  /\ (n = 0 -> _categorize_query query = "general")
  /\ _categorize_query query ∈ category_labels.
Proof.
  intros n. unfold _categorize_query, categories, category_labels.
  cbn [first_category]. fold n.
  assert (n = 0 ->
          PyStr.any_char
            (fun c => negb (PyStr.isalnum c) && negb (PyStr.isspace c)) query
          = false
          /\ PyStr.contains " AND " query || PyStr.contains " OR " query = false)
    as Hzero.
  { intros Hn. apply length_zero_iff_nil in Hn.
    apply split_from_nil in Hn as [_ Hall]. split.
    - by apply all_space_not_special.
    - apply orb_false_intro; apply not_true_is_false; intros H;
        apply (contains_all_char PyStr.isspace _ _ H) in Hall; discriminate. }
  destruct (2 <? n)%nat eqn:E1.
  { apply Nat.ltb_lt in E1. rewrite !elem_of_cons.
    intuition (discriminate || lia || auto). }
  apply Nat.ltb_ge in E1.
  destruct (n =? 1)%nat eqn:E2.
  { apply Nat.eqb_eq in E2. rewrite !elem_of_cons.
    intuition (discriminate || lia || auto). }
  apply Nat.eqb_neq in E2.
  destruct (PyStr.any_char _ query) eqn:E3.
  { rewrite !elem_of_cons. split_and!.
    - intuition (discriminate || lia).
    - intuition (discriminate || lia).
    - intros _. destruct (decide (n = 0)) as [Hn|Hn]; [|lia].
      destruct (Hzero Hn) as [H _]. congruence.
    - intros Hn. destruct (Hzero Hn) as [H _]. congruence.
    - auto. }
  destruct (PyStr.contains " AND " query || PyStr.contains " OR " query) eqn:E4.
  { rewrite !elem_of_cons. split_and!.
    - intuition (discriminate || lia).
    - intuition (discriminate || lia).
    - intros _. destruct (decide (n = 0)) as [Hn|Hn]; [|lia].
      destruct (Hzero Hn) as [_ H]. congruence.
    - intros Hn. destruct (Hzero Hn) as [_ H]. congruence.
    - auto 6. }
  rewrite !elem_of_cons. split_and!.
  - intuition (discriminate || lia).
  - intuition (discriminate || lia).
  - intros [H|H]; discriminate.
  - done.
  - auto 6.
Qed.

Lemma categorize_by_term_count_witness :
  length (PyStr.split "weird!! x") = 2
  /\ _categorize_query "weird!! x" = "fuzzy"
  /\ length (PyStr.split "   ") = 0
  /\ _categorize_query "   " = "general".
Proof.
  split; [reflexivity|]. split; [reflexivity|]. split; [reflexivity|].
  apply (proj1 (proj2 (proj2 (proj2 (categorize_by_term_count "   "))))).
  reflexivity.
Defined.

Lemma live_terms_overlap (query_terms : gset string) terms :
  (forall t, t ∈ query_terms -> is_token t = true) ->
  query_terms ∩ list_to_set (PyStr.lower <$> terms)
  = query_terms ∩ list_to_set (PyStr.lower <$> live_terms terms).
Proof.
  intros Htok. apply set_eq. intros x.
  rewrite !elem_of_intersection, !elem_of_list_to_set, !list_elem_of_fmap.
  unfold live_terms. split.
  - intros [Hx (t & -> & Ht)]. split; [done|]. exists t. split; [done|].
    apply list_elem_of_In, filter_In. split; [apply list_elem_of_In; exact Ht|].
    specialize (Htok _ Hx). unfold is_token in Htok.
    apply andb_prop in Htok as [_ Htok]. by rewrite any_space_lower in Htok.
  - intros [Hx (t & -> & Ht)]. split; [done|]. exists t. split; [done|].
    apply list_elem_of_In, filter_In in Ht as [Ht _].
    apply list_elem_of_In; exact Ht.
Qed.

Lemma first_domain_live ds (query_terms : gset string) :
  (forall t, t ∈ query_terms -> is_token t = true) ->
  first_domain ds query_terms
  = first_domain
      ((fun entry : string * list string => (entry.1, live_terms entry.2)) <$> ds)
      query_terms.
Proof.
  intros Htok. induction ds as [|[domain terms] ds IH]; simpl; [done|].
  by rewrite <- (live_terms_overlap query_terms terms Htok), IH.
Qed.

(** X8.  A seed term that contains whitespace never takes part in domain
    identification, the query being compared token by token: for every
    query [_identify_domain] answers as it would on the catalog without
    those terms, which are "machine learning", "data mining", "big data",
    "social media" and "technical writing". *)
Theorem multiword_seed_terms_are_dead (query : string) :
  _identify_domain query = first_domain live_catalog (lower_terms query)
  /\ dead_terms
     = ["machine learning"; "data mining"; "big data"; "social media";
        "technical writing"].
Proof.
  split; [|reflexivity]. unfold _identify_domain, live_catalog.
  apply first_domain_live. intros t Ht.
  apply lower_terms_tokens in Ht as [Ht _]. exact Ht.
Qed.

(** * Further properties of the strategy *)

Lemma identify_pattern_label query :
  _identify_query_pattern query ∈ pattern_labels
  /\ PyStr.is_empty (_identify_query_pattern query) = false.
Proof.
  unfold _identify_query_pattern, pattern_labels.
  repeat case_match; (split; [|done]); rewrite !elem_of_cons; auto 6.
Qed.

Lemma note_result_found query acc r w :
  note_result query acc r w
  = (Ok (found_in query acc r),
     set_patterns
       (noted_patterns query [r] (successful_patterns (learned_patterns (self w))))
       w).
Proof.
  unfold note_result, found_in, noted_patterns, high_scoring. cbn [existsb].
  destruct (identify_pattern_label query) as [_ Hne].
  destruct (Qltb _ _); cbn [orb andb].
  - unfold mbind, M_bind, get, modify, mret, M_ret. rewrite Hne. cbn [negb andb].
    destruct (bool_decide _); cbn [negb]; [|done].
    by rewrite set_patterns_id.
  - unfold mret, M_ret. by rewrite set_patterns_id.
Qed.

Lemma noted_patterns_step query r rs pats :
  noted_patterns query rs (noted_patterns query [r] pats)
  = noted_patterns query (r :: rs) pats.
Proof.
  unfold noted_patterns, high_scoring. cbn [existsb].
  destruct (Qltb _ _); cbn [orb andb]; [|done].
  destruct (bool_decide (_ ∈ pats)) eqn:E; cbn [negb].
  - rewrite E, !andb_false_r. done.
  - rewrite bool_decide_eq_true_2, andb_false_r; [done|].
    apply elem_of_app. right. left.
Qed.

Lemma for_fold_found query rs :
  forall acc w,
    for_fold rs acc (note_result query) w
    = (Ok (foldl (found_in query) acc rs),
       set_patterns
         (noted_patterns query rs (successful_patterns (learned_patterns (self w))))
         w).
Proof.
  induction rs as [|r rs IH]; intros acc w; cbn [for_fold foldl].
  - unfold mret, M_ret, noted_patterns, high_scoring. cbn [existsb andb].
    by rewrite set_patterns_id.
  - erewrite bind_ok by apply note_result_found.
    rewrite IH. cbn [set_patterns put self with_learned learned_patterns
                     with_successful_patterns successful_patterns].
    by rewrite noted_patterns_step.
Qed.

(** The monadic [analyze_response] leaves the instance as [analyzed] says. *)
Lemma analyze_response_after query rs w :
  after (analyze_response query rs) w = put (analyzed query rs (self w)) w.
Proof.
  unfold after, analyze_response, analyzed, learn.
  destruct rs as [|r rs'].
  - cbn [truthy andb].
    unfold mbind, M_bind, modify, get, mret, M_ret, getitem. cbn [put self].
    cbn [with_learned with_rates domain_weights].
    destruct (dict_get _ _); reflexivity.
  - set (rs := r :: rs').
    change (truthy rs) with true. cbn [andb]. cbv iota.
    unfold mbind, M_bind, modify. cbn [put self].
    rewrite for_fold_found.
    unfold get, set_patterns, mret, M_ret, getitem. cbn [put self].
    cbn [with_learned with_rates with_successful_patterns with_effective
         with_length with_successful_domains with_categories
         learned_patterns best_performing_categories domain_weights
         successful_patterns].
    destruct (bool_decide (_ ∈ best_performing_categories _));
      cbn [negb]; (destruct (dict_get _ _); reflexivity).
Qed.

Lemma run_bind {A B : Type} (m : M A) (f : A -> M B) w :
  (m ≫= f) w
  = match m w with
    | (Ok a, w') => f a w'
    | (Raise e, w') => (Raise e, w')
    | (OutOfFuel, w') => (OutOfFuel, w')
    end.
Proof. reflexivity. Qed.

Lemma generate_next_queries_result fuel previous_results w o w' :
  generate_next_queries fuel previous_results w = (o, w') ->
  self w' = if is_ok o then advanced (self w) else self w.
Proof.
  unfold generate_next_queries, advanced. rewrite run_bind. cbn [get].
  destruct (current_phase (self w)) eqn:Hp.
  - pose proof (reads_domain_exploration fuel w) as Hr. unfold after in Hr.
    rewrite run_bind.
    destruct (_generate_domain_exploration_queries fuel w) as [[qs| |] w1];
      cbn [snd] in Hr; [|by intros [= <- <-]..].
    rewrite run_bind. cbn [modify]. rewrite run_bind. cbn [get put self].
    cbn [with_rounds max_exploration_rounds exploration_rounds].
    rewrite Hr. destruct (_ <=? _)%nat; rewrite run_bind;
      cbn [modify mret M_ret put self]; intros [= <- <-]; cbn [is_ok self];
      rewrite ?Hr; done.
  - pose proof (reads_pattern_exploration w) as Hr. unfold after in Hr.
    rewrite run_bind.
    destruct (_generate_pattern_exploration_queries w) as [[qs| |] w1];
      cbn [snd] in Hr; [|by intros [= <- <-]..].
    rewrite run_bind. cbn [modify]. rewrite run_bind. cbn [get put self].
    cbn [with_rounds max_exploration_rounds exploration_rounds].
    rewrite Hr. destruct (_ <=? _)%nat; rewrite run_bind;
      cbn [modify mret M_ret put self]; intros [= <- <-]; cbn [is_ok self];
      rewrite ?Hr; done.
  - pose proof (reads_optimized w) as Hr. unfold after in Hr.
    intros E. rewrite E in Hr. cbn [snd] in Hr. rewrite Hr.
    by destruct (is_ok o).
Qed.

Lemma generate_next_queries_after fuel previous_results w :
  self (after (generate_next_queries fuel previous_results) w)
  = if is_ok (generate_next_queries fuel previous_results w).1
    then advanced (self w) else self w.
Proof.
  unfold after.
  destruct (generate_next_queries fuel previous_results w) as [o w'] eqn:E.
  by apply generate_next_queries_result in E.
Qed.

(** Induction over the reachable states, on the instance alone *)
Lemma reachable_self_ind (P : Strategy -> Prop) :
  P init ->
  (forall s query rs, P s -> P (analyzed query rs s)) ->
  (forall s, P s -> P (advanced s)) ->
  forall w, reachable w -> P (self w).
Proof.
  intros Hinit Han Hadv w Hw. induction Hw as [tp c|w q rs _ IH|w fuel prev _ IH].
  - exact Hinit.
  - rewrite analyze_response_after. by apply Han.
  - rewrite generate_next_queries_after. destruct (is_ok _); [by apply Hadv|done].
Qed.

Lemma advanced_learned s :
  learned_patterns (advanced s) = learned_patterns s
  /\ query_success_rates (advanced s) = query_success_rates s
  /\ domain_weights (advanced s) = domain_weights s.
Proof. unfold advanced. by repeat case_match. Qed.

(** X9.  In every reachable state [max_exploration_rounds] is 3 and the
    round counter determines the phase: [domain_exploration] below 3
    rounds, [pattern_exploration] from 3 to 5, [optimization] at 6; the
    counter never exceeds 6. *)
Theorem rounds_determine_phase w :
  reachable w ->
  max_exploration_rounds (self w) = 3
  /\ exploration_rounds (self w) <= 6
  /\ (phase_of w = domain_exploration <-> exploration_rounds (self w) < 3)
  /\ (phase_of w = pattern_exploration <-> 3 <= exploration_rounds (self w) < 6)
  /\ (phase_of w = optimization <-> exploration_rounds (self w) = 6).
Proof.
  intros Hw. unfold phase_of.
  assert (rounds_ok (self w)) as [Hmax Hph].
  { apply reachable_self_ind; [| | |exact Hw].
    - split; [reflexivity|]. simpl. lia.
    - intros s q rs H. exact H.
    - intros s [Hmax Hph]. unfold rounds_ok, advanced.
      destruct (current_phase s) eqn:Hp; rewrite Hmax.
      + destruct (_ <=? _)%nat eqn:E; simpl; rewrite ?Hp;
          [apply Nat.leb_le in E | apply Nat.leb_gt in E]; lia.
      + destruct (_ <=? _)%nat eqn:E; simpl; rewrite ?Hp;
          [apply Nat.leb_le in E | apply Nat.leb_gt in E]; lia.
      + rewrite Hp. lia. }
  split; [done|].
  destruct (current_phase (self w)); intuition (discriminate || lia).
Qed.

Lemma rounds_determine_phase_witness :
  reachable world0
  /\ max_exploration_rounds (self world0) = 3
  /\ exploration_rounds (self world0) <= 6
  /\ (phase_of world0 = domain_exploration
      <-> exploration_rounds (self world0) < 3)
  /\ (phase_of world0 = pattern_exploration
      <-> 3 <= exploration_rounds (self world0) < 6)
  /\ (phase_of world0 = optimization <-> exploration_rounds (self world0) = 6).
Proof.
  split; [apply reachable_fresh|].
  apply (rounds_determine_phase world0). apply reachable_fresh.
Defined.

Lemma categorize_label query : _categorize_query query ∈ category_labels.
Proof.
  unfold _categorize_query, categories, category_labels. cbn [first_category].
  repeat case_match; rewrite !elem_of_cons; auto 6.
Qed.

Lemma noted_patterns_cases query rs pats :
  noted_patterns query rs pats = pats
  \/ ((_identify_query_pattern query ∉ pats)
      /\ noted_patterns query rs pats
         = (pats ++ [_identify_query_pattern query])%list).
Proof.
  unfold noted_patterns. destruct (high_scoring rs); [|by left].
  destruct (bool_decide _) eqn:E; [by left|]. right.
  by apply bool_decide_eq_false in E.
Qed.

Lemma NoDup_snoc_fresh {A : Type} (l : list A) x :
  NoDup l -> x ∉ l -> NoDup (l ++ [x]).
Proof.
  intros Hl Hx. apply NoDup_app. split_and!; [done| |apply NoDup_singleton].
  intros y Hy Hy'. apply list_elem_of_singleton in Hy' as ->. done.
Qed.

Lemma learn_lists_ok query rs l : lists_ok l -> lists_ok (learn query rs l).
Proof.
  intros (Hp & Hpl & Hc & Hcl). unfold lists_ok, learn.
  destruct (truthy rs); [|done]. cbn. split_and!.
  - destruct (noted_patterns_cases query rs (successful_patterns l))
      as [->|[Hfresh ->]]; [done|]. by apply NoDup_snoc_fresh.
  - intros p. destruct (noted_patterns_cases query rs (successful_patterns l))
      as [->|[Hfresh ->]]; [apply Hpl|].
    rewrite elem_of_app, list_elem_of_singleton. intros [H| ->]; [by apply Hpl|].
    apply identify_pattern_label.
  - destruct (bool_decide _) eqn:E; [done|].
    apply bool_decide_eq_false in E. by apply NoDup_snoc_fresh.
  - intros c. destruct (bool_decide _); [apply Hcl|].
    rewrite elem_of_app, list_elem_of_singleton. intros [H| ->]; [by apply Hcl|].
    apply categorize_label.
Qed.

Lemma reachable_lists_ok w : reachable w -> lists_ok (learned_patterns (self w)).
Proof.
  intros Hw.
  apply (reachable_self_ind (fun s => lists_ok (learned_patterns s)));
    [| | |exact Hw].
  - unfold lists_ok. cbn. split; [apply NoDup_nil_2|].
    split; [intros x Hx; by apply elem_of_nil in Hx|].
    split; [apply NoDup_nil_2|]. intros x Hx. by apply elem_of_nil in Hx.
  - intros s q rs H. by apply learn_lists_ok.
  - intros s H. by rewrite (proj1 (advanced_learned s)).
Qed.

(** X10.  The lists [successful_patterns] and [best_performing_categories]
    of a reachable state hold no label twice, the first only labels of
    [_identify_query_pattern] and the second only labels of
    [_categorize_query].  An [analyze_response] call keeps what they hold
    and appends at most one label to each; [generate_next_queries] does
    not touch them. *)
Theorem learned_lists_append_only w query rs fuel previous_results :
  reachable w ->
  let l := learned_patterns (self w) in
  let l1 := learned_patterns (self (after (analyze_response query rs) w)) in
  let l2 :=
    learned_patterns
      (self (after (generate_next_queries fuel previous_results) w)) in
  NoDup (successful_patterns l)
  /\ (forall p, p ∈ successful_patterns l -> p ∈ pattern_labels)
  /\ NoDup (best_performing_categories l)
  /\ (forall c, c ∈ best_performing_categories l -> c ∈ category_labels)
  /\ successful_patterns l `prefix_of` successful_patterns l1
  /\ length (successful_patterns l1) <= S (length (successful_patterns l))
  /\ best_performing_categories l `prefix_of` best_performing_categories l1
  /\ length (best_performing_categories l1)
     <= S (length (best_performing_categories l))
  /\ l2 = l.
Proof.
  intros Hw l l1 l2.
  destruct (reachable_lists_ok w Hw) as (H1 & H2 & H3 & H4).
  split; [done|]. split; [done|]. split; [done|]. split; [done|].
  subst l1 l2. rewrite analyze_response_after. cbn [put self analyzed learned_patterns].
  fold l. unfold learn. split_and!.
  - destruct (truthy rs); [|done]. cbn.
    destruct (noted_patterns_cases query rs (successful_patterns l))
      as [->|[_ ->]]; [done | by apply prefix_app_r].
  - destruct (truthy rs); [|cbn; lia]. cbn.
    destruct (noted_patterns_cases query rs (successful_patterns l))
      as [->|[_ ->]]; [lia|]. rewrite length_app. simpl. lia.
  - destruct (truthy rs); [|done]. cbn.
    destruct (bool_decide _); [done | by apply prefix_app_r].
  - destruct (truthy rs); [|cbn; lia]. cbn.
    destruct (bool_decide _); [lia|]. rewrite length_app. simpl. lia.
  - apply generate_next_queries_self.
Qed.

Lemma learned_lists_append_only_witness :
  let w := world0 in
  let l := learned_patterns (self w) in
  let l1 :=
    learned_patterns (self (after (analyze_response "python" [python_hit]) w)) in
  reachable w
  /\ successful_patterns l1 = ["simple"]
  /\ best_performing_categories l1 = ["partial"]
  /\ NoDup (successful_patterns l)
  /\ (forall p, p ∈ successful_patterns l -> p ∈ pattern_labels)
  /\ NoDup (best_performing_categories l)
  /\ (forall c, c ∈ best_performing_categories l -> c ∈ category_labels)
  /\ successful_patterns l `prefix_of` successful_patterns l1
  /\ length (successful_patterns l1) <= S (length (successful_patterns l))
  /\ best_performing_categories l `prefix_of` best_performing_categories l1
  /\ length (best_performing_categories l1)
     <= S (length (best_performing_categories l))
  /\ learned_patterns (self (after (generate_next_queries 5 ∅) w)) = l.
Proof.
  intros w l l1. split; [apply reachable_fresh|].
  split; [vm_compute; reflexivity|]. split; [vm_compute; reflexivity|].
  apply (learned_lists_append_only world0 "python" [python_hit] 5 ∅).
  apply reachable_fresh.
Defined.

Lemma found_terms_from query rs :
  forall acc t,
    t ∈ foldl (found_in query) acc rs -> t ∈ acc \/ t ∈ lower_terms query.
Proof.
  induction rs as [|r rs IH]; intros acc t; cbn [foldl]; [by left|].
  intros [H|H]%IH; [|by right]. unfold found_in in H.
  destruct (Qltb _ _); rewrite ?elem_of_union, elem_of_intersection in H;
    tauto.
Qed.

Lemma clean_terms_shape query t :
  t ∈ clean_terms query ->
  PyStr.str_isalnum t = true /\ PyStr.lower t ∉ logical_operators.
Proof.
  unfold clean_terms. intros H.
  apply list_elem_of_In, filter_In in H as [_ H].
  apply andb_prop in H as [H1 H2]. split; [done|].
  apply negb_true_iff, bool_decide_eq_false in H2. done.
Qed.

Lemma learn_terms_ok query rs l : terms_ok l -> terms_ok (learn query rs l).
Proof.
  intros [He Hi]. unfold terms_ok, learn. destruct (truthy rs); cbn.
  - split; [|done]. intros t [H|H]%elem_of_union; [by apply He|].
    apply found_terms_from in H as [H|H]; [by apply elem_of_empty in H|].
    by apply lower_terms_tokens in H.
  - split; [done|]. intros t [H _]%elem_of_difference.
    apply elem_of_union in H as [H|H]; [by apply Hi|].
    apply elem_of_list_to_set in H. by apply clean_terms_shape in H.
Qed.

(** X11.  In every reachable state each effective term is a non-empty
    lowercase string without whitespace, and each ineffective term is
    alphanumeric and, lowercased, none of "and", "or", "not". *)
Theorem learned_terms_shape w t :
  reachable w ->
  (t ∈ effective_terms (learned_patterns (self w)) ->
   is_token t = true /\ PyStr.lower t = t)
  /\ (t ∈ ineffective_terms (learned_patterns (self w)) ->
      PyStr.str_isalnum t = true /\ PyStr.lower t ∉ logical_operators).
Proof.
  intros Hw.
  assert (terms_ok (learned_patterns (self w))) as [He Hi].
  { apply (reachable_self_ind (fun s => terms_ok (learned_patterns s)));
      [| | |exact Hw].
    - split; intros x Hx; by apply elem_of_empty in Hx.
    - intros s q rs H. by apply learn_terms_ok.
    - intros s H. by rewrite (proj1 (advanced_learned s)). }
  split; [apply He | apply Hi].
Qed.

Lemma learned_terms_shape_witness :
  let w :=
    run_analyses [("Rust AND python", []); ("python", [python_hit])] world0 in
  reachable w
  /\ "python" ∈ effective_terms (learned_patterns (self w))
  /\ "Rust" ∈ ineffective_terms (learned_patterns (self w))
  /\ (is_token "python" = true /\ PyStr.lower "python" = "python")
  /\ (PyStr.str_isalnum "Rust" = true
      /\ PyStr.lower "Rust" ∉ logical_operators).
Proof.
  intros w.
  assert (reachable w) as Hw by apply run_analyses_reachable, reachable_fresh.
  assert ("python" ∈ effective_terms (learned_patterns (self w))) as He.
  { apply (bool_decide_unpack _). vm_compute. exact I. }
  assert ("Rust" ∈ ineffective_terms (learned_patterns (self w))) as Hi.
  { apply (bool_decide_unpack _). vm_compute. exact I. }
  split; [exact Hw|]. split; [exact He|]. split; [exact Hi|].
  split.
  - apply (proj1 (learned_terms_shape w "python" Hw) He).
  - apply (proj2 (learned_terms_shape w "Rust" Hw) Hi).
Defined.

Lemma rate_of_counted_other success rates query_type c :
  c <> query_type ->
  rate_of (counted success query_type rates) c = rate_of rates c.
Proof.
  intros Hne. unfold counted, bump_success, bump_total, rate_of.
  destruct success; by rewrite !lookup_insert_ne.
Qed.

Lemma run_analyses_snoc calls call w :
  run_analyses (calls ++ [call]) w
  = after (analyze_response call.1 call.2) (run_analyses calls w).
Proof. unfold run_analyses. by rewrite foldl_app. Qed.

Lemma count_snoc {A : Type} (p : A -> bool) l x :
  count p (l ++ [x]) = count p l + (if p x then 1 else 0).
Proof.
  unfold count. rewrite List.filter_app, length_app. simpl.
  by destruct (p x).
Qed.

(** X12.  The counters count the calls: after any sequence of
    [analyze_response] calls on a fresh strategy, whether they returned or
    raised, the total of a category is the number of calls whose query is
    of that category, and its success count the number of those that came
    with a non-empty result list. *)
Theorem counters_count_calls (calls : list (string * list Result)) tp c category :
  let w := run_analyses calls (fresh tp c) in
  n_total (rate_in w category)
  = count (fun call => bool_decide (_categorize_query call.1 = category)) calls
  /\ n_success (rate_in w category)
     = count (fun call =>
         bool_decide (_categorize_query call.1 = category) && truthy call.2)
         calls.
Proof.
  cbv zeta. induction calls as [|[q rs] calls IH] using rev_ind.
  - done.
  - rewrite run_analyses_snoc, !count_snoc. cbn [fst snd].
    destruct IH as [IH1 IH2]. unfold rate_in in *.
    rewrite analyze_response_after. cbn [put self analyzed query_success_rates].
    destruct (decide (_categorize_query q = category)) as [<-|Hne].
    + rewrite rate_of_counted, bool_decide_eq_true_2 by done.
      cbn [n_total n_success andb]. rewrite IH1, IH2.
      destruct (truthy rs); lia.
    + rewrite rate_of_counted_other, bool_decide_eq_false_2 by done.
      cbn [andb]. lia.
Qed.

Lemma counted_rates_ok success query_type rates :
  query_type ∈ category_labels ->
  rates_ok rates -> rates_ok (counted success query_type rates).
Proof.
  intros Hlabel Hok c r. destruct (decide (c = query_type)) as [->|Hne].
  - intros Hget.
    assert (rate_of (counted success query_type rates) query_type = r) as Hr.
    { unfold rate_of. by rewrite Hget. }
    rewrite rate_of_counted in Hr. subst r. cbn [n_success n_total].
    split; [done|].
    unfold rate_of. destruct (rates !! query_type) as [r0|] eqn:E.
    + destruct (Hok _ _ E) as (_ & H1 & H2). cbn [default id].
      destruct success; split; lia.
    + cbn [default id n_success n_total]. destruct success; split; lia.
  - unfold counted, bump_success, bump_total.
    destruct success; rewrite !lookup_insert_ne by done; apply Hok.
Qed.

(** X13.  In every reachable state each entry of [query_success_rates] is
    for one of the five category labels, has been counted at least once
    and has no more successes than queries. *)
Theorem success_rates_sound w category r :
  reachable w ->
  query_success_rates (self w) !! category = Some r ->
  category ∈ category_labels /\ n_success r <= n_total r /\ 0 < n_total r.
Proof.
  intros Hw. revert category r.
  apply (reachable_self_ind (fun s => rates_ok (query_success_rates s)));
    [| | |exact Hw].
  - intros c r H. unfold init in H. cbn [query_success_rates] in H.
    by rewrite lookup_empty in H.
  - intros s q rs H. apply counted_rates_ok; [apply categorize_label | done].
  - intros s H. by rewrite (proj1 (proj2 (advanced_learned s))).
Qed.

Lemma success_rates_sound_witness :
  let w := after (analyze_response "python" [python_hit]) world0 in
  reachable w
  /\ query_success_rates (self w) !! "partial"
     = Some {| n_success := 1; n_total := 1 |}
  /\ "partial" ∈ category_labels /\ 1 <= 1 /\ 0 < 1.
Proof.
  intros w.
  assert (reachable w) as Hw by (constructor; apply reachable_fresh).
  assert (query_success_rates (self w) !! "partial"
          = Some {| n_success := 1; n_total := 1 |}) as Hget
    by (vm_compute; reflexivity).
  split; [exact Hw|]. split; [exact Hget|].
  apply (success_rates_sound w "partial" _ Hw Hget).
Defined.

Lemma reachable_length_nonneg w :
  reachable w -> (0 <= optimal_query_length (learned_patterns (self w)))%Q.
Proof.
  intros Hw.
  apply (reachable_self_ind
           (fun s => (0 <= optimal_query_length (learned_patterns s))%Q));
    [| | |exact Hw].
  - cbn. lra.
  - intros s q rs H. cbn [analyzed learned_patterns]. unfold learn.
    destruct (truthy rs); cbn [optimal_query_length]; [|exact H].
    pose proof (of_nat_nonneg (length (PyStr.split q))). lra.
  - intros s H. by rewrite (proj1 (advanced_learned s)).
Qed.

(** X14.  [optimal_query_length] is never negative.  It starts at 0; a
    call of [analyze_response] with an empty result list leaves it as it
    was, and a call with results brings it to at least 0.2 times the
    number of terms of the query. *)
Theorem optimal_query_length_nonnegative w query rs :
  reachable w ->
  let l := learned_patterns (self w) in
  let l' := learned_patterns (self (after (analyze_response query rs) w)) in
  (0 <= optimal_query_length l)%Q
  /\ (rs = [] -> optimal_query_length l' = optimal_query_length l)
  /\ (rs <> [] ->
      (of_nat (length (PyStr.split query)) * 0.2 <= optimal_query_length l')%Q).
Proof.
  intros Hw l l'. subst l l'.
  pose proof (reachable_length_nonneg w Hw) as H0.
  rewrite analyze_response_after. cbn [put self analyzed learned_patterns].
  unfold learn. split; [exact H0|]. split.
  - intros ->. reflexivity.
  - intros Hne. destruct rs as [|r rs]; [done|].
    cbn [truthy optimal_query_length]. lra.
Qed.

Lemma optimal_query_length_nonnegative_witness :
  let hit := after (analyze_response "learn python" [python_hit]) world0 in
  let miss := after (analyze_response "learn python" []) world0 in
  reachable world0
  /\ [python_hit] <> []
  /\ (0 <= optimal_query_length (learned_patterns (self world0)))%Q
  /\ optimal_query_length (learned_patterns (self miss))
     = optimal_query_length (learned_patterns (self world0))
  /\ (of_nat (length (PyStr.split "learn python")) * 0.2
      <= optimal_query_length (learned_patterns (self hit)))%Q.
Proof.
  intros hit miss.
  assert (reachable world0) as Hw by apply reachable_fresh.
  assert ([python_hit] <> []) as Hne by discriminate.
  destruct (optimal_query_length_nonnegative world0 "learn python"
              [python_hit] Hw) as (H1 & _ & H3).
  destruct (optimal_query_length_nonnegative world0 "learn python" [] Hw)
    as (_ & H2 & _).
  split; [exact Hw|]. split; [exact Hne|]. split; [exact H1|].
  split; [exact (H2 eq_refl) | exact (H3 Hne)].
Defined.

(** * Further properties of the generators *)

Lemma random_random_run w :
  exists r w',
    random_random w = (Ok r, w') /\ (r < 1)%Q /\ self w' = self w.
Proof.
  unfold random_random. rewrite run_bind. cbn [draw mret M_ret].
  do 2 eexists. split; [reflexivity|]. split; [|done].
  unfold Qlt. cbn [Qnum Qden].
  pose proof (N.mod_upper_bound (tape w (cursor w)) (2 ^ 53)%N) as H.
  assert (2 ^ 53 <> 0)%N as Hnz by done. specialize (H Hnz).
  rewrite Z.mul_1_r, Z.mul_1_l.
  change (Z.pos (2 ^ 53)) with (Z.of_N (2 ^ 53)). lia.
Qed.

Lemma select_weighted_run weighted_domains :
  forall selected w,
    exists extra w',
      select_weighted weighted_domains selected w
      = (Ok (selected ++ extra)%list, w')
      /\ extra `sublist_of` keys weighted_domains
      /\ self w' = self w
      /\ (length selected < 3 -> length (selected ++ extra) <= 3)
      /\ (3 <= length selected + count certain weighted_domains ->
          3 <= length (selected ++ extra)).
Proof.
  unfold keys.
  induction weighted_domains as [|[domain weight] rest IH]; intros selected w.
  - exists [], w. cbn [select_weighted mret M_ret]. rewrite app_nil_r.
    split; [done|]. split; [done|]. split; [done|].
    unfold count. simpl. split; lia.
  - cbn [select_weighted]. rewrite run_bind.
    destruct (random_random_run w) as (r & w1 & -> & Hr & Hself1).
    unfold count in *. cbn [List.filter fmap list_fmap fst].
    destruct (Qltb r weight) eqn:Eacc.
    + destruct (3 <=? length (selected ++ [domain]))%nat eqn:Efull.
      * apply Nat.leb_le in Efull. exists [domain], w1.
        cbn [mret M_ret]. split; [done|].
        split; [apply sublist_skip, sublist_nil_l|]. split; [done|].
        rewrite length_app in *. cbn [length] in *. split; lia.
      * apply Nat.leb_gt in Efull.
        destruct (IH (selected ++ [domain])%list w1)
          as (extra & w' & -> & Hsub & Hself & Hlen & Hcnt).
        exists (domain :: extra), w'. rewrite <- app_assoc. cbn [app].
        split; [done|]. split; [by apply sublist_skip|].
        split; [congruence|].
        rewrite length_app in *. cbn [length] in *.
        rewrite !length_app in *. cbn [length] in *.
        split; [lia|]. intros H.
        assert (3 <= length selected + 1 + length (List.filter certain rest))
          as H'; [|specialize (Hcnt H'); lia].
        destruct (certain (domain, weight)); cbn [length] in H; lia.
    + assert (certain (domain, weight) = false) as ->.
      { unfold certain. cbn [snd]. apply not_true_is_false. intros H.
        apply Qle_bool_iff in H. apply Qltb_false in Eacc. lra. }
      destruct (IH selected w1) as (extra & w' & -> & Hsub & Hself & Hlen & Hcnt).
      exists extra, w'. split; [done|]. split; [by apply sublist_cons|].
      split; [congruence|]. split; [done|]. exact Hcnt.
Qed.

Lemma keys_domains_nonempty : keys domains <> [].
Proof. discriminate. Qed.

Lemma fill_randomly_run fuel :
  forall selected w,
    exists o w',
      fill_randomly fuel selected w = (o, w')
      /\ self w' = self w
      /\ match o with
         | Ok selected' =>
             3 <= length selected'
             /\ (length selected <= 3 -> length selected' = 3)
             /\ (3 <= length selected -> selected' = selected)
             /\ (NoDup selected -> NoDup selected')
             /\ (forall x, x ∈ selected' -> x ∈ selected \/ x ∈ keys domains)
         | Raise _ => False
         | OutOfFuel => length selected < 3
         end.
Proof.
  induction fuel as [|fuel IH]; intros selected w; cbn [fill_randomly].
  - destruct (length selected <? 3)%nat eqn:E.
    + apply Nat.ltb_lt in E. exists OutOfFuel, w. by cbn.
    + apply Nat.ltb_ge in E. exists (Ok selected), w. cbn [mret M_ret].
      split; [done|]. split; [done|]. split_and!; try done; try lia.
      intros x Hx. by left.
  - destruct (length selected <? 3)%nat eqn:E.
    + apply Nat.ltb_lt in E. rewrite run_bind.
      destruct (random_choice_run (keys domains) w keys_domains_nonempty)
        as (domain & w1 & -> & Hin & Hself1).
      destruct (bool_decide (domain ∈ selected)) eqn:Edup.
      * destruct (IH selected w1) as (o & w' & -> & Hself & Ho).
        exists o, w'. split; [done|]. split; [congruence|]. exact Ho.
      * apply bool_decide_eq_false in Edup.
        destruct (IH (selected ++ [domain])%list w1) as (o & w' & -> & Hself & Ho).
        exists o, w'. split; [done|]. split; [congruence|].
        destruct o as [selected'| |]; [|done|lia].
        destruct Ho as (H1 & H2 & H3 & H4 & H5).
        rewrite length_app in *. cbn [length] in *.
        split_and!; [done|intros; apply H2; lia|lia| |].
        -- intros Hnd. apply H4. by apply NoDup_snoc_fresh.
        -- intros x Hx. apply H5 in Hx as [Hx|Hx]; [|by right].
           apply elem_of_app in Hx as [Hx|Hx]; [by left|].
           apply list_elem_of_singleton in Hx as ->. by right.
    + apply Nat.ltb_ge in E. exists (Ok selected), w. cbn [mret M_ret].
      split; [done|]. split; [done|]. split_and!; try done; try lia.
      intros x Hx. by left.
Qed.

Lemma for_fold_appends {A B : Type} (P : A -> B -> Prop)
  (body : list B -> A -> M (list B)) (l : list A) :
  (forall acc x w, x ∈ l ->
     exists q w', body acc x w = (Ok (acc ++ [q])%list, w') /\ P x q) ->
  forall acc w,
    exists qs w',
      for_fold l acc body w = (Ok (acc ++ qs)%list, w') /\ Forall2 P l qs.
Proof.
  induction l as [|x l IH]; intros Hbody acc w; cbn [for_fold].
  - exists [], w. cbn [mret M_ret]. by rewrite app_nil_r.
  - destruct (Hbody acc x w) as (q & w1 & E & Hq); [left|].
    rewrite run_bind, E.
    destruct (IH (fun acc x w Hx => Hbody acc x w (list_elem_of_further _ _ _ Hx))
                (acc ++ [q])%list w1) as (qs & w' & -> & Hqs).
    exists (q :: qs), w'. rewrite <- app_assoc. split; [done|].
    by constructor.
Qed.

Lemma insert_by_weight_perm x l : insert_by_weight x l ≡ₚ x :: l.
Proof.
  induction l as [|y l IH]; cbn [insert_by_weight]; [done|].
  destruct (Qltb x.2 y.2); [|done]. rewrite IH. apply Permutation_swap.
Qed.

Lemma sorted_by_weight_perm items : sorted_by_weight items ≡ₚ items.
Proof.
  unfold sorted_by_weight. induction items as [|x l IH]; cbn [foldr]; [done|].
  by rewrite insert_by_weight_perm, IH.
Qed.

Lemma count_insert_by_weight p x l :
  count p (insert_by_weight x l) = count p (x :: l).
Proof.
  unfold count. induction l as [|y l IH]; cbn [insert_by_weight]; [done|].
  destruct (Qltb x.2 y.2); [|done]. cbn [List.filter] in *.
  destruct (p y), (p x); cbn [length] in *; lia.
Qed.

Lemma count_sorted_by_weight p items :
  count p (sorted_by_weight items) = count p items.
Proof.
  unfold sorted_by_weight. induction items as [|x l IH]; cbn [foldr]; [done|].
  rewrite count_insert_by_weight. unfold count in *. cbn [List.filter].
  destruct (p x); cbn [length]; lia.
Qed.

Lemma keys_domains_NoDup : NoDup (keys domains).
Proof. apply (bool_decide_unpack _). vm_compute. exact I. Qed.

Lemma seed_query_body queries domain w :
  domain ∈ keys domains ->
  exists q w',
    (terms ← getitem domains domain;
     term ← random_choice terms;
     mret (queries ++
       [{| q_query := term; q_type := "domain_exploration";
           q_description := "Testing " +:+ domain +:+ " domain";
           q_domain := domain |}])%list) w
    = (Ok (queries ++ [q])%list, w')
    /\ (q_domain q = domain /\ seed_query q).
Proof.
  intros Hin. apply dict_get_is_Some in Hin as [terms Hterms].
  rewrite run_bind. unfold getitem. rewrite Hterms. cbn [mret M_ret].
  rewrite run_bind.
  destruct (random_choice_run terms w (catalog_terms_nonempty _ _ Hterms))
    as (term & w' & -> & Hterm & _).
  cbn [mret M_ret]. do 2 eexists. split; [reflexivity|].
  unfold seed_query. cbn. split; [done|]. split; [done|]. split; [done|].
  by exists terms.
Qed.

Lemma generate_next_queries_outcome fuel previous_results w :
  (generate_next_queries fuel previous_results w).1
  = match phase_of w with
    | domain_exploration => (_generate_domain_exploration_queries fuel w).1
    | pattern_exploration => (_generate_pattern_exploration_queries w).1
    | optimization => (_generate_optimized_queries w).1
    end.
Proof.
  unfold generate_next_queries, phase_of. rewrite run_bind. cbn [get].
  destruct (current_phase (self w)); [| |done].
  - rewrite run_bind.
    destruct (_generate_domain_exploration_queries fuel w) as [[qs| |] w1];
      [|done..].
    rewrite run_bind. cbn [modify]. rewrite run_bind. cbn [get].
    destruct (_ <=? _)%nat; by rewrite run_bind.
  - rewrite run_bind.
    destruct (_generate_pattern_exploration_queries w) as [[qs| |] w1];
      [|done..].
    rewrite run_bind. cbn [modify]. rewrite run_bind. cbn [get].
    destruct (_ <=? _)%nat; by rewrite run_bind.
Qed.

(** The domain-exploration generator in a state whose weights are those of
    the catalog domains *)
Lemma domain_exploration_run fuel w :
  keys (domain_weights (self w)) = keys domains ->
  match (_generate_domain_exploration_queries fuel w).1 with
  | Ok queries =>
      length queries = 3
      /\ NoDup (q_domain <$> queries)
      /\ Forall seed_query queries
  | Raise _ => False
  | OutOfFuel => count certain (domain_weights (self w)) < 3
  end.
Proof.
  intros Hkeys. unfold _generate_domain_exploration_queries.
  rewrite run_bind. cbn [get].
  set (sorted := sorted_by_weight (domain_weights (self w))).
  assert (keys sorted ≡ₚ keys domains) as Hperm.
  { rewrite <- Hkeys. unfold keys, sorted. by rewrite sorted_by_weight_perm. }
  rewrite run_bind.
  destruct (select_weighted_run sorted [] w)
    as (sel & w1 & -> & Hsub & Hself1 & Hlen & Hcnt).
  cbn [app length] in *. rewrite run_bind.
  destruct (fill_randomly_run fuel sel w1) as (o & w2 & -> & Hself2 & Ho).
  assert (NoDup sel) as Hnd.
  { apply (sublist_NoDup sel (keys sorted)); [|exact Hsub]. rewrite Hperm.
    apply keys_domains_NoDup. }
  assert (forall x, x ∈ sel -> x ∈ keys domains) as Hsel.
  { intros x Hx. rewrite <- Hperm. by apply (elem_of_sublist sel (keys sorted) x Hx Hsub). }
  destruct o as [sel'| |]; cbn [fst]; [|done|].
  - destruct Ho as (H1 & H2 & _ & H4 & H5).
    specialize (H2 (Hlen ltac:(lia))). specialize (H4 Hnd).
    assert (forall acc x w0, x ∈ sel' ->
              exists q w',
                (terms ← getitem domains x;
                 term ← random_choice terms;
                 mret (acc ++
                   [{| q_query := term; q_type := "domain_exploration";
                       q_description := "Testing " +:+ x +:+ " domain";
                       q_domain := x |}])%list) w0
                = (Ok (acc ++ [q])%list, w')
                /\ (q_domain q = x /\ seed_query q)) as Hbody.
    { intros acc x w0 Hx. apply seed_query_body.
      apply H5 in Hx as [Hx|Hx]; [by apply Hsel | done]. }
    destruct (for_fold_appends
                (fun domain q => q_domain q = domain /\ seed_query q)
                (fun queries domain =>
                   terms ← getitem domains domain;
                   term ← random_choice terms;
                   mret (queries ++
                     [{| q_query := term; q_type := "domain_exploration";
                         q_description := "Testing " +:+ domain +:+ " domain";
                         q_domain := domain |}])%list)
                sel' Hbody [] w2) as (qs & w3 & -> & Hqs).
    cbn [fst app]. split_and!.
    + apply Forall2_length in Hqs. lia.
    + assert (q_domain <$> qs = sel') as ->; [|done].
      clear -Hqs. induction Hqs as [|x q l qs [Hq _] _ IH]; [done|].
      cbn. by rewrite Hq, IH.
    + clear -Hqs. induction Hqs as [|x q l qs [_ Hq] _ IH]; by constructor.
  - unfold sorted in Hcnt. rewrite count_sorted_by_weight in Hcnt. lia.
Qed.

(** X15.  In the domain-exploration phase of a reachable state
    [generate_next_queries] never raises.  When it returns, the batch has
    exactly three queries, for three different domains, each query being a
    seed term of its domain.  The [while] loop can only fail to end when
    fewer than three weights are at least 1.0: with three such weights the
    call returns whatever is drawn, even without fuel. *)
Theorem domain_exploration_batch w fuel previous_results :
  reachable w ->
  phase_of w = domain_exploration ->
  match (generate_next_queries fuel previous_results w).1 with
  | Ok queries =>
      length queries = 3
      /\ NoDup (q_domain <$> queries)
      /\ Forall seed_query queries
  | Raise _ => False
  | OutOfFuel => count certain (domain_weights (self w)) < 3
  end.
Proof.
  intros Hw Hphase. rewrite generate_next_queries_outcome, Hphase.
  apply domain_exploration_run. by apply reachable_weights_ok in Hw as [? _].
Qed.

Lemma domain_exploration_batch_witness :
  reachable world0
  /\ phase_of world0 = domain_exploration
  /\ match (generate_next_queries 0 ∅ world0).1 with
     | Ok queries =>
         length queries = 3
         /\ NoDup (q_domain <$> queries)
         /\ Forall seed_query queries
     | Raise _ => False
     | OutOfFuel => count certain (domain_weights (self world0)) < 3
     end.
Proof.
  split; [apply reachable_fresh|]. split; [reflexivity|].
  apply (domain_exploration_batch world0 0 ∅).
  - apply reachable_fresh.
  - reflexivity.
Defined.




Lemma remove_at_delete {A : Type} (l : list A) :
  forall i, remove_at i l = delete i l.
Proof.
  induction l as [|x l IH]; intros [|i]; cbn; try done. by rewrite IH.
Qed.

Lemma nth_not_in_remove_at {A : Type} (l : list A) d :
  NoDup l -> forall i, i < length l -> nth i l d ∉ remove_at i l.
Proof.
  induction 1 as [|x l Hx Hl IH]; intros [|i] Hi; cbn in *; try lia.
  - done.
  - rewrite not_elem_of_cons. split.
    + intros Heq. apply Hx. rewrite <- Heq. apply list_elem_of_In, nth_In. lia.
    + apply IH. lia.
Qed.

Lemma random_sample_distinct {A : Type} k :
  forall (population : list A) w,
    k <= length population ->
    NoDup population ->
    exists xs w',
      random_sample population k w = (Ok xs, w')
      /\ length xs = k /\ NoDup xs
      /\ (forall x, x ∈ xs -> x ∈ population).
Proof.
  induction k as [|k IH]; intros population w Hk Hnd; cbn [random_sample].
  - exists [], w. split_and!; [done..|apply NoDup_nil_2|].
    intros x Hx. by apply elem_of_nil in Hx.
  - destruct population as [|x l]; [simpl in Hk; lia|].
    rewrite run_bind. cbn [draw].
    set (i := N.to_nat _ mod _).
    set (w1 := {| self := self w; tape := tape w; cursor := S (cursor w) |}).
    assert (i < length (x :: l)) as Hi.
    { apply Nat.mod_upper_bound. simpl. lia. }
    destruct (IH (remove_at i (x :: l)) w1) as (xs & w' & E & Hlen & Hxs & Hsub).
    { rewrite remove_at_length by done. simpl in *. lia. }
    { rewrite remove_at_delete. apply (sublist_NoDup _ (x :: l)); [done|].
      apply sublist_delete. }
    rewrite run_bind, E. cbn [mret M_ret]. do 2 eexists.
    split; [reflexivity|]. split_and!.
    + cbn [length]. by rewrite Hlen.
    + constructor; [|done]. intros Hin. apply Hsub in Hin.
      by apply (nth_not_in_remove_at (x :: l) x Hnd i Hi).
    + intros y. rewrite elem_of_cons. intros [->|Hy].
      * by apply list_elem_of_In, nth_In.
      * eapply elem_of_remove_at. by apply Hsub.
Qed.

Lemma pattern_func_run k (f : string -> M string) term w :
  (k, f) ∈ query_patterns ->
  exists q w', f term w = (Ok q, w').
Proof.
  unfold query_patterns. rewrite !elem_of_cons, elem_of_nil.
  intros H.
  repeat (destruct H as [[= _ ->]|H];
          [first [ by do 2 eexists
                 | rewrite run_bind;
                   match goal with
                   | |- context [random_choice ?l w] =>
                       destruct (random_choice_run l w) as (x & w' & -> & _);
                       [discriminate | by do 2 eexists]
                   end ]|]).
  done.
Qed.

Lemma keys_query_patterns_lookup k :
  k ∈ keys query_patterns ->
  exists f, dict_get k query_patterns = Some f /\ (k, f) ∈ query_patterns.
Proof.
  intros [f Hf]%dict_get_is_Some. exists f. split; [done|].
  by apply dict_get_Some.
Qed.

Lemma domains_to_probe_catalog s :
  (forall d, d ∈ successful_domains (learned_patterns s) -> d ∈ keys domains) ->
  forall d, d ∈ domains_to_probe s -> d ∈ keys domains.
Proof.
  intros H d. unfold domains_to_probe. destruct (nonempty _); [apply H|].
  by rewrite elem_of_list_to_set.
Qed.

Lemma sample_size_bounds (probe : gset string) :
  probe ≠ ∅ ->
  Nat.min 2 (size probe) <= length (elements probe)
  /\ 1 <= Nat.min 2 (size probe) <= 2.
Proof.
  intros Hne.
  assert (size probe <> 0) as Hsize.
  { apply size_non_empty_iff. intros Heq. by apply leibniz_equiv in Heq. }
  assert (length (elements probe) = size probe) as Hel by reflexivity. lia.
Qed.

Lemma Forall2_fmap_eq {A B : Type} (f : B -> A) (P : B -> Prop) l qs :
  Forall2 (fun x q => f q = x /\ P q) l qs -> f <$> qs = l /\ Forall P qs.
Proof.
  induction 1 as [|x q l qs [Hq HP] _ [IH1 IH2]]; [done|].
  split; [cbn; by rewrite Hq, IH1 | by constructor].
Qed.

Lemma pattern_exploration_run w :
  (forall d, d ∈ successful_domains (learned_patterns (self w)) ->
     d ∈ keys domains) ->
  exists queries w',
    _generate_pattern_exploration_queries w = (Ok queries, w')
    /\ length queries = Nat.min 2 (size (domains_to_probe (self w)))
    /\ NoDup (q_domain <$> queries)
    /\ Forall (fun q =>
         pattern_query (domains_to_probe (self w)) q
         /\ q_type q ∈ keys query_patterns
         /\ built_by_pattern q) queries.
Proof.
  intros Hsd. unfold _generate_pattern_exploration_queries.
  rewrite run_bind. cbn [get]. set (probe := domains_to_probe (self w)).
  destruct (sample_size_bounds probe (domains_to_probe_nonempty (self w)))
    as [Hk _].
  destruct (random_sample_distinct (Nat.min 2 (size probe)) (elements probe) w
              Hk (NoDup_elements probe)) as (xs & w1 & E & Hlen & Hnd & Hsub).
  rewrite run_bind, E.
  assert (forall acc x w0, x ∈ xs ->
            exists q w',
              (terms ← getitem domains x;
               term ← random_choice terms;
               pattern_type ← random_choice (keys query_patterns);
               pattern_func ← getitem query_patterns pattern_type;
               q ← pattern_func term;
               mret (acc ++
                 [{| q_query := q; q_type := pattern_type;
                     q_description :=
                       "Testing " +:+ pattern_type +:+ " pattern in " +:+ x;
                     q_domain := x |}])%list) w0
              = (Ok (acc ++ [q])%list, w')
              /\ (q_domain q = x
                  /\ (pattern_query probe q
                      /\ q_type q ∈ keys query_patterns
                      /\ built_by_pattern q)))
    as Hbody.
  { intros acc x w0 Hx. apply Hsub, elem_of_elements in Hx.
    pose proof (domains_to_probe_catalog (self w) Hsd x Hx) as Hcat.
    apply dict_get_is_Some in Hcat as Hterms. destruct Hterms as [terms Hterms].
    rewrite run_bind. unfold getitem at 1. rewrite Hterms. cbn [mret M_ret].
    rewrite run_bind.
    destruct (random_choice_run terms w0 (catalog_terms_nonempty _ _ Hterms))
      as (term & w2 & -> & Hterm & _).
    rewrite run_bind.
    destruct (random_choice_run (keys query_patterns) w2)
      as (pattern_type & w3 & -> & Hpt & _); [discriminate|].
    destruct (keys_query_patterns_lookup _ Hpt) as (f & Hf & Hin).
    rewrite run_bind. unfold getitem. rewrite Hf. cbn [mret M_ret].
    rewrite run_bind.
    destruct (pattern_func_run _ f term w3 Hin) as (q & w4 & Hq).
    rewrite Hq.
    do 2 eexists. split; [reflexivity|].
    split; [reflexivity|]. split; [done|]. split; [done|].
    split; [reflexivity|]. by exists terms, term, f, w3, w4. }
  destruct (for_fold_appends
              (fun x q =>
                 q_domain q = x
                 /\ (pattern_query probe q
                     /\ q_type q ∈ keys query_patterns
                     /\ built_by_pattern q))
              (fun queries domain =>
                 terms ← getitem domains domain;
                 term ← random_choice terms;
                 pattern_type ← random_choice (keys query_patterns);
                 pattern_func ← getitem query_patterns pattern_type;
                 q ← pattern_func term;
                 mret (queries ++
                   [{| q_query := q; q_type := pattern_type;
                       q_description :=
                         "Testing " +:+ pattern_type +:+ " pattern in " +:+ domain;
                       q_domain := domain |}])%list)
              xs Hbody [] w1) as (qs & w2 & -> & Hqs).
  exists qs, w2. cbn [app]. split; [done|].
  pose proof (Forall2_length _ _ _ Hqs) as Hl.
  apply Forall2_fmap_eq in Hqs as [Hd Hall].
  split; [lia|]. split; [by rewrite Hd | done].
Qed.

Lemma generate_returns fuel previous_results w queries w1 :
  match phase_of w with
  | domain_exploration => _generate_domain_exploration_queries fuel w
  | pattern_exploration => _generate_pattern_exploration_queries w
  | optimization => _generate_optimized_queries w
  end = (Ok queries, w1) ->
  exists w',
    generate_next_queries fuel previous_results w = (Ok queries, w').
Proof.
  intros E.
  pose proof (generate_next_queries_outcome fuel previous_results w) as H.
  destruct (generate_next_queries fuel previous_results w) as [o w'].
  exists w'. cbn [fst] in H. rewrite H.
  destruct (phase_of w); by rewrite E.
Qed.

(** X17.  In the pattern-exploration phase, when [successful_domains]
    holds catalog domains only, [generate_next_queries] returns whatever is
    drawn and needs no fuel: one query if exactly one domain has succeeded
    so far, two otherwise, for different domains taken from
    [successful_domains] (from the whole catalog while that set is empty).
    The type of each query is a key of [query_patterns], and its text is
    what the pattern function under that key returns on a seed term of the
    query's domain. *)
Theorem pattern_exploration_batch w fuel previous_results :
  phase_of w = pattern_exploration ->
  (forall d, d ∈ successful_domains (learned_patterns (self w)) ->
     d ∈ keys domains) ->
  exists queries w',
    generate_next_queries fuel previous_results w = (Ok queries, w')
    /\ length queries = Nat.min 2 (size (domains_to_probe (self w)))
    /\ 1 <= length queries <= 2
    /\ NoDup (q_domain <$> queries)
    /\ Forall (fun q =>
         pattern_query (domains_to_probe (self w)) q
         /\ q_type q ∈ keys query_patterns
         /\ built_by_pattern q) queries.
Proof.
  intros Hphase Hsd.
  destruct (pattern_exploration_run w Hsd) as (qs & w1 & E & Hlen & Hnd & Hall).
  destruct (generate_returns fuel previous_results w qs w1) as [w' E'].
  { by rewrite Hphase. }
  exists qs, w'. split; [done|]. split; [done|].
  pose proof (sample_size_bounds _ (domains_to_probe_nonempty (self w))) as [_ H].
  split; [lia|]. done.
Qed.

Lemma pattern_exploration_batch_witness :
  let w := run_generates (replicate 3 (0, ∅)) world0 in
  phase_of w = pattern_exploration
  /\ (forall d, d ∈ successful_domains (learned_patterns (self w)) ->
        d ∈ keys domains)
  /\ exists queries w',
      generate_next_queries 0 ∅ w = (Ok queries, w')
      /\ length queries = Nat.min 2 (size (domains_to_probe (self w)))
      /\ 1 <= length queries <= 2
      /\ NoDup (q_domain <$> queries)
      /\ Forall (fun q =>
           pattern_query (domains_to_probe (self w)) q
           /\ q_type q ∈ keys query_patterns
           /\ built_by_pattern q) queries.
Proof.
  intros w.
  assert (phase_of w = pattern_exploration) as Hphase
    by (vm_compute; reflexivity).
  assert (successful_domains (learned_patterns (self w)) = ∅) as Hempty.
  { apply (bool_decide_unpack _). vm_compute. exact I. }
  assert (forall d, d ∈ successful_domains (learned_patterns (self w)) ->
            d ∈ keys domains) as Hsd.
  { intros d Hd. rewrite Hempty in Hd. apply elem_of_empty in Hd.
    destruct Hd. }
  split; [exact Hphase|]. split; [exact Hsd|].
  exact (pattern_exploration_batch w 0 ∅ Hphase Hsd).
Defined.

Lemma optimized_run w :
  let pats := successful_patterns (learned_patterns (self w)) in
  (forall d, d ∈ successful_domains (learned_patterns (self w)) ->
     d ∈ keys domains) ->
  (forall p, p ∈ pats -> p ∈ keys query_patterns) ->
  exists queries w',
    _generate_optimized_queries w = (Ok queries, w')
    /\ length queries = Nat.min 2 (size (domains_to_probe (self w)))
    /\ NoDup (q_domain <$> queries)
    /\ Forall (fun q =>
         pattern_query (domains_to_probe (self w)) q
         /\ q_type q = "optimized") queries.
Proof.
  intros pats Hsd Hpats. unfold _generate_optimized_queries.
  rewrite run_bind. cbn [get]. fold pats.
  set (choices := if truthy pats then pats else keys query_patterns).
  assert (choices <> [] /\ forall p, p ∈ choices -> p ∈ keys query_patterns)
    as [Hne Hkeys].
  { unfold choices. destruct pats; cbn [truthy]; [|done].
    split; [discriminate | done]. }
  set (probe := domains_to_probe (self w)).
  destruct (sample_size_bounds probe (domains_to_probe_nonempty (self w)))
    as [Hk _].
  destruct (random_sample_distinct (Nat.min 2 (size probe)) (elements probe) w
              Hk (NoDup_elements probe)) as (xs & w1 & E & Hlen & Hnd & Hsub).
  rewrite run_bind, E.
  assert (forall acc x w0, x ∈ xs ->
            exists q w',
              (pattern_type ← random_choice choices;
               terms ← getitem domains x;
               term ← random_choice terms;
               pattern_func ← getitem query_patterns pattern_type;
               q ← pattern_func term;
               mret (acc ++
                 [{| q_query := q; q_type := "optimized";
                     q_description :=
                       "Optimized " +:+ pattern_type +:+ " query for " +:+ x;
                     q_domain := x |}])%list) w0
              = (Ok (acc ++ [q])%list, w')
              /\ (q_domain q = x
                  /\ (pattern_query probe q /\ q_type q = "optimized")))
    as Hbody.
  { intros acc x w0 Hx. apply Hsub, elem_of_elements in Hx.
    pose proof (domains_to_probe_catalog (self w) Hsd x Hx) as Hcat.
    apply dict_get_is_Some in Hcat as Hterms. destruct Hterms as [terms Hterms].
    rewrite run_bind.
    destruct (random_choice_run choices w0 Hne)
      as (pattern_type & w2 & -> & Hpt & _).
    rewrite run_bind. unfold getitem at 1. rewrite Hterms. cbn [mret M_ret].
    rewrite run_bind.
    destruct (random_choice_run terms w2 (catalog_terms_nonempty _ _ Hterms))
      as (term & w3 & -> & _ & _).
    destruct (keys_query_patterns_lookup _ (Hkeys _ Hpt)) as (f & Hf & Hin).
    rewrite run_bind. unfold getitem. rewrite Hf. cbn [mret M_ret].
    rewrite run_bind.
    destruct (pattern_func_run _ f term w3 Hin) as (q & w4 & ->).
    do 2 eexists. split; [reflexivity|]. by cbn. }
  destruct (for_fold_appends
              (fun x q =>
                 q_domain q = x
                 /\ (pattern_query probe q /\ q_type q = "optimized"))
              (fun queries domain =>
                 pattern_type ← random_choice choices;
                 terms ← getitem domains domain;
                 term ← random_choice terms;
                 pattern_func ← getitem query_patterns pattern_type;
                 q ← pattern_func term;
                 mret (queries ++
                   [{| q_query := q; q_type := "optimized";
                       q_description :=
                         "Optimized " +:+ pattern_type +:+ " query for " +:+ domain;
                       q_domain := domain |}])%list)
              xs Hbody [] w1) as (qs & w2 & -> & Hqs).
  exists qs, w2. cbn [app]. split; [done|].
  pose proof (Forall2_length _ _ _ Hqs) as Hl.
  apply Forall2_fmap_eq in Hqs as [Hd Hall].
  split; [lia|]. split; [by rewrite Hd | done].
Qed.

(** X18.  In the optimization phase, when [successful_domains] holds
    catalog domains only and every learned pattern label is a key of
    [query_patterns] (as when none was learned, or only ["simple"]),
    [generate_next_queries] returns one or two queries of type
    ["optimized"] for different domains, and leaves the instance as it
    was. *)
Theorem optimized_batch w fuel previous_results :
  phase_of w = optimization ->
  (forall d, d ∈ successful_domains (learned_patterns (self w)) ->
     d ∈ keys domains) ->
  (forall p, p ∈ successful_patterns (learned_patterns (self w)) ->
     p ∈ keys query_patterns) ->
  exists queries w',
    generate_next_queries fuel previous_results w = (Ok queries, w')
    /\ length queries = Nat.min 2 (size (domains_to_probe (self w)))
    /\ 1 <= length queries <= 2
    /\ NoDup (q_domain <$> queries)
    /\ Forall (fun q =>
         pattern_query (domains_to_probe (self w)) q
         /\ q_type q = "optimized") queries
    /\ self w' = self w.
Proof.
  intros Hphase Hsd Hpats.
  destruct (optimized_run w Hsd Hpats) as (qs & w1 & E & Hlen & Hnd & Hall).
  destruct (generate_returns fuel previous_results w qs w1) as [w' E'].
  { by rewrite Hphase. }
  exists qs, w'. split; [done|]. split; [done|].
  pose proof (sample_size_bounds _ (domains_to_probe_nonempty (self w))) as [_ H].
  split; [lia|]. split; [done|]. split; [done|].
  apply generate_next_queries_result in E'. cbn [is_ok] in E'.
  unfold advanced in E'. unfold phase_of in Hphase. by rewrite Hphase in E'.
Qed.

Lemma optimized_batch_witness :
  let w := run_generates (replicate 6 (0, ∅)) world0 in
  phase_of w = optimization
  /\ (forall d, d ∈ successful_domains (learned_patterns (self w)) ->
        d ∈ keys domains)
  /\ (forall p, p ∈ successful_patterns (learned_patterns (self w)) ->
        p ∈ keys query_patterns)
  /\ exists queries w',
      generate_next_queries 0 ∅ w = (Ok queries, w')
      /\ length queries = Nat.min 2 (size (domains_to_probe (self w)))
      /\ 1 <= length queries <= 2
      /\ NoDup (q_domain <$> queries)
      /\ Forall (fun q =>
           pattern_query (domains_to_probe (self w)) q
           /\ q_type q = "optimized") queries
      /\ self w' = self w.
Proof.
  intros w.
  assert (phase_of w = optimization) as Hphase by (vm_compute; reflexivity).
  assert (successful_domains (learned_patterns (self w)) = ∅) as Hempty.
  { apply (bool_decide_unpack _). vm_compute. exact I. }
  assert (successful_patterns (learned_patterns (self w)) = []) as Hnone
    by (vm_compute; reflexivity).
  assert (forall d, d ∈ successful_domains (learned_patterns (self w)) ->
            d ∈ keys domains) as Hsd.
  { intros d Hd. rewrite Hempty in Hd. apply elem_of_empty in Hd.
    destruct Hd. }
  assert (forall p, p ∈ successful_patterns (learned_patterns (self w)) ->
            p ∈ keys query_patterns) as Hpats.
  { intros p Hp. rewrite Hnone in Hp. apply elem_of_nil in Hp. destruct Hp. }
  split; [exact Hphase|]. split; [exact Hsd|]. split; [exact Hpats|].
  exact (optimized_batch w 0 ∅ Hphase Hsd Hpats).
Defined.

Lemma foreign_labels p :
  p ∈ pattern_labels -> p <> "simple" -> dict_get p query_patterns = None.
Proof.
  unfold pattern_labels. rewrite !elem_of_cons, elem_of_nil.
  intros [->|[->|[->|[->|[->|[]]]]]] Hne; done.
Qed.

(** X19.  In the optimization phase of a reachable state, as soon as some
    pattern label has been learned and ["simple"] is not among them,
    [generate_next_queries] raises [KeyError] whatever is drawn, and leaves
    the instance as it was: every later call raises again. *)
Theorem learned_labels_break_optimization w fuel previous_results :
  reachable w ->
  phase_of w = optimization ->
  successful_patterns (learned_patterns (self w)) <> [] ->
  "simple" ∉ successful_patterns (learned_patterns (self w)) ->
  exists k w',
    generate_next_queries fuel previous_results w = (Raise (KeyError k), w')
    /\ self w' = self w.
Proof.
  intros Hw Hphase Hne Hsimple.
  destruct (reachable_lists_ok w Hw) as (_ & Hlabels & _).
  destruct (optimized_queries_raise w Hne) as (k & w1 & E & _).
  { intros p Hp. apply foreign_labels; [by apply Hlabels|].
    intros ->. done. }
  pose proof (generate_next_queries_outcome fuel previous_results w) as Ho.
  rewrite Hphase, E in Ho.
  destruct (generate_next_queries fuel previous_results w) as [o w'] eqn:E'.
  cbn [fst] in Ho. subst o. exists k, w'. split; [done|].
  apply generate_next_queries_result in E'. by cbn [is_ok] in E'.
Qed.

Lemma learned_labels_break_optimization_witness :
  let w :=
    run_generates (replicate 6 (0, ∅))
      (after (analyze_response "python AND guide" [python_hit]) world0) in
  reachable w
  /\ phase_of w = optimization
  /\ successful_patterns (learned_patterns (self w)) <> []
  /\ ("simple" ∉ successful_patterns (learned_patterns (self w)))
  /\ exists k w',
      generate_next_queries 0 ∅ w = (Raise (KeyError k), w')
      /\ self w' = self w.
Proof.
  intros w.
  assert (reachable w) as Hw.
  { apply run_generates_reachable. constructor. apply reachable_fresh. }
  assert (phase_of w = optimization) as Hphase by (vm_compute; reflexivity).
  assert (successful_patterns (learned_patterns (self w)) = ["compound"])
    as Hpats by (vm_compute; reflexivity).
  assert (successful_patterns (learned_patterns (self w)) <> []) as Hne.
  { rewrite Hpats. discriminate. }
  assert ("simple" ∉ successful_patterns (learned_patterns (self w))) as Hs.
  { rewrite Hpats. intros H. apply list_elem_of_singleton in H. discriminate. }
  split; [exact Hw|]. split; [exact Hphase|]. split; [exact Hne|].
  split; [exact Hs|].
  exact (learned_labels_break_optimization w 0 ∅ Hw Hphase Hne Hs).
Defined.

Lemma sample_of_general w :
  successful_domains (learned_patterns (self w)) = {["general"]} ->
  exists w1,
    random_sample (elements (domains_to_probe (self w)))
      (Nat.min 2 (size (domains_to_probe (self w)))) w
    = (Ok ["general"], w1).
Proof.
  intros Hsd.
  assert (domains_to_probe (self w) = {["general"]}) as ->.
  { unfold domains_to_probe, nonempty. rewrite Hsd.
    rewrite bool_decide_eq_false_2; [done|]. apply non_empty_singleton_L. }
  rewrite size_singleton, elements_singleton. cbn [Nat.min].
  destruct (random_sample_run 1 ["general"] w) as (xs & w1 & E & Hlen & Hsub & _).
  { cbn. lia. }
  exists w1. rewrite E. f_equal. f_equal.
  destruct xs as [|x [|y xs]]; cbn in Hlen; try lia.
  assert (x ∈ ["general"]) as Hx by (apply Hsub; left).
  apply list_elem_of_singleton in Hx. by subst.
Qed.

(** X20.  A successful response to a query that overlaps no domain puts
    ["general"] into [successful_domains] before the call raises; and in a
    state where ["general"] is the only successful domain, every
    [generate_next_queries] call of the pattern-exploration and
    optimization phases raises [KeyError("general")], whatever is
    drawn. *)
Theorem general_poisons_generation w query rs fuel previous_results :
  (overlaps_no_domain query = true -> rs <> [] ->
   "general"
   ∈ successful_domains
       (learned_patterns (self (after (analyze_response query rs) w))))
  /\ (successful_domains (learned_patterns (self w)) = {["general"]} ->
      phase_of w <> domain_exploration ->
      exists w',
        generate_next_queries fuel previous_results w
        = (Raise (KeyError "general"), w')).
Proof.
  split.
  - intros Hno Hne. rewrite analyze_response_after.
    cbn [put self analyzed learned_patterns]. unfold learn.
    destruct rs; [done|]. cbn [truthy successful_domains].
    rewrite (identify_domain_general _ Hno). apply elem_of_union. right.
    by apply elem_of_singleton.
  - intros Hsd Hphase.
    assert (dict_get "general" domains = None) as Hnone.
    { apply dict_get_None, general_not_in_catalog. }
    pose proof (generate_next_queries_outcome fuel previous_results w) as Ho.
    destruct (sample_of_general w Hsd) as (w1 & Esample).
    assert ((generate_next_queries fuel previous_results w).1
            = Raise (KeyError "general")) as Hraise.
    { rewrite Ho. destruct (phase_of w); [done| |].
      - unfold _generate_pattern_exploration_queries.
        rewrite run_bind. cbn [get]. rewrite run_bind, Esample.
        cbn [for_fold]. rewrite run_bind, run_bind. unfold getitem at 1.
        by rewrite Hnone.
      - unfold _generate_optimized_queries.
        rewrite run_bind. cbn [get]. rewrite run_bind, Esample.
        cbn [for_fold]. rewrite run_bind, run_bind.
        set (choices := if truthy _ then _ else _).
        assert (choices <> []) as Hchoices.
        { unfold choices.
          destruct (successful_patterns (learned_patterns (self w))); done. }
        destruct (random_choice_run choices w1 Hchoices) as (p & w2 & -> & _).
        rewrite run_bind. unfold getitem at 1. by rewrite Hnone. }
    destruct (generate_next_queries fuel previous_results w) as [o w'].
    cbn [fst] in Hraise. subst o. by exists w'.
Qed.

Lemma general_poisons_generation_witness :
  let w0 := after (analyze_response "data mining" [python_hit]) world0 in
  let w := run_generates (replicate 3 (0, ∅)) w0 in
  overlaps_no_domain "data mining" = true
  /\ [python_hit] <> []
  /\ "general" ∈ successful_domains (learned_patterns (self w0))
  /\ successful_domains (learned_patterns (self w)) = {["general"]}
  /\ phase_of w <> domain_exploration
  /\ exists w',
      generate_next_queries 0 ∅ w = (Raise (KeyError "general"), w').
Proof.
  intros w0 w.
  assert (overlaps_no_domain "data mining" = true) as Hno
    by (vm_compute; reflexivity).
  assert ([python_hit] <> []) as Hne by discriminate.
  assert (successful_domains (learned_patterns (self w)) = {["general"]}) as Hsd.
  { apply (bool_decide_unpack _). vm_compute. exact I. }
  assert (phase_of w = pattern_exploration) as Hphase
    by (vm_compute; reflexivity).
  assert (phase_of w <> domain_exploration) as Hphase'.
  { rewrite Hphase. discriminate. }
  split; [exact Hno|]. split; [exact Hne|]. split.
  - exact (proj1 (general_poisons_generation world0 "data mining" [python_hit]
                    0 ∅) Hno Hne).
  - split; [exact Hsd|]. split; [exact Hphase'|].
    exact (proj2 (general_poisons_generation w "data mining" [python_hit] 0 ∅)
             Hsd Hphase').
Defined.

(** ** The test suite *)

Lemma run_bind_R {A B : Type} (m : R A) (f : A -> R B) lab :
  (m ≫= f) lab
  = match m lab with
    | (Returned a, lab') => f a lab'
    | (Aborted e, lab') => (Aborted e, lab')
    end.
Proof. reflexivity. Qed.

Lemma store_sample_run query rs lab :
  let analysis :=
    {| results := rs;
       timestamp := clock lab (readings lab);
       characteristics := analyze_results rs;
       timing :=
         (clock lab (S (S (readings lab))) - clock lab (S (readings lab)))%Q |} in
  store_sample query rs lab
  = (Returned analysis,
     with_database (<[query := analysis]> (results_database lab))
       (clock_read (clock_read (clock_read lab)))).
Proof. reflexivity. Qed.

Lemma analyzed_known_domains query rs s old :
  keys (domain_weights s) = keys domains ->
  dict_get (_identify_domain query) (domain_weights s) = Some old ->
  known_domains s -> known_domains (analyzed query rs s).
Proof.
  intros Hkeys Hget Hknown d. unfold analyzed. cbn [learned_patterns].
  unfold learn. destruct (truthy rs); cbn [successful_domains]; [|apply Hknown].
  rewrite elem_of_union, elem_of_singleton. intros [Hd| ->]; [by apply Hknown|].
  rewrite <- Hkeys. apply dict_get_is_Some. by rewrite Hget.
Qed.

Lemma count_dict_set (p : string * Q -> bool) k v d :
  count p d <= S (count p (dict_set k v d)).
Proof.
  unfold count. induction d as [|[k0 v0] d IH]; cbn [dict_set].
  - cbn. lia.
  - destruct (decide (k0 = k)) as [->|Hk]; cbn [List.filter].
    + destruct (p (k, v0)), (p (k, v)); cbn [length]; lia.
    + destruct (p (k0, v0)); cbn [length]; lia.
Qed.

Lemma missing_domain_is_general query s :
  keys (domain_weights s) = keys domains ->
  dict_get (_identify_domain query) (domain_weights s) = None ->
  _identify_domain query = "general".
Proof.
  intros Hkeys Hget. apply dict_get_None in Hget. rewrite Hkeys in Hget.
  apply identify_domain_general.
  destruct (overlaps_no_domain query) eqn:E; [done|].
  by apply identify_domain_catalog in E.
Qed.

(** One pass of the shared lines *)
Lemma probe_runs target_url results test lab :
  steady lab ->
  match probe target_url results test lab with
  | (Returned results', lab') =>
      steady lab'
      /\ progress (strategy_of lab') = progress (strategy_of lab)
      /\ (exists analysis,
            results' = <[q_query test := analysis]> results
            /\ results_database lab'
               = <[q_query test := analysis]> (results_database lab))
      /\ requests lab' = S (requests lab)
      /\ readings lab' = 3 + readings lab
      /\ (forall clk, store_ok clk lab -> store_ok clk lab')
  | (Aborted e, lab') => expected e
  end.
Proof.
  intros (Hreach & Hknown & Hsupply). unfold probe. rewrite run_bind_R.
  unfold search at 1.
  destruct (perform_search _ _ _) as [rs|]; [|by left].
  rewrite run_bind_R, store_sample_run. cbv zeta. rewrite run_bind_R.
  unfold strategy_call at 1. cbn [adaptive_strategy with_database clock_read
    request_sent].
  pose proof (reachable_weights_ok _ Hreach) as [Hkeys _].
  destruct (analyze_response_run (q_query test) rs (adaptive_strategy lab))
    as (s1 & _ & _ & _ & _ & _ & _ & _ & Hcases).
  pose proof (analyze_response_after (q_query test) rs (adaptive_strategy lab))
    as Hafter.
  unfold after in Hafter.
  destruct (analyze_response (q_query test) rs (adaptive_strategy lab))
    as [o w'].
  cbn [snd] in Hafter. subst w'.
  destruct (dict_get _ _) as [old|] eqn:Hget.
  - injection Hcases as -> _.
    unfold mret, R_ret, steady, strategy_of.
    cbn [adaptive_strategy with_strategy results_database requests readings
         with_database clock_read request_sent].
    rewrite put_self. split_and!.
    + rewrite <- analyze_response_after. by constructor.
    + by apply analyzed_known_domains with old.
    + unfold analyzed. cbn [domain_weights].
      unfold strategy_of in Hget, Hsupply. rewrite Hget.
      pose proof (count_dict_set certain (_identify_domain (q_query test))
                    (new_weight (truthy rs) old)
                    (domain_weights (self (adaptive_strategy lab)))).
      lia.
    + done.
    + eexists. split; reflexivity.
    + reflexivity.
    + reflexivity.
    + intros clk (Hclk & Hread & Hstore). unfold store_ok.
      cbn [clock readings requests results_database with_strategy
           with_database clock_read request_sent].
      split; [done|]. split; [lia|].
      intros query r Hr. apply lookup_insert_Some in Hr as [[_ <-]|[_ Hr]].
      * split; [reflexivity|]. exists (requests lab).
        cbn [timestamp timing]. rewrite Hclk, Hread.
        split; [lia|]. split; [reflexivity|].
        by replace (3 * requests lab + 2) with (S (S (3 * requests lab)))
          by lia; replace (3 * requests lab + 1) with (S (3 * requests lab))
          by lia.
      * destruct (Hstore query r Hr) as (Hc & i & Hi & Ht).
        split; [done|]. exists i. split; [lia|done].
  - injection Hcases as -> _. right.
    by rewrite (missing_domain_is_general _ _ Hkeys Hget).
Qed.

(** The inner loop *)
Lemma probes_run target_url tests :
  forall results lab,
    steady lab ->
    match for_each tests results (probe target_url) lab with
    | (Returned results', lab') =>
        steady lab'
        /\ progress (strategy_of lab') = progress (strategy_of lab)
        /\ (results_database lab = results -> results_database lab' = results')
        /\ (results ≠ ∅ -> results' ≠ ∅)
        /\ size (results_database lab')
           <= length tests + size (results_database lab)
        /\ requests lab' = length tests + requests lab
        /\ readings lab' = 3 * length tests + readings lab
        /\ (forall clk, store_ok clk lab -> store_ok clk lab')
    | (Aborted e, lab') => expected e
    end.
Proof.
  induction tests as [|test tests IH]; intros results lab Hst.
  - cbn. split_and!; done.
  - cbn [for_each]. rewrite run_bind_R.
    pose proof (probe_runs target_url results test lab Hst) as Hprobe.
    destruct (probe _ _ _ _) as [[results1|e] lab1]; [|done].
    destruct Hprobe
      as (Hst1 & Hpr1 & (analysis & -> & Hdb1) & Hreq1 & Hread1 & Hstore1).
    specialize (IH (<[q_query test := analysis]> results) lab1 Hst1).
    destruct (for_each _ _ _ _) as [[results'|e] lab']; [|done].
    destruct IH
      as (Hst2 & Hpr2 & Hdb2 & Hne2 & Hsize2 & Hreq2 & Hread2 & Hstore2).
    split_and!.
    + done.
    + by rewrite Hpr2.
    + intros Hdb. apply Hdb2. by rewrite Hdb1, Hdb.
    + intros _. apply Hne2. apply insert_non_empty.
    + rewrite Hdb1 in Hsize2.
      pose proof (map_size_insert (q_query test) analysis (results_database lab))
        as Hins.
      destruct (results_database lab !! q_query test);
        cbn [length]; unfold id in Hins; lia.
    + rewrite Hreq2, Hreq1. cbn [length]. lia.
    + rewrite Hread2, Hread1. cbn [length]. lia.
    + intros clk H. by apply Hstore2, Hstore1.
Qed.

Lemma reachable_max_rounds w :
  reachable w -> max_exploration_rounds (self w) = 3.
Proof.
  intros Hw.
  apply (reachable_self_ind (fun s => max_exploration_rounds s = 3));
    [| | |exact Hw].
  - reflexivity.
  - intros s q rs H. exact H.
  - intros s H. unfold advanced.
    destruct (current_phase s); [| |done];
      by destruct (_ <=? _)%nat.
Qed.

Lemma advanced_progress s :
  max_exploration_rounds s = 3 ->
  progress (advanced s) = next_round (progress s).
Proof.
  intros Hmax. unfold advanced, next_round, progress. cbn [fst snd].
  rewrite Hmax.
  destruct (current_phase s) eqn:Hp.
  - destruct (3 <=? S (exploration_rounds s))%nat;
      reflexivity || (cbn; by rewrite ?Hp).
  - change (3 * 2) with 6.
    destruct (6 <=? S (exploration_rounds s))%nat;
      reflexivity || (cbn; by rewrite ?Hp).
  - by rewrite Hp.
Qed.

(** A [generate_next_queries] call of a run, before the optimization phase
    and while at most 14 requests were sent *)
Lemma generate_call fuel previous_results lab :
  steady lab ->
  (progress (strategy_of lab)).1 <> optimization ->
  requests lab <= 14 ->
  exists queries w',
    strategy_call (generate_next_queries fuel previous_results) lab
    = (Returned queries, with_strategy w' lab)
    /\ steady (with_strategy w' lab)
    /\ progress (self w') = next_round (progress (strategy_of lab))
    /\ match (progress (strategy_of lab)).1 with
       | domain_exploration => length queries = 3
       | pattern_exploration => 1 <= length queries <= 2
       | optimization => True
       end.
Proof.
  intros (Hreach & Hknown & Hsupply) Hphase Hreq.
  unfold strategy_of, progress in *. cbn [fst] in *.
  assert (length domains = 17) as Hlen by reflexivity.
  pose proof (generate_next_queries_outcome fuel previous_results
                (adaptive_strategy lab)) as Hout.
  assert (exists queries,
            (generate_next_queries fuel previous_results (adaptive_strategy lab)).1
            = Ok queries
            /\ match current_phase (self (adaptive_strategy lab)) with
               | domain_exploration => length queries = 3
               | pattern_exploration => 1 <= length queries <= 2
               | optimization => True
               end) as (queries & Hok & Hsize).
  { rewrite Hout. unfold phase_of.
    destruct (current_phase (self (adaptive_strategy lab))); [| |done].
    - pose proof (domain_exploration_run fuel (adaptive_strategy lab)) as Hrun.
      destruct (_generate_domain_exploration_queries fuel (adaptive_strategy lab)).1
        as [queries| |].
      + exists queries. split; [done|]. apply Hrun.
        by apply reachable_weights_ok in Hreach as [? _].
      + destruct Hrun. by apply reachable_weights_ok in Hreach as [? _].
      + assert (count certain (domain_weights (self (adaptive_strategy lab))) < 3).
        { apply Hrun. by apply reachable_weights_ok in Hreach as [? _]. }
        lia.
    - destruct (pattern_exploration_run (adaptive_strategy lab) Hknown)
        as (qs & w1 & E & Hl & _).
      rewrite E. exists qs. split; [done|].
      pose proof (sample_size_bounds _
                    (domains_to_probe_nonempty (self (adaptive_strategy lab))))
        as [_ H].
      lia. }
  clear Hout.
  destruct (generate_next_queries fuel previous_results (adaptive_strategy lab))
    as [o w'] eqn:Hgen.
  cbn [fst] in Hok. subst o.
  pose proof (generate_next_queries_result _ _ _ _ _ Hgen) as Hself.
  cbn [is_ok] in Hself.
  exists queries, w'. unfold strategy_call. rewrite Hgen. split_and!.
  - done.
  - unfold steady, strategy_of. cbn [adaptive_strategy with_strategy requests].
    split_and!.
    + replace w' with (after (generate_next_queries fuel previous_results)
                         (adaptive_strategy lab))
        by (unfold after; by rewrite Hgen).
      by constructor.
    + unfold known_domains. rewrite Hself, (proj1 (advanced_learned _)).
      exact Hknown.
    + rewrite Hself, (proj2 (proj2 (advanced_learned _))). exact Hsupply.
  - rewrite Hself. apply advanced_progress. by apply reachable_max_rounds.
  - exact Hsize.
Qed.

(** The body of the outer loop *)
Lemma probe_and_follow_runs fuel target_url results test lab :
  steady lab ->
  (progress (strategy_of lab)).1 <> optimization ->
  requests lab < 14 ->
  match probe_and_follow fuel target_url results test lab with
  | (Returned results', lab') =>
      steady lab'
      /\ progress (strategy_of lab') = next_round (progress (strategy_of lab))
      /\ (results_database lab = results -> results_database lab' = results')
      /\ results' ≠ ∅
      /\ exists n,
           requests lab' = S n + requests lab
           /\ readings lab' = 3 * S n + readings lab
           /\ size (results_database lab') <= S n + size (results_database lab)
           /\ match (progress (strategy_of lab)).1 with
              | domain_exploration => n = 3
              | pattern_exploration => 1 <= n <= 2
              | optimization => True
              end
           /\ (forall clk, store_ok clk lab -> store_ok clk lab')
  | (Aborted e, lab') => expected e
  end.
Proof.
  intros Hst Hphase Hreq. unfold probe_and_follow. rewrite run_bind_R.
  pose proof (probe_runs target_url results test lab Hst) as Hprobe.
  destruct (probe _ _ _ _) as [[results1|e] lab1]; [|done].
  destruct Hprobe
    as (Hst1 & Hpr1 & (analysis & -> & Hdb1) & Hreq1 & Hread1 & Hstore1).
  rewrite run_bind_R.
  destruct (generate_call fuel (<[q_query test := analysis]> results) lab1)
    as (queries & w2 & -> & Hst2 & Hpr2 & Hlen);
    [done | by rewrite Hpr1 | lia |].
  pose proof (probes_run target_url queries
                (<[q_query test := analysis]> results) (with_strategy w2 lab1)
                Hst2) as Hloop.
  replace (if truthy queries
           then for_each queries (<[q_query test := analysis]> results)
                  (probe target_url)
           else mret (<[q_query test := analysis]> results))
    with (for_each queries (<[q_query test := analysis]> results)
            (probe target_url))
    by (by destruct queries).
  destruct (for_each _ _ _ _) as [[results'|e] lab']; [|done].
  destruct Hloop
    as (Hst3 & Hpr3 & Hdb3 & Hne3 & Hsize3 & Hreq3 & Hread3 & Hstore3).
  cbn [requests readings results_database with_strategy] in *.
  split_and!.
  - done.
  - rewrite Hpr3. unfold strategy_of at 1. cbn [adaptive_strategy with_strategy].
    by rewrite Hpr2, <- Hpr1.
  - intros Hdb. apply Hdb3. by rewrite Hdb1, Hdb.
  - apply Hne3, insert_non_empty.
  - exists (length queries).
    split; [lia|]. split; [lia|]. split; [|split].
    + rewrite Hdb1 in Hsize3.
      pose proof (map_size_insert (q_query test) analysis (results_database lab))
        as Hins.
      destruct (results_database lab !! q_query test); unfold id in Hins; lia.
    + rewrite <- Hpr1. exact Hlen.
    + intros clk H. apply Hstore3. apply Hstore1 in H. exact H.
Qed.

Lemma new_lab_steady tp c ep clk : steady (new_lab tp c ep clk).
Proof.
  split_and!.
  - apply reachable_fresh.
  - intros d Hd. apply elem_of_empty in Hd. destruct Hd.
  - vm_compute. lia.
Qed.

(** A whole run, from a new engineer *)
Lemma run_test_suite_runs fuel target_url tp c ep clk :
  match run_test_suite fuel target_url (new_lab tp c ep clk) with
  | (Returned report, lab') =>
      report
      = report_of (generate_hypothesis (results_database lab'))
          (get_learning_status (strategy_of lab'))
      /\ results_database lab' ≠ ∅
      /\ steady lab'
      /\ progress (strategy_of lab') = (pattern_exploration, 4)
      /\ (requests lab' = 10 \/ requests lab' = 11)
      /\ readings lab' = 3 * requests lab'
      /\ size (results_database lab') <= requests lab'
      /\ store_ok clk lab'
  | (Aborted e, lab') => expected e
  end.
Proof.
  pose proof (new_lab_steady tp c ep clk) as Hst.
  assert (progress (strategy_of (new_lab tp c ep clk)) = (domain_exploration, 0))
    as Hp by reflexivity.
  assert (results_database (new_lab tp c ep clk) = ∅) as Hdb by reflexivity.
  assert (requests (new_lab tp c ep clk) = 0) as Hreq by reflexivity.
  assert (readings (new_lab tp c ep clk) = 0) as Hread by reflexivity.
  assert (store_ok clk (new_lab tp c ep clk)) as Hstore.
  { split; [reflexivity|]. split; [reflexivity|]. intros query r Hr.
    cbn in Hr. by rewrite lookup_empty in Hr. }
  generalize dependent (new_lab tp c ep clk).
  intros lab Hst Hp Hdb Hreq Hread Hstore.
  unfold run_test_suite. rewrite run_bind_R.
  destruct (generate_call fuel ∅ lab) as (test_cases & w0 & -> & Hst0 & Hp0 & Hlen);
    [done | by rewrite Hp | lia |].
  rewrite Hp in Hp0, Hlen. cbn in Hp0. cbn [fst] in Hlen.
  destruct test_cases as [|t1 [|t2 [|t3 [|]]]]; try discriminate Hlen. clear Hlen.
  set (lab0 := with_strategy w0 lab) in *.
  assert (progress (strategy_of lab0) = (domain_exploration, 1)) as Hpr0
    by exact Hp0.
  assert (results_database lab0 = ∅) as Hdb0 by exact Hdb.
  assert (requests lab0 = 0) as Hreq0 by exact Hreq.
  assert (readings lab0 = 0) as Hread0 by exact Hread.
  assert (size (results_database lab0) = 0) as Hsize0
    by (rewrite Hdb0; apply map_size_empty).
  assert (store_ok clk lab0) as Hstore0 by exact Hstore.
  clearbody lab0. clear Hp0 Hst Hp Hdb Hreq Hread Hstore.
  rewrite run_bind_R. cbn [for_each]. rewrite run_bind_R.
  pose proof (probe_and_follow_runs fuel target_url ∅ t1 lab0 Hst0) as H1.
  destruct (probe_and_follow _ _ _ t1 lab0) as [[r1|e] lab1];
    [|apply H1; [by rewrite Hpr0 | lia]].
  destruct H1 as (Hst1 & Hp1 & Hdb1 & _ & n1 & Hreq1 & Hread1 & Hsize1 & Hn1
               & Hstore1);
    [by rewrite Hpr0 | lia |].
  rewrite Hpr0 in Hp1, Hn1. cbn in Hp1. cbn [fst] in Hn1.
  specialize (Hdb1 Hdb0).
  rewrite run_bind_R.
  pose proof (probe_and_follow_runs fuel target_url r1 t2 lab1 Hst1) as H2.
  destruct (probe_and_follow _ _ _ t2 lab1) as [[r2|e] lab2];
    [|apply H2; [by rewrite Hp1 | lia]].
  destruct H2 as (Hst2 & Hp2 & Hdb2 & _ & n2 & Hreq2 & Hread2 & Hsize2 & Hn2
               & Hstore2);
    [by rewrite Hp1 | lia |].
  rewrite Hp1 in Hp2, Hn2. cbn in Hp2. cbn [fst] in Hn2.
  specialize (Hdb2 Hdb1).
  rewrite run_bind_R.
  pose proof (probe_and_follow_runs fuel target_url r2 t3 lab2 Hst2) as H3.
  destruct (probe_and_follow _ _ _ t3 lab2) as [[r3|e] lab3];
    [|apply H3; [by rewrite Hp2 | lia]].
  destruct H3 as (Hst3 & Hp3 & Hdb3 & Hne3 & n3 & Hreq3 & Hread3 & Hsize3 & Hn3
               & Hstore3);
    [by rewrite Hp2 | lia |].
  rewrite Hp2 in Hp3, Hn3. cbn in Hp3. cbn [fst] in Hn3.
  specialize (Hdb3 Hdb2).
  cbn [for_each]. unfold mret at 1, R_ret. rewrite run_bind_R.
  unfold strategy_call at 1. rewrite run_bind. unfold get at 1.
  unfold mret at 1, M_ret. unfold mret, R_ret.
  destruct Hst3 as (Hreach3 & Hknown3 & Hsupply3).
  unfold steady, strategy_of in *.
  cbn [adaptive_strategy results_database requests readings with_strategy].
  split_and!;
    [by rewrite Hdb3|by rewrite Hdb3|done|done|done|done|lia|lia|lia|].
  by apply Hstore3, Hstore2, Hstore1.
Qed.


(** Each of the three ways happens, also with an endpoint that only times
    out: some draws end in a query that overlaps no domain. *)
Example run_test_suite_each_way :
  let url := "http://localhost:8000/search" in
  is_returned (run_test_suite 0 url quiet_lab).1 = true
  /\ (run_test_suite 0 url
        (new_lab shifted_tape 0 (always (RequestFailed Timeout)) ticking)).1
     = Aborted (StrategyRaised (KeyError "general"))
  /\ (run_test_suite 0 url (new_lab counting_tape 0 (always OtherFailure) ticking)).1
     = Aborted SearchRaised.
Proof. cbv zeta. split_and!; vm_compute; reflexivity. Qed.

(** X22.  The report of a run is computed from the engineer's own sample
    store: the local dict of the run and [results_database] hold the same
    samples, at least one and at most one per request.  The report has the
    three keys of the hypothesis before ["learning_status"], and its
    confidence score is 0.6 whatever was observed. *)
Theorem run_test_suite_report fuel target_url tp c ep clk report lab' :
  run_test_suite fuel target_url (new_lab tp c ep clk) = (Returned report, lab') ->
  let db := results_database lab' in
  0 < size db <= requests lab'
  /\ keys report
     = ["likely_algorithm"; "confidence_score"; "observed_patterns";
        "learning_status"]
  /\ dict_get "likely_algorithm" report
     = Some (Text (determine_algorithm_type db))
  /\ dict_get "observed_patterns" report = Some (PatternsOf (analyze_patterns db))
  /\ exists x,
       dict_get "confidence_score" report = Some (Number x) /\ (x == 0.6)%Q.
Proof.
  intros Hrun db.
  pose proof (run_test_suite_runs fuel target_url tp c ep clk) as H.
  rewrite Hrun in H. destruct H as (-> & Hne & _ & _ & _ & _ & Hsize & _).
  split_and!.
  - by apply size_nonempty.
  - exact Hsize.
  - reflexivity.
  - reflexivity.
  - reflexivity.
  - eexists. split; [reflexivity|]. by apply calculate_confidence_value.
Qed.

Lemma quiet_run_returns :
  is_returned (run_test_suite 0 "http://localhost:8000/search" quiet_lab).1 = true.
Proof. vm_compute. reflexivity. Qed.

Lemma run_test_suite_report_witness :
  exists report lab',
    run_test_suite 0 "http://localhost:8000/search" quiet_lab
    = (Returned report, lab')
    /\ 0 < size (results_database lab') <= requests lab'
    /\ keys report
       = ["likely_algorithm"; "confidence_score"; "observed_patterns";
          "learning_status"]
    /\ dict_get "likely_algorithm" report
       = Some (Text (determine_algorithm_type (results_database lab')))
    /\ dict_get "observed_patterns" report
       = Some (PatternsOf (analyze_patterns (results_database lab')))
    /\ exists x,
         dict_get "confidence_score" report = Some (Number x) /\ (x == 0.6)%Q.
Proof.
  destruct (run_test_suite 0 "http://localhost:8000/search" quiet_lab)
    as [[report|e] lab'] eqn:Hrun.
  - exists report, lab'. split; [reflexivity|].
    exact (run_test_suite_report 0 "http://localhost:8000/search"
             counting_tape 0 (always (RequestFailed Timeout)) ticking
             report lab' Hrun).
  - pose proof quiet_run_returns as H. rewrite Hrun in H. discriminate H.
Defined.

Lemma reachable_terms_ok w :
  reachable w -> terms_ok (learned_patterns (self w)).
Proof.
  intros Hw.
  apply (reachable_self_ind (fun s => terms_ok (learned_patterns s)));
    [| | |exact Hw].
  - split; intros x Hx; by apply elem_of_empty in Hx.
  - intros s q rs H. by apply learn_terms_ok.
  - intros s H. by rewrite (proj1 (advanced_learned s)).
Qed.

Lemma phase_name_optimization p :
  String.eqb (phase_name p) "optimization" = true <-> p = optimization.
Proof. destruct p; split; (done || discriminate). Qed.

Lemma behavior_of_status h w :
  reachable w ->
  analyze_search_behavior (report_of h (get_learning_status (self w)))
  = Some
      {| case_sensitive := false;
         uses_fuzzy_matching := false;
         removes_stop_words := false;
         considers_word_order :=
           String.eqb (phase_name (phase_of w)) "optimization";
         boosts_by_popularity := false;
         considers_recency := false |}.
Proof.
  intros Hw. unfold analyze_search_behavior, report_of.
  cbn [dict_get]. repeat (rewrite decide_False by discriminate).
  rewrite decide_True by reflexivity.
  cbn [dict_get]. repeat (rewrite decide_False by discriminate).
  cbn [mbind option_bind existsb get_learning_status status_phase
       status_learned_patterns].
  rewrite bool_decide_eq_false_2; [reflexivity|].
  intros Hin. apply (reachable_terms_ok w Hw) in Hin as [Halnum _].
  vm_compute in Halnum. discriminate Halnum.
Qed.

(** X23.  The flags of [analyze_search_behavior] do not depend on what was
    learned.  On a report built from the status of a reachable strategy
    [uses_fuzzy_matching] is False, the report having no key
    ["success_rates"] at its top level, and [removes_stop_words] is False,
    ["stop_words"] not being alphanumeric; [considers_word_order] tells
    whether the phase is [optimization].  A run of the test suite never
    ends in that phase, so on the report of a run all six flags are
    False. *)
Theorem behavior_flags_are_constant
  h w fuel target_url tp c ep clk report lab' :
  (reachable w ->
   exists word_order,
     analyze_search_behavior (report_of h (get_learning_status (self w)))
     = Some
         {| case_sensitive := false;
            uses_fuzzy_matching := false;
            removes_stop_words := false;
            considers_word_order := word_order;
            boosts_by_popularity := false;
            considers_recency := false |}
     /\ (word_order = true <-> phase_of w = optimization))
  /\ (run_test_suite fuel target_url (new_lab tp c ep clk)
      = (Returned report, lab') ->
      analyze_search_behavior report = Some no_behavior).
Proof.
  split.
  { intros Hw. eexists. split; [by apply behavior_of_status|].
    apply phase_name_optimization. }
  intros Hrun.
  pose proof (run_test_suite_runs fuel target_url tp c ep clk) as H.
  rewrite Hrun in H. destruct H as (-> & _ & (Hreach & _) & Hp & _).
  unfold strategy_of in *. rewrite behavior_of_status by done.
  unfold phase_of. injection Hp as Hphase _. by rewrite Hphase.
Qed.

Lemma behavior_flags_are_constant_witness :
  exists report lab',
    reachable world0
    /\ run_test_suite 0 "http://localhost:8000/search" quiet_lab
       = (Returned report, lab')
    /\ (exists word_order,
          analyze_search_behavior
            (report_of (generate_hypothesis ∅)
               (get_learning_status (self world0)))
          = Some
              {| case_sensitive := false;
                 uses_fuzzy_matching := false;
                 removes_stop_words := false;
                 considers_word_order := word_order;
                 boosts_by_popularity := false;
                 considers_recency := false |}
          /\ (word_order = true <-> phase_of world0 = optimization))
    /\ analyze_search_behavior report = Some no_behavior.
Proof.
  destruct (run_test_suite 0 "http://localhost:8000/search" quiet_lab)
    as [[report|e] lab'] eqn:Hrun.
  - exists report, lab'. split; [apply reachable_fresh|]. split; [reflexivity|].
    destruct (behavior_flags_are_constant (generate_hypothesis ∅) world0
                0 "http://localhost:8000/search"
                counting_tape 0 (always (RequestFailed Timeout)) ticking
                report lab') as [H1 H2].
    split; [apply H1, reachable_fresh | apply H2, Hrun].
  - pose proof quiet_run_returns as H. rewrite Hrun in H. discriminate H.
Defined.






(** ** Fuzzy matching of the mock server *)

Lemma mismatches_prefix a :
  forall b, String.prefix a b = true -> mismatches a b = 0 /\ mismatches b a = 0.
Proof.
  induction a as [|x a IH]; intros [|y b]; cbn; try done.
  destruct (ascii_dec x y) as [->|Hne]; [|discriminate].
  rewrite Ascii.eqb_refl. intros H. apply IH in H. lia.
Qed.

Lemma mismatches_sym a : forall b, mismatches a b = mismatches b a.
Proof.
  induction a as [|x a IH]; intros [|y b]; cbn; try done.
  rewrite (Ascii.eqb_sym x y). by rewrite IH.
Qed.

Lemma token_length t : is_token t = true -> 0 < String.length t.
Proof. destruct t; [discriminate|]. cbn. lia. Qed.

(** X25.  [_fuzzy_match] compares position by position.  A term of which
    a word of the content is a prefix, or which is a prefix of a word,
    matches when the lengths differ by at most one: a word itself, a word
    without its last character, a word with one character added.  The test
    on a word is symmetric.  The empty term matches exactly the contents
    that have a one-character word. *)
Theorem fuzzy_match_is_positional term word content :
  (word ∈ PyStr.split content ->
   String.prefix term word = true \/ String.prefix word term = true ->
   String.length term <= S (String.length word) ->
   String.length word <= S (String.length term) ->
   _fuzzy_match term content = true)
  /\ close_to term word = close_to word term
  /\ (_fuzzy_match EmptyString content = true
      <-> exists w, w ∈ PyStr.split content /\ String.length w = 1).
Proof.
  split_and!.
  - intros Hin Hprefix Hlen1 Hlen2. unfold _fuzzy_match.
    apply existsb_exists. exists word. split; [by apply list_elem_of_In|].
    unfold close_to. apply andb_true_iff. split.
    + apply Z.leb_le. lia.
    + apply Nat.leb_le.
      destruct Hprefix as [H|H]; apply mismatches_prefix in H; lia.
  - unfold close_to. rewrite (mismatches_sym term word). f_equal.
    f_equal. lia.
  - unfold _fuzzy_match. rewrite existsb_exists. split.
    + intros (w & Hin & Hclose). exists w.
      apply list_elem_of_In in Hin. split; [done|].
      pose proof (split_tokens content) as Htok.
      rewrite Forall_forall in Htok. apply Htok, token_length in Hin.
      unfold close_to in Hclose. apply andb_true_iff in Hclose as [Hlen _].
      apply Z.leb_le in Hlen. cbn [String.length] in Hlen. lia.
    + intros (w & Hin & Hlen). exists w. split; [by apply list_elem_of_In|].
      unfold close_to. rewrite Hlen. reflexivity.
Qed.

Lemma fuzzy_match_is_positional_witness :
  "python" ∈ PyStr.split "learn python"
  /\ String.prefix "pytho" "python" = true
  /\ String.length "pytho" <= S (String.length "python")
  /\ String.length "python" <= S (String.length "pytho")
  /\ _fuzzy_match "pytho" "learn python" = true
  /\ _fuzzy_match "pyhon" "learn python" = false.
Proof.
  assert ("python" ∈ PyStr.split "learn python") as Hin.
  { vm_compute. right. left. }
  split; [exact Hin|]. split; [reflexivity|].
  split; [cbn; lia|]. split; [cbn; lia|].
  split; [|reflexivity].
  apply (proj1 (fuzzy_match_is_positional "pytho" "python" "learn python"));
    [exact Hin | by left | cbn; lia | cbn; lia].
Defined.

(** ** A failed request within a run *)




